(** * MLOps image-classification pipeline: a shallow embedding

    The development follows the layout of the repository:

    - [Py]            the fragment of Python the sources rely on (exceptions,
                      [str.replace], slices, the stable [sorted]);
    - [App]           [app/app.py]: the retraining status record, the
                      background job [perform_retraining] and the [/retrain]
                      route;
    - [Preprocessing] [src/preprocessing.py];
    - [Model]         [src/model.py];
    - [Prediction]    [src/prediction.py];
    - [Samples]       concrete inputs: a small file system, a three-class
                      model, a service built on them;
    - [AppFacts], [PreprocessingFacts], [ModelFacts], [PredictionFacts]
                      what is proved of each module.

    Python floats are modelled by the rationals they denote ([Q]); the sources
    only convert and compare them, so NaN and the infinities are the only
    values left out.  Exceptions are instances of Python's [Exception], the
    class every handler of the sources catches. *)

From Stdlib Require Import ZArith QArith Qabs Lia Ascii String.
From Stdlib Require Import Sorted Permutation.
From Stdlib.Strings Require Import Byte.
From stdpp Require Import base option list strings pretty gmap.

Local Open Scope Z_scope.
Local Open Scope string_scope.

(* ===================================================================== *)
(** * Python fragments *)
(* ===================================================================== *)

Module Py.

(** The exception classes the sources raise or let through.  Every one of
    them derives from [Exception]. *)
Inductive exc_class :=
| ValueError
| FileNotFoundError
| KeyError
| IndexError
| TypeError
| OtherException (name : string).

(** [type(e).__name__] *)
Definition class_name (c : exc_class) : string :=
  match c with
  | ValueError => "ValueError"
  | FileNotFoundError => "FileNotFoundError"
  | KeyError => "KeyError"
  | IndexError => "IndexError"
  | TypeError => "TypeError"
  | OtherException name => name
  end.

(** An exception instance: its class and the text [str(e)] returns. *)
Record exn := Raise { exc_type : exc_class; exc_str : string }.

(** The outcome of evaluating Python code: a value or a raised exception. *)
Inductive py (A : Type) :=
| Return (a : A)
| Raised (e : exn).
Arguments Return {A} a.
Arguments Raised {A} e.

Definition bind {A B} (m : py A) (k : A -> py B) : py B :=
  match m with
  | Return a => k a
  | Raised e => Raised e
  end.

(** [try: m  except Exception as e: h e] *)
Definition try_except {A} (m : py A) (h : exn -> py A) : py A :=
  match m with
  | Return a => Return a
  | Raised e => h e
  end.

Definition returns {A} (m : py A) : bool :=
  match m with Return _ => true | Raised _ => false end.

(** ** Strings *)

(** [s.replace(old, new)] for a non-empty [old]: every occurrence, found
    from the left, occurrences not overlapping.  [skip] counts the
    characters of a matched occurrence still to be dropped. *)
Fixpoint replace_from (skip : nat) (old new s : string) : string :=
  match s with
  | EmptyString => EmptyString
  | String c s' =>
      match skip with
      | S k => replace_from k old new s'
      | O =>
          if String.prefix old s
          then new +:+ replace_from (String.length old - 1) old new s'
          else String c (replace_from 0 old new s')
      end
  end.

(** With an empty [old], Python puts [new] before every character and at
    the end. *)
Fixpoint replace_empty (new s : string) : string :=
  match s with
  | EmptyString => new
  | String c s' => new +:+ String c (replace_empty new s')
  end.

Definition str_replace (s old new : string) : string :=
  match old with
  | EmptyString => replace_empty new s
  | _ => replace_from 0 old new s
  end.

(** [s.endswith(suffix)] *)
Definition str_endswith (s suffix : string) : bool :=
  (String.length suffix <=? String.length s)%nat &&
  String.eqb
    (String.substring (String.length s - String.length suffix)
                      (String.length suffix) s)
    suffix.

(** [os.path.dirname] (posixpath): the part before the last slash, its
    trailing slashes removed unless it consists of slashes only. *)
Fixpoint after_last_slash (s : string) : nat :=
  match s with
  | EmptyString => O
  | String c s' =>
      match after_last_slash s' with
      | S n => S (S n)
      | O => if Ascii.eqb c "/"%char then 1%nat else O
      end
  end.

Fixpoint all_slashes (s : string) : bool :=
  match s with
  | EmptyString => true
  | String c s' => Ascii.eqb c "/"%char && all_slashes s'
  end.

Fixpoint rstrip_slashes (s : string) : string :=
  match s with
  | EmptyString => EmptyString
  | String c s' =>
      if all_slashes s then EmptyString else String c (rstrip_slashes s')
  end.

Definition dirname (p : string) : string :=
  let head := String.substring 0 (after_last_slash p) p in
  if all_slashes head then head else rstrip_slashes head.

(** ** Sequences *)

(** [l[:k]]: a negative [k] counts from the end. *)
Definition slice_to {A} (k : Z) (l : list A) : list A :=
  if (k <? 0)%Z
  then take (length l - Z.to_nat (- k)) l
  else take (Z.to_nat k) l.

(** [enumerate(l)], indices starting at [i]. *)
Fixpoint enumerate_from {A} (i : nat) (l : list A) : list (nat * A) :=
  match l with
  | [] => []
  | x :: l' => (i, x) :: enumerate_from (S i) l'
  end.

Definition enumerate {A} (l : list A) : list (nat * A) := enumerate_from 0 l.

(** [sorted(l, key=key, reverse=True)].  Python's sort is stable, also
    with [reverse=True]: items whose keys compare equal keep the order they
    had in [l].  A stable sort has one possible result, the one insertion
    from the right computes: an item moves behind those of the rest whose
    key is strictly greater, and behind no other. *)
Section sorted.
Context {A : Type} (key : A -> Q).

Definition key_lt (x y : A) : bool := negb (Qle_bool (key y) (key x)).

Fixpoint insert_desc (x : A) (l : list A) : list A :=
  match l with
  | [] => [x]
  | y :: l' => if key_lt x y then y :: insert_desc x l' else x :: y :: l'
  end.

Definition sorted_reverse (l : list A) : list A :=
  foldr insert_desc [] l.
End sorted.

(** The exact sum of the values of a sequence (no rounding). *)
Definition Qsum (l : list Q) : Q := foldr Qplus 0%Q l.

(** [np.argmax] of a vector: the first index where the maximum stands;
    numpy raises [ValueError] on an empty one. *)
Fixpoint argmax_from (i best : nat) (best_value : Q) (l : list Q) : nat :=
  match l with
  | [] => best
  | x :: l' =>
      if negb (Qle_bool x best_value)
      then argmax_from (S i) i x l'
      else argmax_from (S i) best best_value l'
  end.

Definition np_argmax (l : list Q) : py nat :=
  match l with
  | [] => Raised (Raise ValueError
                    "attempt to get argmax of an empty sequence")
  | x :: l' => Return (argmax_from 1 0 x l')
  end.

(** ** More of [str] and [os.path] *)

(** [sub in s] *)
Fixpoint str_contains (sub s : string) : bool :=
  match s with
  | EmptyString => String.prefix sub EmptyString
  | String _ s' => String.prefix sub s || str_contains sub s'
  end.

(** [s.lower()] on ASCII letters (bytes above 127 stay as they are). *)
Definition ascii_lower (c : ascii) : ascii :=
  let n := nat_of_ascii c in
  if (65 <=? n)%nat && (n <=? 90)%nat then ascii_of_nat (n + 32) else c.

Fixpoint str_lower (s : string) : string :=
  match s with
  | EmptyString => EmptyString
  | String c s' => String (ascii_lower c) (str_lower s')
  end.

(** The split of [s] at the last [sep], if [sep] occurs. *)
Fixpoint rpartition (sep : ascii) (s : string) : option (string * string) :=
  match s with
  | EmptyString => None
  | String c s' =>
      match rpartition sep s' with
      | Some (before, after) => Some (String c before, after)
      | None => if Ascii.eqb c sep then Some (EmptyString, s') else None
      end
  end.

(** [s.rsplit(sep, 1)] for a separator of one character. *)
Definition rsplit1 (s : string) (sep : ascii) : list string :=
  match rpartition sep s with
  | Some (before, after) => [before; after]
  | None => [s]
  end.

(** [os.path.basename] (posixpath): what follows the last slash. *)
Definition basename (p : string) : string :=
  String.substring (after_last_slash p)
                   (String.length p - after_last_slash p) p.

(** [os.path.join(a, b)] (posixpath, two arguments). *)
Definition path_join (a b : string) : string :=
  if String.prefix "/" b then b
  else if String.eqb a "" || str_endswith a "/" then a +:+ b
  else a +:+ "/" +:+ b.

(** [divmod(a, b)] *)
Definition divmod (a b : Z) : Z * Z := (a / b, a mod b)%Z.

End Py.

Import Py.

(** [py] is a monad; stdpp's [x ← m; k] notation sequences Python
    statements, an exception cutting the sequence short. *)
#[global] Instance py_ret : MRet py := fun A a => Return a.
#[global] Instance py_bind : MBind py := fun A B k m => bind m k.
#[global] Instance py_fmap : FMap py :=
  fun A B f m => bind m (fun a => Return (f a)).

(* ===================================================================== *)
(** * app/app.py: the retraining job *)
(* ===================================================================== *)

Module App.

(** [retraining_status], the process-wide dictionary. *)
Record RetrainingStatus := {
  is_running : bool;
  progress : Z;
  message : string;
  last_retrain_time : option string
}.

(** Its value when the module is loaded. *)
Definition initial_status : RetrainingStatus :=
  {| is_running := false; progress := 0; message := "";
     last_retrain_time := None |}.

(** The calls of [perform_retraining] into the other modules that may
    raise. *)
Inductive external :=
| create_train_generator   (* preprocessor.create_train_generator(TRAIN_DIR, ...) *)
| classifier_retrain       (* classifier.retrain(...) *)
| save_model_new           (* classifier.save_model(new_model_path) *)
| save_model_main.         (* classifier.save_model(MODEL_PATH) *)

(** What the job meets on one run: the outcome of each external call
    ([None]: it returns, [Some e]: it raises [e]), whether the reload of the
    prediction service works, and the wall clock. *)
Record world := {
  outcome : external -> option exn;
  reload_ok : bool;
  now_isoformat : string
}.

(** The statements of [perform_retraining], one constructor per kind. *)
Inductive stmt :=
| SetIsRunning (b : bool)        (* retraining_status['is_running'] = b *)
| SetProgress (n : Z)            (* retraining_status['progress'] = n *)
| SetMessage (s : string)        (* retraining_status['message'] = s *)
| SetLastRetrainTime             (* ...['last_retrain_time'] = datetime.now().isoformat() *)
| Construct                      (* ImagePreprocessor(...), ImageClassifier(...) *)
| Call (f : external)
| CallInitializeModel.           (* initialize_model(), result dropped *)

(** [initialize_model] catches every exception itself and answers with a
    boolean. *)
Definition initialize_model (w : world) : py bool := Return (reload_ok w).

Definition exec_stmt (w : world) (s : stmt) (st : RetrainingStatus)
  : py RetrainingStatus :=
  match s with
  | SetIsRunning b =>
      Return {| is_running := b; progress := progress st;
                message := message st;
                last_retrain_time := last_retrain_time st |}
  | SetProgress n =>
      Return {| is_running := is_running st; progress := n;
                message := message st;
                last_retrain_time := last_retrain_time st |}
  | SetMessage m =>
      Return {| is_running := is_running st; progress := progress st;
                message := m;
                last_retrain_time := last_retrain_time st |}
  | SetLastRetrainTime =>
      Return {| is_running := is_running st; progress := progress st;
                message := message st;
                last_retrain_time := Some (now_isoformat w) |}
  | Construct => Return st
  | Call f =>
      match outcome w f with
      | None => Return st
      | Some e => Raised e
      end
  | CallInitializeModel =>
      bind (initialize_model w) (fun _ => Return st)
  end.

(** No statement but a [Call] can raise. *)
Definition is_call (s : stmt) : bool :=
  match s with Call _ => true | _ => false end.

(** The body of the [try] block, statement by statement. *)
Definition try_block : list stmt :=
  [ SetIsRunning true;
    SetProgress 0;
    SetMessage "Initializing retraining...";
    Construct;
    SetProgress 10;
    SetMessage "Loading data...";
    Call create_train_generator;
    SetProgress 30;
    SetMessage "Retraining model...";
    Call classifier_retrain;
    SetProgress 80;
    SetMessage "Saving retrained model...";
    Call save_model_new;
    Call save_model_main;
    SetProgress 90;
    SetMessage "Reloading model...";
    CallInitializeModel;
    SetProgress 100;
    SetMessage "Retraining completed successfully!";
    SetLastRetrainTime ].

(** [except Exception as e:] *)
Definition except_block (e : exn) : list stmt :=
  [ SetMessage ("Error during retraining: " +:+ exc_str e);
    SetProgress 0 ].

(** [finally:] *)
Definition finally_block : list stmt :=
  [ SetIsRunning false ].

(** Running a block: the status reached, and the exception that stopped it
    if one was raised. *)
Fixpoint exec_block (w : world) (b : list stmt) (st : RetrainingStatus)
  : RetrainingStatus * option exn :=
  match b with
  | [] => (st, None)
  | s :: b' =>
      match exec_stmt w s st with
      | Return st' => exec_block w b' st'
      | Raised e => (st, Some e)
      end
  end.

(** [try: body  except Exception as e: handler e  finally: final]: the
    status at the end and the exception that leaves the statement, if any. *)
Definition try_except_finally (w : world)
    (body : list stmt) (handler : exn -> list stmt) (final : list stmt)
    (st : RetrainingStatus) : RetrainingStatus * option exn :=
  let '(st1, r1) := exec_block w body st in
  let '(st2, r2) :=
    match r1 with
    | None => (st1, None)
    | Some e => exec_block w (handler e) st1
    end in
  let '(st3, r3) := exec_block w final st2 in
  (st3, match r3 with Some e => Some e | None => r2 end).

Definition perform_retraining (w : world) (st : RetrainingStatus)
  : RetrainingStatus * option exn :=
  try_except_finally w try_block except_block finally_block st.

(** The exception raised inside the [try] block of a run, if any. *)
Definition raised_in_try (w : world) (st : RetrainingStatus) : option exn :=
  snd (exec_block w try_block st).

(** ** The job as a thread

    [perform_retraining] runs in a [threading.Thread]; its statements
    interleave with the request handlers.  A [frame] is the program point of
    one such thread. *)
Inductive frame :=
| InTry (rest : list stmt)
| InExcept (rest : list stmt)
| InFinally (rest : list stmt) (pending : option exn)
| Finished (uncaught : option exn).

(** One statement of a job thread. *)
Definition thread_step (w : world) (f : frame) (st : RetrainingStatus)
  : frame * RetrainingStatus :=
  match f with
  | InTry [] => (InFinally finally_block None, st)
  | InTry (s :: rest) =>
      match exec_stmt w s st with
      | Return st' => (InTry rest, st')
      | Raised e => (InExcept (except_block e), st)
      end
  | InExcept [] => (InFinally finally_block None, st)
  | InExcept (s :: rest) =>
      match exec_stmt w s st with
      | Return st' => (InExcept rest, st')
      | Raised e => (InFinally finally_block (Some e), st)
      end
  | InFinally [] pending => (Finished pending, st)
  | InFinally (s :: rest) pending =>
      match exec_stmt w s st with
      | Return st' => (InFinally rest pending, st')
      | Raised e => (Finished (Some e), st)
      end
  | Finished r => (Finished r, st)
  end.

Fixpoint thread_steps (w : world) (n : nat) (f : frame) (st : RetrainingStatus)
  : frame * RetrainingStatus :=
  match n with
  | O => (f, st)
  | S n' => let '(f', st') := thread_step w f st in thread_steps w n' f' st'
  end.

Definition is_finished (f : frame) : bool :=
  match f with Finished _ => true | _ => false end.

(** ** The [/retrain] route *)

Inductive http_method := GET | POST.

Inductive response :=
| Redirect (endpoint : string)
| RenderTemplate (name : string) (status : RetrainingStatus).

(** The process: the shared status dictionary, the job threads started so
    far, and the messages flashed to the user (text, category). *)
Record app_state := {
  retraining_status : RetrainingStatus;
  jobs : list frame;
  flashed : list (string * string)
}.

Definition initial_app : app_state :=
  {| retraining_status := initial_status; jobs := []; flashed := [] |}.

Definition flash (text category : string) (a : app_state) : app_state :=
  {| retraining_status := retraining_status a; jobs := jobs a;
     flashed := flashed a ++ [(text, category)] |}.

(** [threading.Thread(target=perform_retraining); thread.start()]: the new
    thread stands before its first statement. *)
Definition start_thread (a : app_state) : app_state :=
  {| retraining_status := retraining_status a;
     jobs := jobs a ++ [InTry try_block];
     flashed := flashed a |}.

Definition retrain (m : http_method) (a : app_state) : app_state * response :=
  match m with
  | POST =>
      if is_running (retraining_status a) then
        (flash "Retraining already in progress" "warning" a,
         Redirect "retrain")
      else
        (flash "Retraining started! This may take several minutes." "info"
           (start_thread a),
         Redirect "retrain")
  | GET => (a, RenderTemplate "retrain.html" (retraining_status a))
  end.

(** What can happen next in the process: a request to [/retrain] is
    handled, or the scheduler lets job thread [i] run one statement. *)
Inductive event :=
| Request (m : http_method)
| Run (i : nat).

Definition app_step (w : world) (ev : event) (a : app_state) : app_state :=
  match ev with
  | Request m => fst (retrain m a)
  | Run i =>
      match jobs a !! i with
      | None => a
      | Some f =>
          let '(f', st') := thread_step w f (retraining_status a) in
          {| retraining_status := st'; jobs := <[i := f']> (jobs a);
             flashed := flashed a |}
      end
  end.

Definition app_run (w : world) (evs : list event) (a : app_state) : app_state :=
  foldl (fun a ev => app_step w ev a) a evs.

(** The jobs that have been started and have not finished. *)
Definition running_jobs (a : app_state) : nat :=
  length (filter (fun f => is_finished f = false) (jobs a)).

End App.

(* ===================================================================== *)
(** * src/preprocessing.py *)
(* ===================================================================== *)

Module Preprocessing.

(** ** Pillow images and numpy arrays

    An image of mode ['RGB'] stores three 8-bit samples per pixel; what an
    image of another mode stores is the decoder's business.  [px x y] is the
    pixel in column [x] of row [y]. *)
Definition pixel : Type := Byte.byte * Byte.byte * Byte.byte.

(** Pillow's other modes, with their names and numbers of bands. *)
Inductive other_mode :=
| M1 | L | P | LA | PA | RGBA | RGBX | CMYK | YCbCr | LAB | HSV | I | F | I16.

Definition mode_name (m : other_mode) : string :=
  match m with
  | M1 => "1" | L => "L" | P => "P" | LA => "LA" | PA => "PA"
  | RGBA => "RGBA" | RGBX => "RGBX" | CMYK => "CMYK" | YCbCr => "YCbCr"
  | LAB => "LAB" | HSV => "HSV" | I => "I" | F => "F" | I16 => "I;16"
  end.

Definition mode_bands (m : other_mode) : nat :=
  match m with
  | M1 | L | P | I | F | I16 => 1
  | LA | PA => 2
  | YCbCr | LAB | HSV => 3
  | RGBA | RGBX | CMYK => 4
  end.

Inductive Image :=
| RGB (width height : nat) (px : nat -> nat -> pixel)
| NonRGB (mode : other_mode) (width height : nat)
         (raw : nat -> nat -> list Q).

Definition im_mode (img : Image) : string :=
  match img with
  | RGB _ _ _ => "RGB"
  | NonRGB m _ _ _ => mode_name m
  end.

(** [img.size], a pair (width, height). *)
Definition im_size (img : Image) : nat * nat :=
  match img with
  | RGB w h _ => (w, h)
  | NonRGB _ w h _ => (w, h)
  end.

(** Resampling filters of [Image.resize]. *)
Inductive resampling := NEAREST | BICUBIC.

(** What the sources take from Pillow and from the file system: opening a
    path or an upload stream (which fails on a missing file and on bytes
    that are no image), the colour conversion and the resampling kernels.
    Whatever the kernels compute, their results are stored as 8-bit
    samples. *)
Record pillow := {
  open_path : string -> py Image;
  open_stream : list Byte.byte -> py Image;
  convert_rgb : Image -> nat -> nat -> pixel;
  resample : resampling -> Image -> nat * nat -> nat -> nat -> pixel;
  resample_raw : resampling -> Image -> nat * nat -> nat -> nat -> list Q
}.

(** A numpy array: its shape and its elements in row-major order. *)
Record ndarray := { shape : list nat; data : list Q }.

(** An uploaded file (werkzeug's [FileStorage], or any file object): the
    [filename] attribute, when the object has one, and the bytes of the
    stream. *)
Record FileStorage := {
  filename : option string;
  stream : list Byte.byte
}.

(** A value of a normalized array lies in the unit interval. *)
Definition in_unit (v : Q) : Prop := (0 <= v <= 1)%Q.

Section with_pillow.
Variable pil : pillow.

(** [img.convert('RGB')] *)
Definition convert_RGB (img : Image) : Image :=
  let '(w, h) := im_size img in RGB w h (convert_rgb pil img).

(** [img.resize(size, resample)], [size] being (width, height).  Pillow
    refuses an empty target. *)
Definition resize (flt : resampling) (img : Image) (size : nat * nat)
  : py Image :=
  let '(w, h) := size in
  if ((w =? 0) || (h =? 0))%nat
  then Raised (Raise ValueError "height and width must be > 0")
  else Return (match img with
               | RGB _ _ _ => RGB w h (resample pil flt img size)
               | NonRGB m _ _ _ =>
                   NonRGB m w h (resample_raw pil flt img size)
               end).

(** [keras...load_img(path, target_size=target_size)], with its defaults
    [color_mode='rgb'] and [interpolation='nearest']; [target_size] is
    (img_height, img_width). *)
Definition load_img (path : string) (target_size : nat * nat) : py Image :=
  img ← open_path pil path;
  let img := if String.eqb (im_mode img) "RGB" then img
             else convert_RGB img in
  let width_height_tuple := (snd target_size, fst target_size) in
  if decide (im_size img = width_height_tuple) then Return img
  else resize NEAREST img width_height_tuple.

(** [Image.open(image_file)] *)
Definition Image_open (image_file : FileStorage) : py Image :=
  open_stream pil (stream image_file).

Definition sample (b : Byte.byte) : Q := inject_Z (Z.of_N (Byte.to_N b)).

(** [img_to_array(img)]: a float32 array of shape (height, width,
    channels). *)
Definition img_to_array (img : Image) : ndarray :=
  match img with
  | RGB w h px =>
      {| shape := [h; w; 3%nat];
         data :=
           flat_map (fun y =>
             flat_map (fun x =>
               let '(r, g, b) := px x y in [sample r; sample g; sample b])
               (seq 0 w))
             (seq 0 h) |}
  | NonRGB m w h raw =>
      {| shape := [h; w; mode_bands m];
         data :=
           flat_map (fun y => flat_map (fun x => raw x y) (seq 0 w))
                    (seq 0 h) |}
  end.

(** [a / 255.0] *)
Definition divide_255 (a : ndarray) : ndarray :=
  {| shape := shape a; data := map (fun v => (v / 255)%Q) (data a) |}.

(** [np.expand_dims(a, axis=0)] *)
Definition expand_dims_0 (a : ndarray) : ndarray :=
  {| shape := 1%nat :: shape a; data := data a |}.

(** [ImagePreprocessor]; [img_size] is documented as (height, width). *)
Record ImagePreprocessor := { img_size : nat * nat }.

Definition preprocess_single_image (self : ImagePreprocessor)
    (image_path : string) (normalize : bool) : py ndarray :=
  try_except
    (img ← load_img image_path (img_size self);
     let img_array := img_to_array img in
     let img_array := if normalize then divide_255 img_array
                      else img_array in
     let img_array := expand_dims_0 img_array in
     Return img_array)
    (fun e => Raised (Raise ValueError
       ("Error preprocessing image " +:+ image_path +:+ ": "
        +:+ exc_str e))).

Definition preprocess_uploaded_image (self : ImagePreprocessor)
    (image_file : FileStorage) (normalize : bool) : py ndarray :=
  try_except
    (img ← Image_open image_file;
     let img := if negb (String.eqb (im_mode img) "RGB")
                then convert_RGB img else img in
     img ← resize BICUBIC img (img_size self);
     let img_array := img_to_array img in
     let img_array := if normalize then divide_255 img_array
                      else img_array in
     let img_array := expand_dims_0 img_array in
     Return img_array)
    (fun e => Raised (Raise ValueError
       ("Error preprocessing uploaded image: " +:+ exc_str e))).

End with_pillow.

End Preprocessing.

(* ===================================================================== *)
(** * src/model.py *)
(* ===================================================================== *)

Module Model.

Import Preprocessing.

(** A Keras model, as far as the sources use it for inference:
    [model.predict(x, verbose=0)] yields one row of class scores per image
    of the batch, or raises (on an input of the wrong shape, say). *)
Record KerasModel := { keras_predict : ndarray -> py (list (list Q)) }.

(** [ImageClassifier]'s attributes ([base_model] and [history] are written
    by training only). *)
Record ImageClassifier := {
  img_size : nat * nat;
  num_classes : Z;
  learning_rate : Q;
  model : option KerasModel
}.

(** [ImageClassifier(img_size, num_classes, learning_rate)] *)
Definition ImageClassifier_init (img_size : nat * nat) (num_classes : Z)
    (learning_rate : Q) : ImageClassifier :=
  {| img_size := img_size; num_classes := num_classes;
     learning_rate := learning_rate; model := None |}.

(** The constructor's defaults. *)
Definition default_img_size : nat * nat := (224%nat, 224%nat).
Definition default_num_classes : Z := 2.
Definition default_learning_rate : Q := 1 # 10000.

(** [l[i]] *)
Definition getitem {A} (l : list A) (i : nat) : py A :=
  match l !! i with
  | Some x => Return x
  | None => Raised (Raise IndexError "index out of range")
  end.

Definition predict (self : ImageClassifier) (image_array : ndarray)
  : py (nat * Q * list (nat * Q)) :=
  match model self with
  | None => Raised (Raise ValueError "Model not created or loaded.")
  | Some m =>
      predictions ← keras_predict m image_array;
      row ← getitem predictions 0;
      predicted_class ← np_argmax row;
      confidence ← getitem row predicted_class;
      let probabilities := enumerate row in
      Return (predicted_class, confidence, probabilities)
  end.

(** What a softmax output layer guarantees for the input [x]: the scores
    [model.predict] returns for an image sum to 1, up to the rounding error
    [eps] of the float32 arithmetic. *)
Definition softmax_within (eps : Q) (m : KerasModel) (x : ndarray) : Prop :=
  forall rows row,
    keras_predict m x = Return rows -> In row rows ->
    (Qabs (Qsum row - 1) <= eps)%Q.

(** ** Files *)

(** The metadata sidecar, a JSON object; a key may be absent from a file
    that was not written by [save_model]. *)
Record metadata := {
  md_img_size : option (nat * nat);
  md_num_classes : option Z;
  md_learning_rate : option Q;
  md_saved_at : option string
}.

Inductive file_content :=
| KerasArchive (m : KerasModel)
| MetadataJson (md : metadata)
| OtherFile.

Record filesystem := {
  files : gmap string file_content;
  dirs : gset string
}.

(** [os.path.exists] *)
Definition path_exists (fs : filesystem) (p : string) : bool :=
  bool_decide (is_Some (files fs !! p)) || bool_decide (p ∈ dirs fs).

(** [os.makedirs(d, exist_ok=True)] *)
Definition makedirs (d : string) (fs : filesystem) : py filesystem :=
  if String.eqb d "" then
    Raised (Raise FileNotFoundError "[Errno 2] No such file or directory: ''")
  else if bool_decide (is_Some (files fs !! d)) then
    Raised (Raise (OtherException "FileExistsError")
              ("[Errno 17] File exists: '" +:+ d +:+ "'"))
  else Return {| files := files fs; dirs := {[ d ]} ∪ dirs fs |}.

(** Creating or truncating the file at [p] and writing [c]: the directory
    of [p] has to exist (the empty one is the working directory). *)
Definition write_file (p : string) (c : file_content) (fs : filesystem)
  : py filesystem :=
  if negb (String.eqb (dirname p) "") && negb (bool_decide (dirname p ∈ dirs fs))
  then Raised (Raise FileNotFoundError
                 ("[Errno 2] No such file or directory: '" +:+ p +:+ "'"))
  else if bool_decide (p ∈ dirs fs) then
    Raised (Raise (OtherException "IsADirectoryError")
              ("[Errno 21] Is a directory: '" +:+ p +:+ "'"))
  else Return {| files := <[p := c]> (files fs); dirs := dirs fs |}.

Definition keras_extension (filepath : string) : bool :=
  str_endswith filepath ".keras" || str_endswith filepath ".h5"
  || str_endswith filepath ".hdf5".

(** [model.save(filepath)] of Keras 3, which picks the format from the
    extension and refuses any other. *)
Definition keras_save (m : KerasModel) (filepath : string) (fs : filesystem)
  : py filesystem :=
  if keras_extension filepath
  then write_file filepath (KerasArchive m) fs
  else Raised (Raise ValueError "Invalid filepath extension for saving.").

(** [keras.models.load_model(filepath, ...)] of Keras 3: the file has to be
    an archive the library wrote, under one of its extensions. *)
Definition keras_load_model (filepath : string) (fs : filesystem)
  : py KerasModel :=
  if negb (keras_extension filepath) then
    Raised (Raise ValueError
              ("File format not supported: filepath=" +:+ filepath))
  else
    match files fs !! filepath with
    | Some (KerasArchive m) => Return m
    | _ =>
        if str_endswith filepath ".keras" then
          Raised (Raise ValueError
                    ("File not found: filepath=" +:+ filepath +:+
                     ". Please ensure the file is an accessible `.keras` zip file."))
        else
          Raised (Raise (OtherException "OSError")
                    "Unable to synchronously open file (file signature not found)")
    end.

(** [with open(p, 'r') as f: json.load(f)] on a metadata sidecar *)
Definition json_load_metadata (p : string) (fs : filesystem) : py metadata :=
  match files fs !! p with
  | Some (MetadataJson md) => Return md
  | Some _ => Raised (Raise (OtherException "JSONDecodeError")
                        "Expecting value: line 1 column 1 (char 0)")
  | None => Raised (Raise FileNotFoundError
                      ("[Errno 2] No such file or directory: '" +:+ p +:+ "'"))
  end.

(** The path [save_model] writes the sidecar to, and the one [load_model]
    reads it from. *)
Definition save_metadata_path (filepath : string) : string :=
  str_replace filepath ".h5" "_metadata.json".

Definition load_metadata_path (filepath : string) : string :=
  str_replace (str_replace filepath ".h5" "_metadata.json")
              ".keras" "_metadata.json".

(** [save_model(filepath, save_format, include_metadata)]; [now] is the
    reading of the clock that goes into ['saved_at']. *)
Definition save_model (self : ImageClassifier) (filepath : string)
    (save_format : string) (include_metadata : bool) (now : string)
    (fs : filesystem) : py filesystem :=
  match model self with
  | None => Raised (Raise ValueError "No model to save.")
  | Some m =>
      fs ← makedirs (dirname filepath) fs;
      fs ← (if String.eqb save_format "h5" then keras_save m filepath fs
            else if String.eqb save_format "tf" then keras_save m filepath fs
            else Raised (Raise ValueError "save_format must be 'h5' or 'tf'"));
      if include_metadata then
        let metadata :=
          {| md_img_size := Some (img_size self);
             md_num_classes := Some (num_classes self);
             md_learning_rate := Some (learning_rate self);
             md_saved_at := Some now |} in
        let metadata_path := save_metadata_path filepath in
        write_file metadata_path (MetadataJson metadata) fs
      else Return fs
  end.

(** [load_model(filepath)]: the classifier after the call. *)
Definition load_model (self : ImageClassifier) (filepath : string)
    (fs : filesystem) : py ImageClassifier :=
  if negb (path_exists fs filepath) then
    Raised (Raise FileNotFoundError ("Model file not found: " +:+ filepath))
  else
    m ← try_except
          (if str_endswith filepath ".h5"
           then keras_load_model filepath fs
           else keras_load_model filepath fs)
          (fun e => Raised e);
    let self := {| img_size := img_size self; num_classes := num_classes self;
                   learning_rate := learning_rate self; model := Some m |} in
    let metadata_path := load_metadata_path filepath in
    if path_exists fs metadata_path then
      metadata ← json_load_metadata metadata_path fs;
      Return {| img_size := default (img_size self) (md_img_size metadata);
                num_classes :=
                  default (num_classes self) (md_num_classes metadata);
                learning_rate :=
                  default (learning_rate self) (md_learning_rate metadata);
                model := model self |}
    else Return self.

(** A path whose sidecar is a file of its own, in the directory of the
    model, under the name [load_model] looks for; and a disk on which
    neither name is taken by a directory. *)
Definition sidecar_beside (fs : filesystem) (filepath : string) : Prop :=
  str_endswith filepath ".h5" = true /\
  dirname filepath <> "" /\
  files fs !! (dirname filepath) = None /\
  save_metadata_path filepath <> filepath /\
  load_metadata_path filepath = save_metadata_path filepath /\
  dirname (save_metadata_path filepath) = dirname filepath /\
  filepath <> dirname filepath /\
  save_metadata_path filepath <> dirname filepath /\
  (filepath ∉ dirs fs) /\
  (save_metadata_path filepath ∉ dirs fs).

End Model.

(* ===================================================================== *)
(** * src/prediction.py *)
(* ===================================================================== *)

Module Prediction.

Import Preprocessing.

(** ** Result dictionaries

    The values the result dictionaries hold (and JSON can carry).  A nested
    dictionary keeps its items in insertion order. *)
#[local] Unset Elimination Schemes.
Inductive pyval :=
| PyNone
| PyBool (b : bool)
| PyInt (z : Z)
| PyFloat (q : Q)
| PyStr (s : string)
| PyList (l : list pyval)
| PyDict (items : list (pyval * pyval)).
#[local] Set Elimination Schemes.

(** A result dictionary: its keys are string literals of the sources. *)
Abbreviation record := (gmap string pyval).

(** Truth value of an object, as [if x:] tests it. *)
Definition truthy (v : pyval) : bool :=
  match v with
  | PyNone => false
  | PyBool b => b
  | PyInt z => negb (z =? 0)%Z
  | PyFloat q => negb (Qeq_bool q 0)
  | PyStr s => negb (String.eqb s "")
  | PyList l => match l with [] => false | _ => true end
  | PyDict d => match d with [] => false | _ => true end
  end.

(** The number an object stands for in arithmetic, if it is one. *)
Definition as_number (v : pyval) : option Q :=
  match v with
  | PyBool b => Some (if b then 1%Q else 0%Q)
  | PyInt z => Some (inject_Z z)
  | PyFloat q => Some q
  | _ => None
  end.

Definition hashable (v : pyval) : bool :=
  match v with PyList _ | PyDict _ => false | _ => true end.

(** [a == b] on hashable objects: numbers compare by value across [bool],
    [int] and [float]. *)
Definition py_eqb (a b : pyval) : bool :=
  match as_number a, as_number b with
  | Some x, Some y => Qeq_bool x y
  | None, None =>
      match a, b with
      | PyStr s, PyStr t => String.eqb s t
      | PyNone, PyNone => true
      | _, _ => false
      end
  | _, _ => false
  end.

(** [d[k] = v] on the items of a dictionary: an existing key keeps its
    place, a new one goes to the end. *)
Fixpoint dict_set {K V} (eqb : K -> K -> bool) (d : list (K * V))
    (k : K) (v : V) : list (K * V) :=
  match d with
  | [] => [(k, v)]
  | (k', v') :: d' =>
      if eqb k' k then (k', v) :: d' else (k', v') :: dict_set eqb d' k v
  end.

(** [d.get(k, default)] *)
Fixpoint dict_get {K V} (eqb : K -> K -> bool) (d : list (K * V))
    (k : K) (dflt : V) : V :=
  match d with
  | [] => dflt
  | (k', v') :: d' => if eqb k' k then v' else dict_get eqb d' k dflt
  end.

(** ** The service *)

Record PredictionService := {
  img_size : nat * nat;
  classifier : Model.ImageClassifier;
  class_indices : list (string * Z);
  index_to_class : gmap Z string;
  preprocessor : ImagePreprocessor
}.

(** [{v: k for k, v in class_indices.items()}] *)
Definition reverse_mapping (class_indices : list (string * Z))
  : gmap Z string :=
  foldl (fun m kv => <[snd kv := fst kv]> m) ∅ class_indices.

(** [self.index_to_class[idx]] *)
Definition class_of (self : PredictionService) (idx : nat) : py string :=
  match index_to_class self !! Z.of_nat idx with
  | Some name => Return name
  | None => Raised (Raise KeyError (pretty idx))
  end.

(** [{self.index_to_class[idx]: float(prob) for idx, prob in items}] *)
Fixpoint named_probabilities (self : PredictionService)
    (items : list (nat * Q)) (acc : list (pyval * pyval))
  : py (list (pyval * pyval)) :=
  match items with
  | [] => Return acc
  | (idx, prob) :: items' =>
      name ← class_of self idx;
      named_probabilities self items'
        (dict_set py_eqb acc (PyStr name) (PyFloat prob))
  end.

(** [{'class': name, 'probability': float(prob)}] *)
Definition top_entry (name : string) (prob : Q) : pyval :=
  PyDict [(PyStr "class", PyStr name); (PyStr "probability", PyFloat prob)].

(** [[{'class': self.index_to_class[idx], 'probability': float(prob)}
      for idx, prob in sorted_probs]] *)
Fixpoint top_k_entries (self : PredictionService) (sorted_probs : list (nat * Q))
  : py (list pyval) :=
  match sorted_probs with
  | [] => Return []
  | (idx, prob) :: rest =>
      name ← class_of self idx;
      entries ← top_k_entries self rest;
      Return (top_entry name prob :: entries)
  end.

Section with_pillow.
Variable pil : pillow.

(** [now] is what [datetime.now().isoformat()] answers during the
    call; each of the three methods below reads the clock once.  The
    body of each [try] block is named, the method wraps it in its
    handler. *)
Definition predict_image_try (self : PredictionService) (now : string)
    (image_path : string) : py record :=
  img_array ← preprocess_single_image pil (preprocessor self)
                image_path true;
  r ← Model.predict (classifier self) img_array;
  let '(predicted_idx, confidence, probabilities) := r in
  predicted_class ← class_of self predicted_idx;
  probs ← named_probabilities self probabilities [];
  let result : record :=
    list_to_map
      [("success", PyBool true);
       ("predicted_class", PyStr predicted_class);
       ("predicted_index", PyInt (Z.of_nat predicted_idx));
       ("confidence", PyFloat confidence);
       ("probabilities", PyDict probs);
       ("image_path", PyStr image_path);
       ("timestamp", PyStr now)] in
  Return result.

Definition predict_image (self : PredictionService) (now : string)
    (image_path : string) : py record :=
  try_except (predict_image_try self now image_path)
    (fun e =>
       Return (list_to_map
         [("success", PyBool false);
          ("error", PyStr (exc_str e));
          ("image_path", PyStr image_path);
          ("timestamp", PyStr now)])).

(** [getattr(image_file, 'filename', 'unknown')] *)
Definition getattr_filename (image_file : FileStorage) : string :=
  default "unknown" (filename image_file).

Definition predict_uploaded_image_try (self : PredictionService)
    (now : string) (image_file : FileStorage) : py record :=
  img_array ← preprocess_uploaded_image pil (preprocessor self)
                image_file true;
  r ← Model.predict (classifier self) img_array;
  let '(predicted_idx, confidence, probabilities) := r in
  predicted_class ← class_of self predicted_idx;
  probs ← named_probabilities self probabilities [];
  let result : record :=
    list_to_map
      [("success", PyBool true);
       ("predicted_class", PyStr predicted_class);
       ("predicted_index", PyInt (Z.of_nat predicted_idx));
       ("confidence", PyFloat confidence);
       ("probabilities", PyDict probs);
       ("filename", PyStr (getattr_filename image_file));
       ("timestamp", PyStr now)] in
  Return result.

Definition predict_uploaded_image (self : PredictionService) (now : string)
    (image_file : FileStorage) : py record :=
  try_except (predict_uploaded_image_try self now image_file)
    (fun e =>
       Return (list_to_map
         [("success", PyBool false);
          ("error", PyStr (exc_str e));
          ("filename", PyStr (getattr_filename image_file));
          ("timestamp", PyStr now)])).

(** The loop of [predict_batch]: [clock t] is the reading of the clock
    during the [t]-th call of [predict_image]. *)
Fixpoint predict_batch_loop (self : PredictionService)
    (clock : nat -> string) (t : nat) (image_paths : list string)
    (results : list record) : py (list record) :=
  match image_paths with
  | [] => Return results
  | image_path :: rest =>
      result ← predict_image self (clock t) image_path;
      predict_batch_loop self clock (S t) rest (results ++ [result])
  end.

Definition predict_batch (self : PredictionService)
    (clock : nat -> string) (image_paths : list string)
  : py (list record) :=
  predict_batch_loop self clock 0 image_paths [].

Definition get_top_k_predictions_try (self : PredictionService)
    (now : string) (image_path : string) (k : Z) : py record :=
  img_array ← preprocess_single_image pil (preprocessor self)
                image_path true;
  r ← Model.predict (classifier self) img_array;
  let '(_, _, probabilities) := r in
  let sorted_probs := slice_to k (sorted_reverse snd probabilities) in
  top_k ← top_k_entries self sorted_probs;
  let result : record :=
    list_to_map
      [("success", PyBool true);
       ("top_predictions", PyList top_k);
       ("image_path", PyStr image_path);
       ("timestamp", PyStr now)] in
  Return result.

Definition get_top_k_predictions (self : PredictionService) (now : string)
    (image_path : string) (k : Z) : py record :=
  try_except (get_top_k_predictions_try self now image_path k)
    (fun e =>
       Return (list_to_map
         [("success", PyBool false);
          ("error", PyStr (exc_str e));
          ("image_path", PyStr image_path);
          ("timestamp", PyStr now)])).

End with_pillow.

(** ** The shape of a result *)

(** What a record of either method looks like: the flag, the error text
    when the flag is false, the source under [key], the timestamp. *)
Definition well_formed (key source now : string) (failure : option exn)
    (r : record) : Prop :=
  r !! key = Some (PyStr source) /\
  r !! "timestamp" = Some (PyStr now) /\
  match failure with
  | None => r !! "success" = Some (PyBool true) /\ r !! "error" = None
  | Some e =>
      r !! "success" = Some (PyBool false) /\
      r !! "error" = Some (PyStr (exc_str e))
  end.

Definition failure_of {A} (m : py A) : option exn :=
  match m with Return _ => None | Raised e => Some e end.

(** The order of the top-k list: [a] stands before [b] when its
    probability is higher, or equal with a smaller class index. *)
Definition ranks_before (a b : nat * Q) : Prop :=
  (snd b < snd a)%Q \/ ((snd a == snd b)%Q /\ (fst a < fst b)%nat).

(** The entry of the top-k list for the item of class index [fst item]: a
    dictionary of two keys, the name of that class under ['class'] and the
    probability of the item under ['probability']. *)
Definition named_entry (self : PredictionService) (item : nat * Q)
    (entry : pyval) : Prop :=
  exists name,
    index_to_class self !! Z.of_nat (fst item) = Some name /\
    entry = PyDict [(PyStr "class", PyStr name);
                    (PyStr "probability", PyFloat (snd item))].

(** The class-indices mapping lists the indices 0, 1, ... in ascending
    order, as Keras writes it. *)
Definition ascending_indices (class_indices : list (string * Z)) : Prop :=
  map snd class_indices = map Z.of_nat (seq 0 (length class_indices)).

(** ** Statistics over the prediction log *)

(** The log file as [get_prediction_statistics] meets it: absent, or
    present with the outcome of [json.load] on it (a failure for a file
    that holds no JSON, the empty file included; otherwise the logged
    dictionaries). *)
Definition log_file : Type := option (py (list record)).

(** [log.get(key, default)] *)
Definition record_get (log : record) (key : string) (dflt : pyval) : pyval :=
  default dflt (log !! key).

(** [sum(1 for log in logs if log.get('success', False))] *)
Definition count_successful (logs : list record) : Z :=
  Z.of_nat (length (filter
    (fun log => truthy (record_get log "success" (PyBool false)) = true)
    logs)).

(** The loop that fills [class_counts] and [confidences]. *)
Fixpoint collect (logs : list record) (class_counts : list (pyval * Z))
    (confidences : list pyval) : py (list (pyval * Z) * list pyval) :=
  match logs with
  | [] => Return (class_counts, confidences)
  | log :: rest =>
      if truthy (record_get log "success" (PyBool false)) then
        let pred_class := record_get log "predicted_class" PyNone in
        class_counts ←
          (if truthy pred_class then
             if hashable pred_class then
               Return (dict_set py_eqb class_counts pred_class
                         (dict_get py_eqb class_counts pred_class 0 + 1))
             else Raised (Raise TypeError "unhashable type")
           else Return class_counts);
        let confidence := record_get log "confidence" PyNone in
        let confidences :=
          match confidence with
          | PyNone => confidences
          | _ => (confidences ++ [confidence])%list
          end in
        collect rest class_counts confidences
      else collect rest class_counts confidences
  end.

(** numpy turns the list into an array of numbers, or fails. *)
Fixpoint as_numbers (l : list pyval) : py (list Q) :=
  match l with
  | [] => Return []
  | v :: l' =>
      match as_number v with
      | Some q => qs ← as_numbers l'; Return (q :: qs)
      | None => Raised (Raise TypeError "cannot perform reduce")
      end
  end.

Definition qmin (a b : Q) : Q := if Qle_bool a b then a else b.
Definition qmax (a b : Q) : Q := if Qle_bool a b then b else a.

Definition np_min (l : list Q) : Q :=
  match l with [] => 0%Q | x :: l' => foldl qmin x l' end.

Definition np_max (l : list Q) : Q :=
  match l with [] => 0%Q | x :: l' => foldl qmax x l' end.

(** [np.min] and [np.max] compare, which is exact on floats.  [np.mean]
    adds and divides in double precision, rounding at every step and in an
    order that depends on the length of the array; its result is not the
    exact mean of the values (it can even exceed their maximum).  The
    methods below take it as the library gives it, as the function
    [np_mean] from the values of a non-empty array to a float. *)

(** [np.f(confidences) if confidences else 0] *)
Definition reduce_or_zero (f : list Q -> Q) (confidences : list pyval)
  : py pyval :=
  match confidences with
  | [] => Return (PyInt 0)
  | _ => qs ← as_numbers confidences; Return (PyFloat (f qs))
  end.

(** [{'error': 'No prediction logs found'}] *)
Definition no_logs : record :=
  {[ "error" := PyStr "No prediction logs found" ]}.

Definition get_prediction_statistics (np_mean : list Q -> Q)
    (log : log_file) : py record :=
  try_except
    (match log with
     | None => Return no_logs
     | Some content =>
         logs ← content;
         let total_predictions := Z.of_nat (length logs) in
         let successful_predictions := count_successful logs in
         r ← collect logs [] [];
         let '(class_counts, confidences) := r in
         average ← reduce_or_zero np_mean confidences;
         minimum ← reduce_or_zero np_min confidences;
         maximum ← reduce_or_zero np_max confidences;
         let stats : record :=
           list_to_map
             [("total_predictions", PyInt total_predictions);
              ("successful_predictions", PyInt successful_predictions);
              ("failed_predictions",
                 PyInt (total_predictions - successful_predictions));
              ("class_distribution",
                 PyDict (map (fun kv => (fst kv, PyInt (snd kv)))
                             class_counts));
              ("average_confidence", average);
              ("min_confidence", minimum);
              ("max_confidence", maximum)] in
         Return stats
     end)
    (fun e => Return {[ "error" := PyStr (exc_str e) ]}).

(** ** What the statistics are, in the words of the specification

    The successful records of the log; the number of them predicted as
    class [c]; the confidences they carry. *)
Definition is_success (log : record) : bool :=
  truthy (record_get log "success" (PyBool false)).

Definition successes (logs : list record) : list record :=
  filter (fun log => is_success log = true) logs.









End Prediction.

(* ===================================================================== *)
(** * src/preprocessing.py: batches, uploads, validation, class weights *)
(* ===================================================================== *)

Module PreprocessingRest.

Import Preprocessing.

(** [a[0]]: the first item along the first axis. *)
Definition array_first (a : ndarray) : py ndarray :=
  match shape a with
  | [] => Raised (Raise IndexError "too many indices for array")
  | n :: rest =>
      if (n =? 0)%nat
      then Raised (Raise IndexError "index 0 is out of bounds for axis 0 with size 0")
      else Return {| shape := rest;
                     data := take (foldr Nat.mul 1%nat rest) (data a) |}
  end.

(** [np.array(images)] on a list of arrays: they are stacked along a new
    first axis; numpy refuses arrays of different shapes. *)
Definition np_array (images : list ndarray) : py ndarray :=
  match images with
  | [] => Return {| shape := [0%nat]; data := [] |}
  | a :: rest =>
      if forallb (fun b => bool_decide (shape b = shape a)) rest
      then Return {| shape := length images :: shape a;
                     data := flat_map data images |}
      else Raised (Raise ValueError
                     "setting an array element with a sequence. The requested array has an inhomogeneous shape")
  end.

(** The loop of [preprocess_batch_images]: a path whose preprocessing
    raises is skipped. *)
Fixpoint batch_loop (pil : pillow) (self : ImagePreprocessor)
    (normalize : bool) (image_paths : list string) (images : list ndarray)
  : list ndarray :=
  match image_paths with
  | [] => images
  | image_path :: rest =>
      match (img_array ← preprocess_single_image pil self image_path normalize;
             array_first img_array) with
      | Return first => batch_loop pil self normalize rest (images ++ [first])
      | Raised _ => batch_loop pil self normalize rest images
      end
  end.

Definition preprocess_batch_images (pil : pillow) (self : ImagePreprocessor)
    (image_paths : list string) (normalize : bool) : py ndarray :=
  let images := batch_loop pil self normalize image_paths [] in
  match images with
  | [] => Raised (Raise ValueError "No valid images found in the batch")
  | _ => np_array images
  end.

(** ** [save_uploaded_files]

    [save file filepath] is the outcome of [file.save(filepath)] ([None]:
    written).  An object without a [filename] attribute raises
    [AttributeError] inside the [try] block and again inside its handler,
    which prints [file.filename]; that second exception leaves the
    method. *)
Fixpoint save_loop (save : FileStorage -> string -> option exn)
    (save_dir : string) (files : list FileStorage) (saved_paths : list string)
  : py (list string) :=
  match files with
  | [] => Return saved_paths
  | file :: rest =>
      match filename file with
      | None => Raised (Raise (OtherException "AttributeError")
                          "object has no attribute 'filename'")
      | Some name =>
          let filename := basename name in
          let filepath := path_join save_dir filename in
          match save file filepath with
          | None => save_loop save save_dir rest (saved_paths ++ [filepath])
          | Some _ => save_loop save save_dir rest saved_paths
          end
      end
  end.

(** [makedirs] is the outcome of [os.makedirs(save_dir, exist_ok=True)]. *)
Definition save_uploaded_files (save : FileStorage -> string -> option exn)
    (makedirs : option exn) (files : list FileStorage) (save_dir : string)
  : py (list string) :=
  match makedirs with
  | Some e => Raised e
  | None => save_loop save save_dir files []
  end.

(** ** [validate_image] *)

Fixpoint all_dots (s : string) : bool :=
  match s with
  | EmptyString => true
  | String c s' => Ascii.eqb c "."%char && all_dots s'
  end.

(** [os.path.splitext(p)[1]]: the extension starts at the last dot of the
    last component, unless only dots stand before it there. *)
Definition splitext_ext (p : string) : string :=
  match rpartition "."%char (basename p) with
  | Some (before, after) =>
      if all_dots before then "" else String "."%char after
  | None => ""
  end.

Definition valid_extensions : gset string :=
  list_to_set [".jpg"; ".jpeg"; ".png"; ".bmp"; ".gif"].

(** [verify img] is the outcome of [img.verify()]. *)
Definition validate_image (pil : pillow) (verify : Image -> option exn)
    (image_path : string) : bool :=
  let attempt : py bool :=
    let ext := str_lower (splitext_ext image_path) in
    if negb (bool_decide (ext ∈ valid_extensions)) then Return false
    else
      img ← open_path pil image_path;
      match verify img with
      | Some e => Raised e
      | None => Return true
      end in
  match attempt with
  | Return b => b
  | Raised _ => false
  end.

(** ** [get_class_weights]

    [listing] is what [os.listdir(train_dir)] and, for each entry that is a
    directory, [os.listdir] of it return ([None] for an entry that is no
    directory). *)
Definition directory_listing : Type := list (string * option (list string)).

Fixpoint count_classes (listing : directory_listing)
    (class_counts : list (string * Z)) : list (string * Z) :=
  match listing with
  | [] => class_counts
  | (class_name, Some entries) :: rest =>
      count_classes rest
        (Prediction.dict_set String.eqb class_counts class_name
           (Z.of_nat (length entries)))
  | (_, None) :: rest => count_classes rest class_counts
  end.

(** [sum(class_counts.values())] *)
Definition sum_counts (class_counts : list (string * Z)) : Z :=
  foldr Z.add 0%Z (map snd class_counts).

(** [total / (num_classes * count)], Python's true division. *)
Definition true_div (a b : Z) : py Q :=
  if (b =? 0)%Z then Raised (Raise (OtherException "ZeroDivisionError")
                              "division by zero")
  else Return (inject_Z a / inject_Z b)%Q.

Fixpoint weights_loop (total num_classes : Z) (idx : nat)
    (items : list (string * Z)) (class_weights : list (nat * Q))
  : py (list (nat * Q)) :=
  match items with
  | [] => Return class_weights
  | (_, count) :: rest =>
      w ← true_div total (num_classes * count);
      weights_loop total num_classes (S idx) rest
        (class_weights ++ [(idx, w)])
  end.

Definition get_class_weights (listing : directory_listing)
  : py (list (nat * Q)) :=
  let class_counts := count_classes listing [] in
  let total := sum_counts class_counts in
  let num_classes := Z.of_nat (length class_counts) in
  weights_loop total num_classes 0 class_counts [].

(** The class directories of a listing with their numbers of entries. *)
Definition class_directories (listing : directory_listing)
  : list (string * Z) :=
  flat_map (fun entry =>
    match snd entry with
    | Some entries => [(fst entry, Z.of_nat (length entries))]
    | None => []
    end) listing.

(** ** What the batch and the saved paths are made of *)

(** One image of a batch: height, width and three channels, values in
    the unit interval. *)
Definition batch_item (h w : nat) (a : ndarray) : Prop :=
  shape a = [h; w; 3%nat] /\
  length (data a) = (h * (w * 3))%nat /\
  Forall in_unit (data a).

(** A path Pillow can open. *)
Definition readable (pil : pillow) (path : string) : bool :=
  returns (open_path pil path).

(** Where a path returned by [save_uploaded_files] comes from: the
    directory, then the base name of one of the files, which holds no
    slash. *)
Definition saved_inside (save_dir : string) (files : list FileStorage)
    (path : string) : Prop :=
  exists file name,
    In file files /\ filename file = Some name /\
    str_contains "/" (basename name) = false /\
    (path = save_dir +:+ basename name \/
     path = save_dir +:+ "/" +:+ basename name).

End PreprocessingRest.

(* ===================================================================== *)
(** * src/prediction.py: construction, thresholds, the log *)
(* ===================================================================== *)

Module PredictionRest.

Import Preprocessing Prediction.

(** [PredictionService(model_path, class_indices_path, img_size)];
    [class_indices_file] is the outcome of opening the class-indices file
    and [json.load] on it: the items of the JSON object, or the exception
    raised. *)
Definition PredictionService_init (fs : Model.filesystem)
    (model_path : string) (class_indices_file : py (list (string * Z)))
    (img_size : nat * nat) : py PredictionService :=
  let classifier :=
    Model.ImageClassifier_init img_size Model.default_num_classes
      Model.default_learning_rate in
  classifier ← Model.load_model classifier model_path fs;
  class_indices ← class_indices_file;
  Return {| Prediction.img_size := img_size;
            classifier := classifier;
            class_indices := class_indices;
            index_to_class := reverse_mapping class_indices;
            preprocessor := {| Preprocessing.img_size := img_size |} |}.

(** [result[key]] *)
Definition record_item (result : record) (key : string) : py pyval :=
  match result !! key with
  | Some v => Return v
  | None => Raised (Raise KeyError ("'" +:+ key +:+ "'"))
  end.

(** [a < b] for a float [b]. *)
Definition py_lt (a : pyval) (b : Q) : py bool :=
  match as_number a with
  | Some x => Return (negb (Qle_bool b x))
  | None => Raised (Raise TypeError "'<' not supported between instances")
  end.

(** [format_percent x] is the text of [f"{x:.2%}"]. *)
Definition predict_with_threshold (pil : pillow)
    (format_percent : Q -> string) (self : PredictionService) (now : string)
    (image_path : string) (threshold : Q) : py record :=
  result ← predict_image pil self now image_path;
  success ← record_item result "success";
  if truthy success then
    confidence ← record_item result "confidence";
    below ← py_lt confidence threshold;
    if (below : bool) then
      let result := <["prediction_status" := PyStr "uncertain"]> result in
      confidence ← record_item result "confidence";
      match as_number confidence with
      | Some c =>
          Return (<["message" :=
                      PyStr ("Confidence " +:+ format_percent c +:+
                             " below threshold " +:+ format_percent threshold)]>
                    result)
      | None => Raised (Raise ValueError "Unknown format code '%'")
      end
    else Return (<["prediction_status" := PyStr "confident"]> result)
  else Return result.

(** [save_prediction_log(prediction_result, log_path)]: the log file after
    the call.  [open_w] is the outcome of opening the file for writing.
    Whatever is raised is caught and printed, the file being left as it
    was. *)
Definition save_prediction_log (prediction_result : record)
    (open_w : option exn) (log : log_file) : log_file :=
  let attempt : py log_file :=
    logs ← match log with
           | Some content => content
           | None => Return []
           end;
    let logs := (logs ++ [prediction_result])%list in
    match open_w with
    | Some e => Raised e
    | None => Return (Some (Return logs))
    end in
  match attempt with
  | Return log' => log'
  | Raised _ => log
  end.

(** Logging the records [rs] one after the other, every write
    succeeding. *)
Definition log_all (rs : list record) (log : log_file) : log_file :=
  foldl (fun log r => save_prediction_log r None log) log rs.

(** A float. *)
Definition is_float (v : pyval) : Prop := exists q, v = PyFloat q.

(** A record as the two prediction methods build it: the flag is a
    boolean, the class a string, the confidence a float. *)
Definition typed_record (r : record) : Prop :=
  (exists b, r !! "success" = Some (PyBool b)) /\
  (r !! "predicted_class" = None \/
   exists s, r !! "predicted_class" = Some (PyStr s)) /\
  (r !! "confidence" = None \/
   exists q, r !! "confidence" = Some (PyFloat q)).

End PredictionRest.

(* ===================================================================== *)
(** * app/app.py: helpers and routes *)
(* ===================================================================== *)

Module AppRoutes.

Import Preprocessing Prediction PredictionRest.

(** [app.config['ALLOWED_EXTENSIONS']] *)
Definition ALLOWED_EXTENSIONS : gset string :=
  list_to_set ["png"; "jpg"; "jpeg"; "gif"; "bmp"].

Definition allowed_file (filename : string) : py bool :=
  if str_contains "." filename then
    ext ← Model.getitem (rsplit1 filename "."%char) 1;
    Return (bool_decide (str_lower ext ∈ ALLOWED_EXTENSIONS))
  else Return false.

(** ** [get_model_uptime]

    A [datetime] is the number of microseconds since some epoch; the
    difference of two is a [timedelta], normalized into days and seconds
    of the day. *)
Definition timedelta_days (now start : Z) : Z :=
  ((now - start) / 86400000000)%Z.

Definition timedelta_seconds (now start : Z) : Z :=
  (((now - start) mod 86400000000) / 1000000)%Z.

(** days, hours, minutes, seconds *)
Definition uptime_parts (now start : Z) : Z * Z * Z * Z :=
  let days := timedelta_days now start in
  let '(hours, remainder) := divmod (timedelta_seconds now start) 3600 in
  let '(minutes, seconds) := divmod remainder 60 in
  (days, hours, minutes, seconds).

Definition get_model_uptime (model_start_time : option Z) (now : Z)
  : string :=
  match model_start_time with
  | None => "Model not loaded"
  | Some start =>
      let '(days, hours, minutes, seconds) := uptime_parts now start in
      pretty days +:+ "d " +:+ pretty hours +:+ "h " +:+
      pretty minutes +:+ "m " +:+ pretty seconds +:+ "s"
  end.

(** ** [initialize_model]

    The globals [prediction_service] and [model_start_time]. *)
Record serving := {
  prediction_service : option PredictionService;
  model_start_time : option Z
}.

(** [initialize_model()]: its answer and the globals after it. *)
Definition initialize_model (fs : Model.filesystem) (model_path : string)
    (class_indices_file : py (list (string * Z))) (now : Z) (g : serving)
  : bool * serving :=
  if negb (Model.path_exists fs model_path) then (false, g)
  else
    match PredictionService_init fs model_path class_indices_file
            (128%nat, 128%nat) with
    | Return service =>
        (true, {| prediction_service := Some service;
                  model_start_time := Some now |})
    | Raised _ => (false, g)
    end.

(** ** [/api/predict] *)

(** [jsonify(body), status] *)
Inductive reply := Reply (body : record) (status : Z).

(** [file.filename] *)
Definition get_filename (file : FileStorage) : py string :=
  match filename file with
  | Some name => Return name
  | None => Raised (Raise (OtherException "AttributeError")
                      "object has no attribute 'filename'")
  end.

(** [file] is [request.files['file']] when the request has that part.  The
    answer and the prediction log after the request; an exception that
    leaves the view is raised. *)
Definition api_predict (pil : pillow) (g : serving) (now : string)
    (open_w : option exn) (file : option FileStorage) (log : log_file)
  : py (reply * log_file) :=
  match file with
  | None => Return (Reply {[ "error" := PyStr "No file provided" ]} 400, log)
  | Some file =>
      name ← get_filename file;
      invalid ← (if String.eqb name "" then Return true
                 else allowed ← allowed_file name; Return (negb allowed));
      if (invalid : bool) then
        Return (Reply {[ "error" := PyStr "Invalid file" ]} 400, log)
      else
        try_except
          (match prediction_service g with
           | None =>
               Raised (Raise (OtherException "AttributeError")
                 "'NoneType' object has no attribute 'predict_uploaded_image'")
           | Some service =>
               result ← predict_uploaded_image pil service now file;
               Return (Reply result 200,
                       save_prediction_log result open_w log)
           end)
          (fun e => Return (Reply {[ "error" := PyStr (exc_str e) ]} 500, log))
  end.

(** ** [get_dataset_statistics]

    [train_dir] is [None] when [TRAIN_DIR] does not exist. *)
(** [[f for f in entries if allowed_file(f)]] *)
Fixpoint allowed_only (entries : list string) : py (list string) :=
  match entries with
  | [] => Return []
  | f :: rest =>
      allowed ← allowed_file f;
      kept ← allowed_only rest;
      Return (if (allowed : bool) then f :: kept else kept)
  end.

Fixpoint dataset_loop (listing : PreprocessingRest.directory_listing)
    (classes : list (string * Z)) (total_images : Z)
  : py (list (string * Z) * Z) :=
  match listing with
  | [] => Return (classes, total_images)
  | (class_name, Some entries) :: rest =>
      images ← allowed_only entries;
      let count := Z.of_nat (length images) in
      dataset_loop rest (dict_set String.eqb classes class_name count)
        (total_images + count)
  | (_, None) :: rest => dataset_loop rest classes total_images
  end.

Definition get_dataset_statistics
    (train_dir : option PreprocessingRest.directory_listing)
  : py (list (string * Z) * Z) :=
  match train_dir with
  | None => Return ([], 0%Z)
  | Some listing => dataset_loop listing [] 0
  end.

(** An entry that [allowed_file] accepts. *)
Definition counts_as_image (f : string) : bool :=
  match allowed_file f with
  | Return true => true
  | _ => false
  end.

(** The class directories of a listing, each with the number of its
    entries that count as images. *)
Definition dataset_classes (listing : PreprocessingRest.directory_listing)
  : list (string * Z) :=
  flat_map (fun entry =>
    match snd entry with
    | Some entries =>
        [(fst entry, Z.of_nat (length (List.filter counts_as_image entries)))]
    | None => []
    end) listing.

End AppRoutes.

(* ===================================================================== *)
(** * Sample inputs *)
(* ===================================================================== *)

Module Samples.

Import Preprocessing.

Definition red : pixel := (xff, x00, x00).
Definition grey : pixel := (x80, x80, x80).

(** A 1x1 red image. *)
Definition red_dot : Image := RGB 1 1 (fun _ _ => red).

(** A file system with one image, [cat.jpg]; an upload stream decodes
    unless it is empty.  The kernels copy the top-left pixel. *)
Definition sample_pillow : pillow :=
  {| open_path := fun path =>
       if String.eqb path "cat.jpg" then Return red_dot
       else Raised (Raise FileNotFoundError
              ("[Errno 2] No such file or directory: '" +:+ path +:+ "'"));
     open_stream := fun bytes =>
       match bytes with
       | [] => Raised (Raise (OtherException "UnidentifiedImageError")
                         "cannot identify image file")
       | _ => Return red_dot
       end;
     convert_rgb := fun _ _ _ => grey;
     resample := fun _ img _ _ _ =>
       match img with RGB _ _ px => px O O | NonRGB _ _ _ _ => grey end;
     resample_raw := fun _ _ _ _ _ => [] |}.

Definition cat_upload : FileStorage :=
  {| filename := Some "cat.jpg"; stream := [xff; xd8; xff] |}.

Definition empty_upload : FileStorage :=
  {| filename := Some "empty.png"; stream := [] |}.

(** A preprocessor for images two pixels high and three wide. *)
Definition tall2_wide3 : ImagePreprocessor := {| img_size := (2%nat, 3%nat) |}.

(** A three-class model for that input size. *)
Definition three_class_model : Model.KerasModel :=
  {| Model.keras_predict := fun x =>
       if decide (shape x = [1; 2; 3; 3]%nat)
       then Return [[1 # 4; 1 # 2; 1 # 4]]
       else Raised (Raise ValueError "incompatible input shape") |}.

Definition ready_classifier : Model.ImageClassifier :=
  {| Model.img_size := (2%nat, 3%nat); Model.num_classes := 3;
     Model.learning_rate := 1 # 1000;
     Model.model := Some three_class_model |}.

Definition unready_classifier : Model.ImageClassifier :=
  Model.ImageClassifier_init (2%nat, 3%nat) 3 (1 # 1000).

Definition sample_class_indices : list (string * Z) :=
  [("bird", 0); ("cat", 1); ("dog", 2)].

Definition sample_service : Prediction.PredictionService :=
  {| Prediction.img_size := (2%nat, 3%nat);
     Prediction.classifier := ready_classifier;
     Prediction.class_indices := sample_class_indices;
     Prediction.index_to_class :=
       Prediction.reverse_mapping sample_class_indices;
     Prediction.preprocessor := tall2_wide3 |}.

(** A disk with nothing on it. *)
Definition empty_disk : Model.filesystem :=
  {| Model.files := ∅; Model.dirs := ∅ |}.

(** A classifier as the constructor's defaults make it. *)
Definition fresh_classifier : Model.ImageClassifier :=
  Model.ImageClassifier_init Model.default_img_size Model.default_num_classes
    Model.default_learning_rate.


(** Three logged records: two successes and a failure. *)
Definition sample_log : list Prediction.record :=
  [ list_to_map [("success", Prediction.PyBool true);
                 ("predicted_class", Prediction.PyStr "cat");
                 ("confidence", Prediction.PyFloat (3 # 4))];
    list_to_map [("success", Prediction.PyBool false);
                 ("error", Prediction.PyStr "cannot identify image file")];
    list_to_map [("success", Prediction.PyBool true);
                 ("predicted_class", Prediction.PyStr "dog");
                 ("confidence", Prediction.PyFloat (1 # 4))] ].

Definition sample_statistics : Prediction.record :=
  list_to_map
    [("total_predictions", Prediction.PyInt 3);
     ("successful_predictions", Prediction.PyInt 2);
     ("failed_predictions", Prediction.PyInt 1);
     ("class_distribution",
        Prediction.PyDict
          [(Prediction.PyStr "cat", Prediction.PyInt 1);
           (Prediction.PyStr "dog", Prediction.PyInt 1)]);
     ("average_confidence", Prediction.PyFloat (16 # 32));
     ("min_confidence", Prediction.PyFloat (1 # 4));
     ("max_confidence", Prediction.PyFloat (3 # 4))].

(** The top two classes for [cat.jpg]. *)
Definition sample_top2 : Prediction.record :=
  list_to_map
    [("success", Prediction.PyBool true);
     ("top_predictions",
        Prediction.PyList [Prediction.top_entry "cat" (1 # 2);
                           Prediction.top_entry "bird" (1 # 4)]);
     ("image_path", Prediction.PyStr "cat.jpg");
     ("timestamp", Prediction.PyStr "2024-01-01T00:00:00")].

(** A run of the retraining job in which [classifier.retrain] raises. *)
Definition retrain_fails : App.world :=
  {| App.outcome := fun f =>
       match f with
       | App.classifier_retrain =>
           Some (Raise ValueError "Model not created or loaded.")
       | _ => None
       end;
     App.reload_ok := true;
     App.now_isoformat := "2024-01-01T00:00:00" |}.

(** The record [predict_image] builds for [cat.jpg]. *)
Definition sample_prediction : Prediction.record :=
  list_to_map
    [("success", Prediction.PyBool true);
     ("predicted_class", Prediction.PyStr "cat");
     ("predicted_index", Prediction.PyInt 1);
     ("confidence", Prediction.PyFloat (1 # 2));
     ("probabilities",
        Prediction.PyDict
          [(Prediction.PyStr "bird", Prediction.PyFloat (1 # 4));
           (Prediction.PyStr "cat", Prediction.PyFloat (1 # 2));
           (Prediction.PyStr "dog", Prediction.PyFloat (1 # 4))]);
     ("image_path", Prediction.PyStr "cat.jpg");
     ("timestamp", Prediction.PyStr "2024-01-01T00:00:00")].

(** An upload whose name points out of the upload directory. *)
Definition traversal_upload : FileStorage :=
  {| filename := Some "../../etc/passwd"; stream := [x72; x6f; x6f; x74] |}.

(** A disk on which every [file.save] works, and a Pillow whose [verify]
    finds nothing wrong. *)
Definition always_saves : FileStorage -> string -> option exn :=
  fun _ _ => None.

Definition always_verifies : Image -> option exn := fun _ => None.

(** A training directory: two classes of two files each and a stray
    file. *)
Definition sample_listing : PreprocessingRest.directory_listing :=
  [("cats", Some ["a.jpg"; "b.png"]);
   ("dogs", Some ["c.JPG"; "notes.txt"]);
   ("README.md", None)].

(** [np.mean] where it does not round: on values that are dyadic
    rationals of a few bits, such as the confidences 3/4 and 1/4 of
    [sample_log], every sum and the division by a small power of two are
    exact in double precision, and the result is the exact mean. *)
Definition dyadic_mean (l : list Q) : Q :=
  (Qsum l / inject_Z (Z.of_nat (length l)))%Q.

(** A model whose output layer is no softmax: the scores of its three
    classes are 1/2, 1 and 1/2.  A disk that holds it as an archive. *)
Definition score_model : Model.KerasModel :=
  {| Model.keras_predict := fun x =>
       if decide (shape x = [1; 2; 3; 3]%nat)
       then Return [[1 # 2; 1%Q; 1 # 2]]
       else Raised (Raise ValueError "incompatible input shape") |}.

Definition score_disk : Model.filesystem :=
  {| Model.files := {[ "models/scores.keras" := Model.KerasArchive score_model ]};
     Model.dirs := {[ "models" ]} |}.

(** A service of two classes that the model scores alike, and whose
    class-indices file names the class of index 1 first. *)
Definition tie_model : Model.KerasModel :=
  {| Model.keras_predict := fun x =>
       if decide (shape x = [1; 2; 3; 3]%nat)
       then Return [[1 # 2; 1 # 2]]
       else Raised (Raise ValueError "incompatible input shape") |}.

Definition tied_class_indices : list (string * Z) :=
  [("dog", 1); ("cat", 0)].

Definition tied_service : Prediction.PredictionService :=
  {| Prediction.img_size := (2%nat, 3%nat);
     Prediction.classifier :=
       {| Model.img_size := (2%nat, 3%nat); Model.num_classes := 2;
          Model.learning_rate := 1 # 1000;
          Model.model := Some tie_model |};
     Prediction.class_indices := tied_class_indices;
     Prediction.index_to_class := Prediction.reverse_mapping tied_class_indices;
     Prediction.preprocessor := tall2_wide3 |}.

(** What [predict_image] returns for [cat.jpg] with that service: the two
    probabilities are equal. *)
Definition tied_prediction : Prediction.record :=
  list_to_map
    [("success", Prediction.PyBool true);
     ("predicted_class", Prediction.PyStr "cat");
     ("predicted_index", Prediction.PyInt 0);
     ("confidence", Prediction.PyFloat (1 # 2));
     ("probabilities",
        Prediction.PyDict
          [(Prediction.PyStr "cat", Prediction.PyFloat (1 # 2));
           (Prediction.PyStr "dog", Prediction.PyFloat (1 # 2))]);
     ("image_path", Prediction.PyStr "cat.jpg");
     ("timestamp", Prediction.PyStr "2024-01-01T00:00:00")].

(** The top class of that service for [cat.jpg]. *)
Definition tied_top1 : Prediction.record :=
  list_to_map
    [("success", Prediction.PyBool true);
     ("top_predictions",
        Prediction.PyList
          [Prediction.PyDict
             [(Prediction.PyStr "class", Prediction.PyStr "cat");
              (Prediction.PyStr "probability", Prediction.PyFloat (1 # 2))]]);
     ("image_path", Prediction.PyStr "cat.jpg");
     ("timestamp", Prediction.PyStr "2024-01-01T00:00:00")].

(** A run of the retraining job in which every call returns, the reload
    failing. *)
Definition retrain_succeeds : App.world :=
  {| App.outcome := fun _ => None;
     App.reload_ok := false;
     App.now_isoformat := "2024-01-01T00:00:00" |}.

End Samples.

(* ===================================================================== *)
(** * Properties of the retraining job *)
(* ===================================================================== *)

Module AppFacts.

Import App.

Lemma exec_stmt_no_call w s st :
  is_call s = false -> exists st', exec_stmt w s st = Return st'.
Proof. destruct s; simpl; intros H; try discriminate; eauto. Qed.

Lemma exec_block_no_call w b :
  forallb (fun s => negb (is_call s)) b = true ->
  forall st, snd (exec_block w b st) = None.
Proof.
  induction b as [|s b IH]; simpl; intros Hb st; [reflexivity|].
  apply andb_prop in Hb as [Hs Hb].
  apply negb_true_iff in Hs.
  destruct (exec_stmt_no_call w s st Hs) as [st' ->].
  now apply IH.
Qed.

(** The [finally] block stores [False] under ['is_running'] and touches
    nothing else. *)
Lemma exec_finally_block w st :
  exec_block w finally_block st =
  ({| is_running := false; progress := progress st; message := message st;
      last_retrain_time := last_retrain_time st |}, None).
Proof. reflexivity. Qed.

(** The handler stores the message and resets the progress. *)
Lemma exec_except_block w e st :
  exec_block w (except_block e) st =
  ({| is_running := is_running st; progress := 0;
      message := "Error during retraining: " +:+ exc_str e;
      last_retrain_time := last_retrain_time st |}, None).
Proof. reflexivity. Qed.

(** Whatever the [try] block and the handler are, a statement that ends in
    [finally_block] leaves [is_running] false. *)
Lemma try_except_finally_clears w body handler st :
  is_running (fst (try_except_finally w body handler finally_block st)) = false.
Proof.
  unfold try_except_finally.
  destruct (exec_block w body st) as [st1 [e|]].
  - destruct (exec_block w (handler e) st1) as [st2 r2].
    rewrite exec_finally_block. reflexivity.
  - rewrite exec_finally_block. reflexivity.
Qed.

(** The run of [perform_retraining], case by case. *)
Lemma perform_retraining_raised w st e :
  raised_in_try w st = Some e ->
  exists st1,
    exec_block w try_block st = (st1, Some e) /\
    perform_retraining w st =
    ({| is_running := false; progress := 0;
        message := "Error during retraining: " +:+ exc_str e;
        last_retrain_time := last_retrain_time st1 |}, None).
Proof.
  unfold raised_in_try, perform_retraining, try_except_finally.
  destruct (exec_block w try_block st) as [st1 r] eqn:E. cbn [snd].
  intros ->. exists st1. split; [reflexivity|].
  rewrite exec_except_block, exec_finally_block. reflexivity.
Qed.

Lemma perform_retraining_completed w st :
  raised_in_try w st = None ->
  perform_retraining w st =
  ({| is_running := false; progress := 100;
      message := "Retraining completed successfully!";
      last_retrain_time := Some (now_isoformat w) |}, None).
Proof.
  unfold raised_in_try, perform_retraining, try_except_finally.
  simpl.
  destruct (outcome w create_train_generator); simpl; [discriminate|].
  destruct (outcome w classifier_retrain); simpl; [discriminate|].
  destruct (outcome w save_model_new); simpl; [discriminate|].
  destruct (outcome w save_model_main); simpl; [discriminate|].
  reflexivity.
Qed.

(** The exception of the [try] block is the one of the first external call
    that raises. *)
Lemma raised_in_try_first w st :
  raised_in_try w st =
  match outcome w create_train_generator with
  | Some e => Some e
  | None =>
      match outcome w classifier_retrain with
      | Some e => Some e
      | None =>
          match outcome w save_model_new with
          | Some e => Some e
          | None => outcome w save_model_main
          end
      end
  end.
Proof.
  unfold raised_in_try. simpl.
  destruct (outcome w create_train_generator); simpl; [reflexivity|].
  destruct (outcome w classifier_retrain); simpl; [reflexivity|].
  destruct (outcome w save_model_new); simpl; [reflexivity|].
  destruct (outcome w save_model_main); reflexivity.
Qed.

(** C2.  Every run of [perform_retraining], whichever of its calls raise,
    returns (no exception leaves it) with [is_running] false; and when a
    call raised [e], the final status has the message
    ['Error during retraining: ' + str(e)] and progress 0. *)
Theorem perform_retraining_cleanup (w : world) (st : RetrainingStatus) :
  let final := fst (perform_retraining w st) in
  is_running final = false /\
  snd (perform_retraining w st) = None /\
  (forall e, raised_in_try w st = Some e ->
     message final = "Error during retraining: " +:+ exc_str e /\
     progress final = 0).
Proof.
  cbv zeta. split; [apply try_except_finally_clears|].
  destruct (raised_in_try w st) as [e|] eqn:E.
  - destruct (perform_retraining_raised w st e E) as (st1 & _ & ->).
    simpl. split; [reflexivity|]. intros e' [= <-]. split; reflexivity.
  - rewrite (perform_retraining_completed w st E). simpl.
    split; [reflexivity|]. intros e' [=].
Qed.

Lemma perform_retraining_cleanup_witness :
  let final := fst (perform_retraining Samples.retrain_fails initial_status) in
  is_running final = false /\
  message final = "Error during retraining: Model not created or loaded." /\
  progress final = 0.
Proof.
  pose proof (perform_retraining_cleanup Samples.retrain_fails initial_status)
    as H.
  cbv zeta in H. destruct H as (H1 & _ & H3).
  cbv zeta. split; [exact H1|].
  apply (H3 (Raise ValueError "Model not created or loaded.")).
  reflexivity.
Defined.

(** The thread runs the statements of [perform_retraining] one by one and
    ends where the function ends. *)
Lemma thread_reaches_perform_retraining w st :
  thread_steps w 30 (InTry try_block) st =
  (Finished (snd (perform_retraining w st)), fst (perform_retraining w st)).
Proof.
  unfold perform_retraining, try_except_finally. simpl.
  destruct (outcome w create_train_generator); simpl; [reflexivity|].
  destruct (outcome w classifier_retrain); simpl; [reflexivity|].
  destruct (outcome w save_model_new); simpl; [reflexivity|].
  destruct (outcome w save_model_main); reflexivity.
Qed.

(** ** The [/retrain] route *)

(** While [is_running] is set, a POST starts nothing: the status dictionary
    and the threads are as before, a warning is flashed. *)
Lemma retrain_rejected_while_running (a : app_state) :
  is_running (retraining_status a) = true ->
  retrain POST a =
    (flash "Retraining already in progress" "warning" a, Redirect "retrain")
  /\ retraining_status (fst (retrain POST a)) = retraining_status a
  /\ jobs (fst (retrain POST a)) = jobs a.
Proof. intros H. unfold retrain. rewrite H. simpl. auto. Qed.

(** The flag is set by the job's first statement, not by the handler: a
    second POST handled before the new thread has run is accepted too. *)
Lemma retrain_accepted_twice (w : world) :
  let a := app_run w [Request POST; Request POST] initial_app in
  jobs a = [InTry try_block; InTry try_block] /\
  is_running (retraining_status a) = false.
Proof. split; reflexivity. Qed.

(** C3 (where the code departs).  Two POSTs to [/retrain], the
    second handled before the first job's thread has executed
    [retraining_status['is_running'] = True]: both are accepted, and once
    each thread has run its first statement two retraining jobs are running
    at the same time. *)
Theorem two_retraining_jobs_running (w : world) :
  let a := app_run w [Request POST; Request POST; Run 0; Run 1] initial_app in
  running_jobs a = 2%nat /\
  is_running (retraining_status a) = true /\
  flashed a =
    [("Retraining started! This may take several minutes.", "info");
     ("Retraining started! This may take several minutes.", "info")].
Proof. repeat split; reflexivity. Qed.

(** When the first statement of the job runs before the next request is
    handled, that request is rejected. *)
Lemma second_post_rejected_after_first_step (w : world) :
  let a := app_run w [Request POST; Run 0; Request POST] initial_app in
  running_jobs a = 1%nat /\
  flashed a =
    [("Retraining started! This may take several minutes.", "info");
     ("Retraining already in progress", "warning")].
Proof. split; reflexivity. Qed.

End AppFacts.

(* ===================================================================== *)
(** * Properties of the preprocessor *)
(* ===================================================================== *)

Module PreprocessingFacts.

Import Preprocessing.

(** A byte scaled by 255 lies in the unit interval. *)
Lemma sample_scaled_unit b : (0 <= sample b / 255 <= 1)%Q.
Proof.
  unfold sample.
  pose proof (Byte.to_N_bounded b) as Hb.
  assert (0 <= Z.of_N (Byte.to_N b) <= 255)%Z as [H0 H1] by lia.
  split.
  - apply Qle_shift_div_l; [reflexivity|].
    unfold Qle; simpl. lia.
  - apply Qle_shift_div_r; [reflexivity|].
    unfold Qle; simpl. lia.
Qed.

Lemma rgb_array_unit w h px :
  Forall in_unit (data (expand_dims_0 (divide_255 (img_to_array (RGB w h px))))).
Proof.
  simpl. apply Forall_map.
  apply List.Forall_flat_map, Forall_forall. intros y _.
  apply List.Forall_flat_map, Forall_forall. intros x _.
  destruct (px x y) as [[r g] b].
  repeat constructor; apply sample_scaled_unit.
Qed.

Lemma rgb_array_shape w h px :
  shape (expand_dims_0 (divide_255 (img_to_array (RGB w h px))))
  = [1; h; w; 3]%nat.
Proof. reflexivity. Qed.

Lemma length_flat_map_const {A B} (f : A -> list B) (n : nat) (l : list A) :
  (forall x, length (f x) = n) ->
  length (flat_map f l) = (length l * n)%nat.
Proof.
  intros Hf. induction l as [|x l IH]; simpl; [reflexivity|].
  rewrite length_app, Hf, IH. reflexivity.
Qed.

Lemma rgb_array_length w h px :
  length (data (expand_dims_0 (divide_255 (img_to_array (RGB w h px)))))
  = (h * (w * 3))%nat.
Proof.
  simpl. rewrite length_map.
  rewrite (length_flat_map_const _ (w * 3)%nat), length_seq; [reflexivity|].
  intros y.
  rewrite (length_flat_map_const _ 3%nat), length_seq; [reflexivity|].
  intros x. destruct (px x y) as [[r g] b]. reflexivity.
Qed.

Lemma other_mode_not_rgb m : String.eqb (mode_name m) "RGB" = false.
Proof. destruct m; reflexivity. Qed.

(** [load_img] hands back an RGB image of the requested height and
    width, whatever the mode and size of the file on disk. *)
Lemma load_img_rgb pil path img h w :
  open_path pil path = Return img -> (0 < h)%nat -> (0 < w)%nat ->
  exists px, load_img pil path (h, w) = Return (RGB w h px).
Proof.
  intros Ho Hh Hw. unfold load_img. rewrite Ho. simpl.
  assert (Hrs : forall w0 h0 px0,
    exists px,
      (if decide (im_size (RGB w0 h0 px0) = (w, h)) then Return (RGB w0 h0 px0)
       else resize pil NEAREST (RGB w0 h0 px0) (w, h)) = Return (RGB w h px)).
  { intros w0 h0 px0. destruct (decide (im_size (RGB w0 h0 px0) = (w, h))) as [E|E].
    - simpl in E. injection E as -> ->. eauto.
    - unfold resize.
      destruct w; [lia|]. destruct h; [lia|]. simpl. eauto. }
  destruct img as [w0 h0 px0 | m w0 h0 raw]; simpl.
  - apply Hrs.
  - rewrite other_mode_not_rgb. apply Hrs.
Qed.

(** The file path: shape (1, height, width, 3), values in [0, 1]. *)
Lemma preprocess_single_image_ok pil h w path img :
  open_path pil path = Return img -> (0 < h)%nat -> (0 < w)%nat ->
  exists a,
    preprocess_single_image pil {| img_size := (h, w) |} path true = Return a
    /\ shape a = [1; h; w; 3]%nat
    /\ length (data a) = (h * (w * 3))%nat
    /\ Forall in_unit (data a).
Proof.
  intros Ho Hh Hw.
  destruct (load_img_rgb pil path img h w Ho Hh Hw) as [px Hl].
  unfold preprocess_single_image. cbn [img_size].
  unfold mbind, py_bind, bind. rewrite Hl. cbn [try_except].
  eexists. split; [reflexivity|].
  split; [apply rgb_array_shape|].
  split; [apply rgb_array_length | apply rgb_array_unit].
Qed.

(** The upload: [img.resize(self.img_size)] reads the pair as (width,
    height), so the array has [img_size[1]] rows and [img_size[0]]
    columns. *)
Lemma preprocess_uploaded_image_shape pil a b image_file img :
  open_stream pil (stream image_file) = Return img ->
  (0 < a)%nat -> (0 < b)%nat ->
  exists arr,
    preprocess_uploaded_image pil {| img_size := (a, b) |} image_file true
      = Return arr
    /\ shape arr = [1; b; a; 3]%nat
    /\ length (data arr) = (b * (a * 3))%nat
    /\ Forall in_unit (data arr).
Proof.
  intros Ho Ha Hb.
  unfold preprocess_uploaded_image, Image_open. cbn [img_size].
  unfold mbind, py_bind, bind. rewrite Ho.
  assert (Hrs : forall w0 h0 px0, exists px,
     resize pil BICUBIC (RGB w0 h0 px0) (a, b) = Return (RGB a b px)).
  { intros. unfold resize. destruct a; [lia|]. destruct b; [lia|].
    simpl. eauto. }
  assert (Himg : exists px,
    resize pil BICUBIC
      (if negb (String.eqb (im_mode img) "RGB") then convert_RGB pil img
       else img) (a, b) = Return (RGB a b px)).
  { destruct img as [w0 h0 px0 | m w0 h0 raw]; simpl.
    - apply Hrs.
    - rewrite other_mode_not_rgb. simpl. apply Hrs. }
  destruct Himg as [px ->]. cbn [try_except].
  eexists. split; [reflexivity|].
  split; [apply rgb_array_shape|].
  split; [apply rgb_array_length | apply rgb_array_unit].
Qed.

(** With a square target the two paths agree on the shape. *)
Lemma preprocess_uploaded_image_square pil n image_file img :
  open_stream pil (stream image_file) = Return img -> (0 < n)%nat ->
  exists arr,
    preprocess_uploaded_image pil {| img_size := (n, n) |} image_file true
      = Return arr
    /\ shape arr = [1; n; n; 3]%nat
    /\ Forall in_unit (data arr).
Proof.
  intros Ho Hn.
  destruct (preprocess_uploaded_image_shape pil n n image_file img Ho Hn Hn)
    as (arr & H1 & H2 & _ & H4).
  eauto.
Qed.

(** C6 (where the code departs).  A preprocessor configured for
    images 2 high and 3 wide: the file path yields shape (1, 2, 3, 3), the
    upload path yields (1, 3, 2, 3), height and width exchanged. *)
Theorem preprocess_uploaded_image_swaps_height_width :
  fmap shape (preprocess_single_image Samples.sample_pillow
                Samples.tall2_wide3 "cat.jpg" true)
    = Return [1; 2; 3; 3]%nat /\
  fmap shape (preprocess_uploaded_image Samples.sample_pillow
                Samples.tall2_wide3 Samples.cat_upload true)
    = Return [1; 3; 2; 3]%nat.
Proof. split; reflexivity. Qed.

(** Whatever goes wrong inside either function leaves it as a
    [ValueError]. *)
Lemma preprocess_single_image_raises_only_ValueError pil self path normalize e :
  preprocess_single_image pil self path normalize = Raised e ->
  exc_type e = ValueError.
Proof.
  unfold preprocess_single_image, mbind, py_bind, bind.
  destruct (load_img pil path (img_size self)); cbn [try_except];
    intros [= <-]; reflexivity.
Qed.

Lemma preprocess_uploaded_image_raises_only_ValueError pil self f normalize e :
  preprocess_uploaded_image pil self f normalize = Raised e ->
  exc_type e = ValueError.
Proof.
  unfold preprocess_uploaded_image, mbind, py_bind, bind.
  destruct (Image_open pil f) as [img|e0]; cbn [try_except].
  - destruct (resize pil BICUBIC _ _); cbn [try_except];
      intros [= <-]; reflexivity.
  - intros [= <-]; reflexivity.
Qed.

(** C8 (as amended).  An input that cannot be opened makes either
    function raise Python's built-in [ValueError], whose text is the fixed
    prefix followed by the text of the underlying error. *)
Theorem undecodable_image_raises_ValueError
    (pil : pillow) (self : ImagePreprocessor) (normalize : bool) :
  (forall path e, open_path pil path = Raised e ->
     preprocess_single_image pil self path normalize =
     Raised (Raise ValueError
       ("Error preprocessing image " +:+ path +:+ ": " +:+ exc_str e))) /\
  (forall image_file e, open_stream pil (stream image_file) = Raised e ->
     preprocess_uploaded_image pil self image_file normalize =
     Raised (Raise ValueError
       ("Error preprocessing uploaded image: " +:+ exc_str e))).
Proof.
  split.
  - intros path e Ho. unfold preprocess_single_image, load_img.
    unfold mbind, py_bind, bind. rewrite Ho. reflexivity.
  - intros f e Ho. unfold preprocess_uploaded_image, Image_open.
    unfold mbind, py_bind, bind. rewrite Ho. reflexivity.
Qed.

Lemma undecodable_image_raises_ValueError_witness :
  preprocess_single_image Samples.sample_pillow Samples.tall2_wide3
    "missing.png" true =
  Raised (Raise ValueError
    "Error preprocessing image missing.png: [Errno 2] No such file or directory: 'missing.png'")
  /\
  preprocess_uploaded_image Samples.sample_pillow Samples.tall2_wide3
    Samples.empty_upload true =
  Raised (Raise ValueError
    "Error preprocessing uploaded image: cannot identify image file").
Proof.
  split.
  - apply (proj1 (undecodable_image_raises_ValueError
                    Samples.sample_pillow Samples.tall2_wide3 true)
             "missing.png"
             (Raise FileNotFoundError
                "[Errno 2] No such file or directory: 'missing.png'")).
    reflexivity.
  - apply (proj2 (undecodable_image_raises_ValueError
                    Samples.sample_pillow Samples.tall2_wide3 true)
             Samples.empty_upload
             (Raise (OtherException "UnidentifiedImageError")
                "cannot identify image file")).
    reflexivity.
Defined.

(** C8 (counterexample).  An empty upload: the exception that leaves
    [preprocess_uploaded_image] is of class [ValueError], not of a class
    named [InvalidImageError]; and it is the very class [predict] raises on
    a classifier without a model, so the class does not tell a bad upload
    from an unready classifier. *)
Lemma undecodable_upload_not_InvalidImageError :
  exists e e',
    preprocess_uploaded_image Samples.sample_pillow Samples.tall2_wide3
      Samples.empty_upload true = Raised e /\
    class_name (exc_type e) = "ValueError" /\
    class_name (exc_type e) <> "InvalidImageError" /\
    Model.predict Samples.unready_classifier {| shape := []; data := [] |}
      = Raised e' /\
    exc_type e' = exc_type e.
Proof.
  eexists _, _. split; [reflexivity|]. split; [reflexivity|].
  split; [discriminate|]. split; reflexivity.
Qed.

End PreprocessingFacts.

(* ===================================================================== *)
(** * Properties of the classifier *)
(* ===================================================================== *)

Module ModelFacts.

Import Preprocessing Model.
Local Open Scope list_scope.

(** ** [predict] *)

Lemma not_Qle_bool_lt x y : negb (Qle_bool x y) = true -> (y < x)%Q.
Proof.
  intros H. apply negb_true_iff in H. apply Qnot_le_lt. intros Hle.
  apply Qle_bool_iff in Hle. congruence.
Qed.

Lemma not_Qle_bool_le x y : negb (Qle_bool x y) = false -> (x <= y)%Q.
Proof. intros H. apply negb_false_iff in H. now apply Qle_bool_iff. Qed.

(** The scan of [np.argmax]: [pre] has been read, [best] is the index of
    the greatest score met so far. *)
Lemma argmax_from_spec (l : list Q) : forall (pre : list Q) best bv,
  pre !! best = Some bv ->
  (forall u, In u pre -> (u <= bv)%Q) ->
  exists v,
    (pre ++ l) !! argmax_from (length pre) best bv l = Some v /\
    (forall u, In u (pre ++ l) -> (u <= v)%Q).
Proof.
  induction l as [|x l IH]; intros pre best bv Hbest Hmax; simpl.
  - exists bv. rewrite app_nil_r. auto.
  - destruct (negb (Qle_bool x bv)) eqn:E.
    + apply not_Qle_bool_lt in E.
      destruct (IH (pre ++ [x]) (length pre) x) as (v & Hv & Hle).
      * rewrite lookup_app_r, Nat.sub_diag by lia. reflexivity.
      * intros u [Hu | [<- | []]]%in_app_iff.
        -- apply Qlt_le_weak, Qle_lt_trans with bv; auto.
        -- apply Qle_refl.
      * rewrite length_app, Nat.add_1_r, <- app_assoc in Hv.
        rewrite <- app_assoc in Hle. eauto.
    + apply not_Qle_bool_le in E.
      destruct (IH (pre ++ [x]) best bv) as (v & Hv & Hle).
      * rewrite lookup_app_l; [assumption|].
        now apply lookup_lt_Some in Hbest.
      * intros u [Hu | [<- | []]]%in_app_iff; auto.
      * rewrite length_app, Nat.add_1_r, <- app_assoc in Hv.
        rewrite <- app_assoc in Hle. eauto.
Qed.

Lemma np_argmax_spec (row : list Q) (i : nat) :
  np_argmax row = Return i ->
  exists v, row !! i = Some v /\ forall u, In u row -> (u <= v)%Q.
Proof.
  destruct row as [|x l]; simpl; [discriminate|]. intros [= <-].
  apply (argmax_from_spec l [x] 0%nat x); [reflexivity|].
  intros u [<- | []]. apply Qle_refl.
Qed.

Lemma enumerate_from_values {A} (l : list A) i :
  map snd (enumerate_from i l) = l.
Proof.
  revert i. induction l as [|x l IH]; intros i; simpl; [reflexivity|].
  now rewrite IH.
Qed.

Lemma enumerate_from_keys {A} (l : list A) i :
  map fst (enumerate_from i l) = seq i (length l).
Proof.
  revert i. induction l as [|x l IH]; intros i; simpl; [reflexivity|].
  now rewrite IH.
Qed.

Lemma enumerate_from_lookup {A} (l : list A) i j x :
  l !! j = Some x -> In ((i + j)%nat, x) (enumerate_from i l).
Proof.
  revert i j. induction l as [|y l IH]; intros i j; [discriminate|].
  destruct j as [|j]; simpl.
  - intros [= ->]. left. f_equal. lia.
  - intros H. right. replace (i + S j)%nat with (S i + j)%nat by lia.
    now apply IH.
Qed.

Lemma enumerate_from_In {A} (l : list A) i k x :
  In (k, x) (enumerate_from i l) -> In x l.
Proof.
  revert i. induction l as [|y l IH]; intros i; simpl; [tauto|].
  intros [[= _ ->] | H]; [now left | right; eauto].
Qed.

(** What a returning call of [predict] went through. *)
Lemma predict_returns self x idx conf probs :
  predict self x = Return (idx, conf, probs) ->
  exists m rows row,
    model self = Some m /\
    keras_predict m x = Return rows /\
    rows !! 0%nat = Some row /\
    np_argmax row = Return idx /\
    row !! idx = Some conf /\
    probs = enumerate row.
Proof.
  unfold predict. destruct (model self) as [m|] eqn:Hm; [|discriminate].
  unfold mbind, py_bind, bind, getitem.
  destruct (keras_predict m x) as [rows|] eqn:Hk; [|discriminate].
  destruct (rows !! 0%nat) as [row|] eqn:Hrow; [|discriminate].
  destruct (np_argmax row) as [i|] eqn:Hi; [|discriminate].
  destruct (row !! i) as [c|] eqn:Hc; [|discriminate].
  intros [= <- <- <-]. exists m, rows, row. repeat split; assumption.
Qed.

(** C5 (as amended).  For every prediction [predict] returns, the
    confidence is the maximum of the values of the probability map: it is
    the value of the predicted class, and no value exceeds it.  The map
    holds, class by class, the scores the model gives for the image, as
    they are: nothing is normalised. *)
Theorem predict_confidence_is_maximum
    (self : ImageClassifier) (x : ndarray)
    (idx : nat) (conf : Q) (probs : list (nat * Q)) :
  predict self x = Return (idx, conf, probs) ->
  In (idx, conf) probs /\
  (forall i v, In (i, v) probs -> (v <= conf)%Q) /\
  exists m rows row,
    model self = Some m /\
    keras_predict m x = Return rows /\
    rows !! 0%nat = Some row /\
    map fst probs = seq 0 (length row) /\
    map snd probs = row.
Proof.
  intros Hp.
  destruct (predict_returns self x idx conf probs Hp)
    as (m & rows & row & Hm & Hk & Hrow & Harg & Hconf & ->).
  destruct (np_argmax_spec row idx Harg) as (v & Hv & Hmax).
  assert (v = conf) as -> by congruence.
  split; [|split].
  - apply (enumerate_from_lookup row 0 idx conf Hconf).
  - intros i u Hin. apply Hmax. eapply enumerate_from_In, Hin.
  - exists m, rows, row. unfold enumerate.
    rewrite enumerate_from_keys, enumerate_from_values. auto.
Qed.

Lemma predict_confidence_is_maximum_witness :
  let probs := [(0%nat, 1 # 4); (1%nat, 1 # 2); (2%nat, 1 # 4)] in
  In (1%nat, 1 # 2) probs /\
  (forall i v, In (i, v) probs -> (v <= 1 # 2)%Q) /\
  exists m rows row,
    model Samples.ready_classifier = Some m /\
    keras_predict m {| shape := [1; 2; 3; 3]%nat; data := [] |}
      = Return rows /\
    rows !! 0%nat = Some row /\
    map fst probs = seq 0 (length row) /\
    map snd probs = row.
Proof.
  apply (predict_confidence_is_maximum Samples.ready_classifier
           {| shape := [1; 2; 3; 3]%nat; data := [] |} 1 (1 # 2)).
  reflexivity.
Defined.

(** C5 (counterexample).  [load_model] takes any archive, and [predict]
    hands on what its model returns: for a model that scores its three
    classes 1/2, 1 and 1/2 (values double precision adds without
    rounding) the values of the map sum to 2. *)
Lemma loaded_scores_do_not_sum_to_1 :
  exists c,
    load_model Samples.fresh_classifier "models/scores.keras"
      Samples.score_disk = Return c /\
    predict c {| shape := [1; 2; 3; 3]%nat; data := [] |}
      = Return (1%nat, 1%Q, [(0%nat, 1 # 2); (1%nat, 1%Q); (2%nat, 1 # 2)]) /\
    (Qsum (map snd [(0%nat, 1 # 2); (1%nat, 1%Q); (2%nat, 1 # 2)]) == 2)%Q /\
    (Qabs (Qsum (map snd [(0%nat, 1 # 2); (1%nat, 1%Q); (2%nat, 1 # 2)]) - 1)
       == 1)%Q.
Proof.
  eexists. split; [vm_compute; reflexivity|].
  split; [vm_compute; reflexivity|]. split; reflexivity.
Qed.

(** Where the scores of the model do sum to 1 within [eps], as those of a
    softmax layer do, so do the values of the map. *)
Lemma softmax_scores_sum_to_1
    (self : ImageClassifier) (x : ndarray) (eps : Q)
    (idx : nat) (conf : Q) (probs : list (nat * Q)) :
  (forall m, model self = Some m -> softmax_within eps m x) ->
  predict self x = Return (idx, conf, probs) ->
  (Qabs (Qsum (map snd probs) - 1) <= eps)%Q.
Proof.
  intros Hsoft Hp.
  destruct (predict_returns self x idx conf probs Hp)
    as (m & rows & row & Hm & Hk & Hrow & _ & _ & ->).
  unfold enumerate. rewrite enumerate_from_values.
  apply (Hsoft m Hm rows row Hk).
  apply list_elem_of_In. eapply list_elem_of_lookup_2, Hrow.
Qed.

(** ** [save_model] and [load_model] *)

Lemma write_file_lookup p c fs fs' :
  write_file p c fs = Return fs' ->
  files fs' = <[p := c]> (files fs) /\ dirs fs' = dirs fs.
Proof.
  unfold write_file.
  destruct (_ && _); [discriminate|].
  destruct (bool_decide _); [discriminate|].
  intros [= <-]. split; reflexivity.
Qed.

Lemma path_exists_file fs p c :
  files fs !! p = Some c -> path_exists fs p = true.
Proof.
  intros H. unfold path_exists. rewrite H.
  rewrite bool_decide_eq_true_2 by eauto. reflexivity.
Qed.

(** A path without ['.h5'] in it: [save_model] writes the sidecar over the
    model it has just saved, and no classifier can load that file. *)
Lemma save_model_overwrites_archive self filepath fmt now fs fs' :
  save_metadata_path filepath = filepath ->
  save_model self filepath fmt true now fs = Return fs' ->
  files fs' !! filepath =
    Some (MetadataJson
            {| md_img_size := Some (img_size self);
               md_num_classes := Some (num_classes self);
               md_learning_rate := Some (learning_rate self);
               md_saved_at := Some now |})
  /\ forall c, returns (load_model c filepath fs') = false.
Proof.
  intros Hp. unfold save_model.
  destruct (model self) as [m|]; [|discriminate].
  unfold mbind, py_bind, bind.
  destruct (makedirs _ fs) as [fs1|]; [|discriminate].
  destruct (if String.eqb fmt "h5" then _ else _) as [fs2|]; [|discriminate].
  rewrite Hp. intros [Hf _]%write_file_lookup.
  assert (Hl : files fs' !! filepath = Some (MetadataJson
            {| md_img_size := Some (img_size self);
               md_num_classes := Some (num_classes self);
               md_learning_rate := Some (learning_rate self);
               md_saved_at := Some now |})).
  { rewrite Hf. apply lookup_insert_eq. }
  split; [exact Hl|].
  intros c. unfold load_model.
  destruct (negb (path_exists fs' filepath)); [reflexivity|].
  assert (Hk : exists e, keras_load_model filepath fs' = Raised e).
  { unfold keras_load_model. rewrite Hl.
    destruct (negb _); [eauto|]. destruct (str_endswith _ _); eauto. }
  destruct Hk as [e Hk].
  unfold mbind, py_bind, bind. rewrite Hk.
  destruct (str_endswith filepath ".h5"); reflexivity.
Qed.

(** C7 (where the code departs).  [save_model] on the [.keras] path
    the application prefers, then [load_model] of that path on a fresh
    classifier: the save returns, the file under the path holds the
    metadata JSON instead of the model, and the load raises, so no metadata
    is reproduced. *)
Theorem save_then_load_keras_path_raises :
  let path := "models/image_classifier_model.keras" in
  exists fs',
    save_model Samples.ready_classifier path "h5" true "2024-01-01 00:00:00"
      Samples.empty_disk = Return fs' /\
    files fs' !! path =
      Some (MetadataJson
              {| md_img_size := Some (2%nat, 3%nat);
                 md_num_classes := Some 3;
                 md_learning_rate := Some (1 # 1000);
                 md_saved_at := Some "2024-01-01 00:00:00" |}) /\
    load_model Samples.fresh_classifier path fs' =
      Raised (Raise ValueError
        "File not found: filepath=models/image_classifier_model.keras. Please ensure the file is an accessible `.keras` zip file.").
Proof.
  eexists. split; [reflexivity|]. split; reflexivity.
Qed.

(** For a [.h5] path whose sidecar lies beside it the law holds: the
    loaded classifier has the metadata of the saved one. *)
Lemma save_then_load_h5 self m filepath now fs fresh :
  model self = Some m ->
  sidecar_beside fs filepath ->
  exists fs' c,
    save_model self filepath "h5" true now fs = Return fs' /\
    load_model fresh filepath fs' = Return c /\
    img_size c = img_size self /\
    num_classes c = num_classes self /\
    learning_rate c = learning_rate self /\
    model c = Some m.
Proof.
  intros Hm (Hext & Hd & Hdf & Hmp & Hml & Hmd & Hpd & Hmpd & Hpn & Hmn).
  set (md := {| md_img_size := Some (img_size self);
                md_num_classes := Some (num_classes self);
                md_learning_rate := Some (learning_rate self);
                md_saved_at := Some now |}).
  set (fs' := {| files := <[save_metadata_path filepath := MetadataJson md]>
                           (<[filepath := KerasArchive m]> (files fs));
                 dirs := {[ dirname filepath ]} ∪ dirs fs |}).
  assert (Hsave : save_model self filepath "h5" true now fs = Return fs').
  { unfold save_model. rewrite Hm. unfold makedirs.
    destruct (String.eqb_spec (dirname filepath) ""); [contradiction|].
    rewrite Hdf. rewrite bool_decide_eq_false_2 by (intros [? ?]; discriminate).
    unfold mbind, py_bind, bind. rewrite String.eqb_refl.
    unfold keras_save, keras_extension. rewrite Hext, orb_true_r. cbn [orb].
    unfold write_file at 1. cbn [dirs files].
    rewrite (bool_decide_eq_true_2 (dirname filepath ∈ _))
      by (apply elem_of_union_l, elem_of_singleton; reflexivity).
    rewrite andb_false_r.
    rewrite (bool_decide_eq_false_2 (filepath ∈ _))
      by (intros [Hin%elem_of_singleton | Hin]%elem_of_union; tauto).
    unfold write_file. cbn [dirs files]. rewrite Hmd.
    rewrite (bool_decide_eq_true_2 (dirname filepath ∈ _))
      by (apply elem_of_union_l, elem_of_singleton; reflexivity).
    rewrite andb_false_r.
    rewrite (bool_decide_eq_false_2 (save_metadata_path filepath ∈ _))
      by (intros [Hin%elem_of_singleton | Hin]%elem_of_union; tauto).
    reflexivity. }
  assert (Hfile : files fs' !! filepath = Some (KerasArchive m)).
  { cbn [fs' files]. rewrite lookup_insert_ne by exact Hmp.
    apply lookup_insert_eq. }
  assert (Hside : files fs' !! save_metadata_path filepath
                  = Some (MetadataJson md)).
  { cbn [fs' files]. apply lookup_insert_eq. }
  assert (Hload : keras_load_model filepath fs' = Return m).
  { unfold keras_load_model, keras_extension.
    rewrite Hext, orb_true_r, Hfile. reflexivity. }
  exists fs'. eexists. split; [exact Hsave|].
  unfold load_model.
  rewrite (path_exists_file fs' filepath _ Hfile). cbn [negb].
  rewrite Hext, Hload, Hml. cbn [try_except].
  unfold mbind, py_bind, bind.
  rewrite (path_exists_file fs' _ _ Hside).
  unfold json_load_metadata. rewrite Hside.
  repeat split; reflexivity.
Qed.

Lemma save_then_load_h5_witness :
  exists fs' c,
    save_model Samples.ready_classifier "models/image_classifier_model.h5"
      "h5" true "2024-01-01 00:00:00" Samples.empty_disk = Return fs' /\
    load_model Samples.fresh_classifier "models/image_classifier_model.h5" fs'
      = Return c /\
    img_size c = (2%nat, 3%nat) /\
    num_classes c = 3 /\
    learning_rate c = 1 # 1000 /\
    model c = Some Samples.three_class_model.
Proof.
  apply (save_then_load_h5 Samples.ready_classifier Samples.three_class_model
           "models/image_classifier_model.h5" "2024-01-01 00:00:00"
           Samples.empty_disk Samples.fresh_classifier).
  - reflexivity.
  - unfold sidecar_beside.
    repeat match goal with
           | |- _ /\ _ => split
           | |- _ = _ => vm_compute; reflexivity
           | |- _ <> _ => let H := fresh in intros H; vm_compute in H; discriminate H
           | |- _ ∉ _ => apply not_elem_of_empty
           end.
Defined.

End ModelFacts.

(* ===================================================================== *)
(** * Properties of the prediction service *)
(* ===================================================================== *)

Module PredictionFacts.

Import Preprocessing Prediction.
Local Open Scope list_scope.

(** ** [predict_image], [predict_uploaded_image] *)

(** A returning [try] body hands back the success record. *)
Lemma predict_image_try_success pil self now image_path r :
  predict_image_try pil self now image_path = Return r ->
  r !! "success" = Some (PyBool true) /\
  r !! "error" = None /\
  r !! "image_path" = Some (PyStr image_path) /\
  r !! "timestamp" = Some (PyStr now).
Proof.
  unfold predict_image_try, mbind, py_bind, bind.
  destruct (preprocess_single_image _ _ _ _) as [x|]; [|discriminate].
  destruct (Model.predict _ x) as [[[idx conf] probs]|]; [|discriminate].
  destruct (class_of self idx) as [name|]; [|discriminate].
  destruct (named_probabilities self probs []) as [ps|]; [|discriminate].
  intros [= <-]. repeat split; reflexivity.
Qed.

Lemma predict_uploaded_image_try_success pil self now image_file r :
  predict_uploaded_image_try pil self now image_file = Return r ->
  r !! "success" = Some (PyBool true) /\
  r !! "error" = None /\
  r !! "filename" = Some (PyStr (getattr_filename image_file)) /\
  r !! "timestamp" = Some (PyStr now).
Proof.
  unfold predict_uploaded_image_try, mbind, py_bind, bind.
  destruct (preprocess_uploaded_image _ _ _ _) as [x|]; [|discriminate].
  destruct (Model.predict _ x) as [[[idx conf] probs]|]; [|discriminate].
  destruct (class_of self idx) as [name|]; [|discriminate].
  destruct (named_probabilities self probs []) as [ps|]; [|discriminate].
  intros [= <-]. repeat split; reflexivity.
Qed.

Lemma predict_image_well_formed pil self now image_path :
  exists r,
    predict_image pil self now image_path = Return r /\
    well_formed "image_path" image_path now
      (failure_of (predict_image_try pil self now image_path)) r.
Proof.
  unfold predict_image.
  destruct (predict_image_try pil self now image_path) as [r|e] eqn:E;
    cbn [try_except failure_of]; eexists; (split; [reflexivity|]).
  - destruct (predict_image_try_success _ _ _ _ _ E) as (?&?&?&?).
    repeat split; assumption.
  - repeat split; reflexivity.
Qed.

Lemma predict_uploaded_image_well_formed pil self now image_file :
  exists r,
    predict_uploaded_image pil self now image_file = Return r /\
    well_formed "filename" (getattr_filename image_file) now
      (failure_of (predict_uploaded_image_try pil self now image_file)) r.
Proof.
  unfold predict_uploaded_image.
  destruct (predict_uploaded_image_try pil self now image_file)
    as [r|e] eqn:E;
    cbn [try_except failure_of]; eexists; (split; [reflexivity|]).
  - destruct (predict_uploaded_image_try_success _ _ _ _ _ E) as (?&?&?&?).
    repeat split; assumption.
  - repeat split; reflexivity.
Qed.


(** ** [predict_batch] *)

Lemma predict_image_returns pil self now image_path :
  exists r, predict_image pil self now image_path = Return r.
Proof.
  destruct (predict_image_well_formed pil self now image_path)
    as (r & Hr & _).
  eauto.
Qed.

(** The loop appends one record per path, in order, and keeps what it
    was given. *)
Lemma predict_batch_loop_spec pil self clock image_paths :
  forall t results, exists out,
    predict_batch_loop pil self clock t image_paths results = Return out /\
    length out = (length results + length image_paths)%nat /\
    (forall i r, results !! i = Some r -> out !! i = Some r) /\
    (forall i image_path, image_paths !! i = Some image_path ->
       exists r,
         out !! (length results + i)%nat = Some r /\
         predict_image pil self (clock (t + i)%nat) image_path = Return r).
Proof.
  induction image_paths as [|p ps IH]; intros t results; cbn [predict_batch_loop].
  - exists results. split; [reflexivity|]. split; [cbn; lia|].
    split; [auto|]. intros i q [=].
  - destruct (predict_image_returns pil self (clock t) p) as [r Hr].
    unfold mbind, py_bind, bind. rewrite Hr.
    destruct (IH (S t) (results ++ [r])) as (out & Hout & Hlen & Hkeep & Hnew).
    exists out. split; [exact Hout|].
    rewrite length_app in Hlen. cbn [length] in Hlen |- *.
    split; [lia|]. split.
    + intros i q Hq. apply Hkeep. now apply lookup_app_l_Some.
    + intros [|i] q Hq.
      * injection Hq as <-. exists r. rewrite !Nat.add_0_r. split; [|exact Hr].
        apply Hkeep. rewrite lookup_app_r, Nat.sub_diag by lia. reflexivity.
      * destruct (Hnew i q Hq) as (r' & Hr' & Hp').
        exists r'. rewrite length_app in Hr'. cbn [length] in Hr'.
        replace (length results + S i)%nat
          with (length results + 1 + i)%nat by lia.
        replace (t + S i)%nat with (S t + i)%nat by lia. auto.
Qed.

(** C10.  [predict_batch] returns (it never raises) a list as long as its
    input; the record at position [i] is the one [predict_image] returns for
    [image_paths[i]] at the time of the [i]-th call, so it names that path,
    and it has [success = False] when the prediction for that path
    failed. *)
Theorem predict_batch_positional
    (pil : pillow) (self : PredictionService) (clock : nat -> string)
    (image_paths : list string) :
  exists results,
    predict_batch pil self clock image_paths = Return results /\
    length results = length image_paths /\
    (forall i image_path, image_paths !! i = Some image_path ->
       exists r,
         results !! i = Some r /\
         predict_image pil self (clock i) image_path = Return r /\
         well_formed "image_path" image_path (clock i)
           (failure_of (predict_image_try pil self (clock i) image_path)) r).
Proof.
  destruct (predict_batch_loop_spec pil self clock image_paths 0 [])
    as (out & Hout & Hlen & _ & Hnew).
  exists out. split; [exact Hout|]. split; [exact Hlen|].
  intros i p Hp. destruct (Hnew i p Hp) as (r & Hr & Hpi).
  exists r. cbn in Hr, Hpi. split; [exact Hr|]. split; [exact Hpi|].
  destruct (predict_image_well_formed pil self (clock i) p)
    as (r' & Hr' & Hwf).
  congruence.
Qed.

(** ** [get_top_k_predictions] *)

Section sorting.
Context {A : Type} (key : A -> Q).

Lemma insert_desc_perm x l : Permutation (insert_desc key x l) (x :: l).
Proof.
  induction l as [|y l IH]; simpl; [reflexivity|].
  destruct (key_lt key x y); [|reflexivity].
  rewrite IH. apply perm_swap.
Qed.

Lemma sorted_reverse_perm l : Permutation (sorted_reverse key l) l.
Proof.
  induction l as [|x l IH]; simpl; [reflexivity|].
  rewrite insert_desc_perm. now constructor.
Qed.

Lemma sorted_reverse_length l : length (sorted_reverse key l) = length l.
Proof. apply Permutation_length, sorted_reverse_perm. Qed.
End sorting.

Lemma ranks_before_le a b : ranks_before a b -> (snd b <= snd a)%Q.
Proof.
  intros [H | [H _]]; [now apply Qlt_le_weak|].
  rewrite H. apply Qle_refl.
Qed.

(** Inserting an item whose index is below all those of a ranked list
    keeps the list ranked. *)
Lemma insert_desc_ranked x l :
  StronglySorted ranks_before l ->
  Forall (fun y => (fst x < fst y)%nat) l ->
  StronglySorted ranks_before (insert_desc snd x l).
Proof.
  induction l as [|y l IH]; intros Hs Hx; simpl.
  - repeat constructor.
  - apply StronglySorted_inv in Hs as [Hs Hy].
    apply Forall_cons in Hx as [Hxy Hx].
    unfold key_lt. destruct (negb (Qle_bool (snd y) (snd x))) eqn:E.
    + apply ModelFacts.not_Qle_bool_lt in E.
      constructor; [now apply IH|].
      apply (Permutation_Forall (Permutation_sym (insert_desc_perm snd x l))).
      constructor; [now left | assumption].
    + apply ModelFacts.not_Qle_bool_le in E.
      constructor; [now constructor|].
      assert (Hle : Forall (fun z => (snd z <= snd x)%Q) (y :: l)).
      { constructor; [assumption|].
        eapply List.Forall_impl; [|exact Hy]. cbn beta.
        intros z Hz. apply Qle_trans with (snd y); [|assumption].
        now apply ranks_before_le. }
      apply List.Forall_forall. intros z Hz.
      assert (Hzx : (snd z <= snd x)%Q)
        by (eapply List.Forall_forall in Hle; eauto).
      assert (Hxz : (fst x < fst z)%nat).
      { destruct Hz as [<- | Hz]; [assumption|].
        eapply List.Forall_forall in Hx; eauto. }
      destruct (Qle_lt_or_eq _ _ Hzx) as [Hlt | Heq].
      * now left.
      * right. split; [now symmetry | assumption].
Qed.

Lemma sorted_reverse_ranked l :
  StronglySorted (fun a b : nat * Q => (fst a < fst b)%nat) l ->
  StronglySorted ranks_before (sorted_reverse snd l).
Proof.
  induction l as [|x l IH]; intros Hs; simpl; [constructor|].
  apply StronglySorted_inv in Hs as [Hs Hx].
  apply insert_desc_ranked; [now apply IH|].
  apply (Permutation_Forall (Permutation_sym (sorted_reverse_perm snd l))).
  exact Hx.
Qed.

Lemma enumerate_from_increasing {A} (l : list A) i :
  Forall (fun y => (i <= fst y)%nat) (enumerate_from i l) /\
  StronglySorted (fun a b : nat * A => (fst a < fst b)%nat)
    (enumerate_from i l).
Proof.
  revert i. induction l as [|x l IH]; intros i; simpl.
  - split; constructor.
  - destruct (IH (S i)) as [Hge Hs]. split.
    + constructor; [simpl; lia|].
      eapply List.Forall_impl; [|exact Hge]. cbn beta. intros; lia.
    + constructor; [assumption|].
      eapply List.Forall_impl; [|exact Hge]. cbn [fst]. intros; lia.
Qed.

Lemma StronglySorted_take {A} (R : A -> A -> Prop) (l : list A) n :
  StronglySorted R l -> StronglySorted R (take n l).
Proof.
  revert n. induction l as [|x l IH]; intros [|n] Hs; simpl;
    try constructor.
  - apply IH. now apply StronglySorted_inv in Hs.
  - apply StronglySorted_inv in Hs as [_ Hx].
    rewrite <- (take_drop n l) in Hx. now apply Forall_app in Hx as [Hx _].
Qed.

Lemma slice_to_positive {A} (k : Z) (l : list A) :
  (1 <= k)%Z -> slice_to k l = take (Z.to_nat k) l.
Proof.
  intros Hk. unfold slice_to. destruct (Z.ltb_spec k 0); [lia | reflexivity].
Qed.

Lemma top_k_entries_spec self items entries :
  top_k_entries self items = Return entries ->
  Forall2 (named_entry self) items entries.
Proof.
  revert entries. induction items as [|[idx prob] items IH]; intros entries;
    cbn [top_k_entries].
  - intros [= <-]. constructor.
  - unfold class_of, mbind, py_bind, bind.
    destruct (index_to_class self !! Z.of_nat idx) as [name|] eqn:En;
      [|discriminate].
    destruct (top_k_entries self items) as [es|]; [|discriminate].
    intros [= <-]. constructor; [|now apply IH].
    exists name. split; [exact En | reflexivity].
Qed.

(** The comprehension returns when every index it meets has a name. *)
Lemma top_k_entries_returns self items :
  Forall (fun item : nat * Q =>
            is_Some (index_to_class self !! Z.of_nat (fst item))) items ->
  exists entries, top_k_entries self items = Return entries.
Proof.
  induction 1 as [|[idx prob] items [name Hn] _ [entries IH]];
    cbn [top_k_entries]; [eauto|].
  cbn [fst] in Hn. unfold class_of, mbind, py_bind, bind.
  rewrite Hn, IH. eauto.
Qed.

(** The probabilities of a record can be named only if every index has a
    class. *)
Lemma named_probabilities_named self items : forall acc out,
  named_probabilities self items acc = Return out ->
  Forall (fun item : nat * Q =>
            is_Some (index_to_class self !! Z.of_nat (fst item))) items.
Proof.
  induction items as [|[idx prob] items IH]; intros acc out;
    cbn [named_probabilities]; [constructor|].
  unfold class_of, mbind, py_bind, bind.
  destruct (index_to_class self !! Z.of_nat idx) as [name|] eqn:En;
    [|discriminate].
  intros H. constructor; [cbn [fst]; rewrite En; eauto | eapply IH, H].
Qed.

(** What a successful [predict_image] went through. *)
Lemma predict_image_succeeded pil self now image_path r :
  predict_image pil self now image_path = Return r ->
  r !! "success" = Some (PyBool true) ->
  exists x idx conf probabilities,
    preprocess_single_image pil (preprocessor self) image_path true
      = Return x /\
    Model.predict (classifier self) x = Return (idx, conf, probabilities) /\
    Forall (fun item : nat * Q =>
              is_Some (index_to_class self !! Z.of_nat (fst item)))
      probabilities.
Proof.
  unfold predict_image.
  destruct (predict_image_try pil self now image_path) as [r0|e] eqn:E;
    cbn [try_except]; intros [= <-]; [intros _ | discriminate].
  unfold predict_image_try, mbind, py_bind, bind in E.
  destruct (preprocess_single_image _ _ _ _) as [x|] eqn:Ex; [|discriminate].
  destruct (Model.predict _ x) as [[[idx conf] probs]|] eqn:Ep;
    [|discriminate].
  destruct (class_of self idx) as [name|]; [|discriminate].
  destruct (named_probabilities self probs []) as [ps|] eqn:Enp;
    [|discriminate].
  exists x, idx, conf, probs. split; [reflexivity|]. split; [exact Ep|].
  eapply named_probabilities_named, Enp.
Qed.

Lemma reverse_mapping_snoc ci k v :
  reverse_mapping (ci ++ [(k, v)]) = <[v := k]> (reverse_mapping ci).
Proof. unfold reverse_mapping. rewrite foldl_app. reflexivity. Qed.

Lemma reverse_mapping_elem ci v k :
  reverse_mapping ci !! v = Some k -> In (k, v) ci.
Proof.
  induction ci as [|[k' v'] ci IH] using rev_ind; [discriminate|].
  rewrite reverse_mapping_snoc. intros H. apply in_app_iff.
  destruct (decide (v' = v)) as [->|Hne].
  - rewrite lookup_insert_eq in H. injection H as ->. right. now left.
  - rewrite lookup_insert_ne in H by exact Hne. left. auto.
Qed.

(** When the class-indices file lists the indices in ascending order
    0, 1, ... (as Keras writes it), the class at position [i] of that
    mapping is the class of index [i]: ranking ties by index is ranking them
    by the position of the class in the mapping. *)
Lemma ascending_class_indices_position (ci : list (string * Z)) i name z :
  ascending_indices ci ->
  ci !! i = Some (name, z) -> z = Z.of_nat i.
Proof.
  unfold ascending_indices. intros Hasc Hi.
  assert (Hz : map snd ci !! i = Some z)
    by (rewrite list_lookup_fmap, Hi; reflexivity).
  rewrite Hasc, list_lookup_fmap in Hz.
  destruct (seq 0 (length ci) !! i) as [j|] eqn:Ej; [|discriminate].
  apply lookup_seq in Ej as [-> _]. now injection Hz as <-.
Qed.

(** Under such a mapping the class of index [i] is its [i]-th class. *)
Lemma ascending_class_indices_name (ci : list (string * Z)) i name :
  ascending_indices ci ->
  reverse_mapping ci !! Z.of_nat i = Some name ->
  ci !! i = Some (name, Z.of_nat i).
Proof.
  intros Hasc Hname. apply reverse_mapping_elem in Hname.
  apply list_elem_of_In, list_elem_of_lookup in Hname as [j Hj].
  pose proof (ascending_class_indices_position ci j name _ Hasc Hj) as Hij.
  apply Nat2Z.inj in Hij. now subst j.
Qed.

(** C4 (as amended).  For an image for which [predict_image] succeeds and
    [k >= 1], [get_top_k_predictions] succeeds too, and its list has
    exactly [min(k, n)] entries, [n] being the number of classes the model
    scores.  The entries are, each with the name of its class and its
    probability, the first [k] items of the rearrangement of the
    probability map in which every item stands before those of lower
    probability and, among those of equal probability, before those of
    greater class index (the order in which [predict] fills the map).  When
    the class-indices mapping lists the indices in ascending order, the
    class index of an item is the position of its class in that mapping,
    so that ties then follow the mapping's insertion order. *)
Theorem get_top_k_predictions_ranked
    (pil : pillow) (self : PredictionService) (now image_path : string)
    (k : Z) (r0 : record) :
  (1 <= k)%Z ->
  predict_image pil self now image_path = Return r0 ->
  r0 !! "success" = Some (PyBool true) ->
  exists r x idx conf probabilities ranked entries,
    get_top_k_predictions pil self now image_path k = Return r /\
    r !! "success" = Some (PyBool true) /\
    preprocess_single_image pil (preprocessor self) image_path true
      = Return x /\
    Model.predict (classifier self) x = Return (idx, conf, probabilities) /\
    Permutation ranked probabilities /\
    StronglySorted ranks_before ranked /\
    r !! "top_predictions" = Some (PyList entries) /\
    Forall2 (named_entry self) (take (Z.to_nat k) ranked) entries /\
    length entries = Nat.min (Z.to_nat k) (length probabilities) /\
    (ascending_indices (class_indices self) ->
     index_to_class self = reverse_mapping (class_indices self) ->
     forall i p name,
       In (i, p) ranked ->
       index_to_class self !! Z.of_nat i = Some name ->
       class_indices self !! i = Some (name, Z.of_nat i)).
Proof.
  intros Hk Hr0 Hsucc.
  destruct (predict_image_succeeded pil self now image_path r0 Hr0 Hsucc)
    as (x & idx & conf & probs & Hx & Hp & Hnamed).
  assert (Hnamed' : Forall (fun item : nat * Q =>
            is_Some (index_to_class self !! Z.of_nat (fst item)))
            (take (Z.to_nat k) (sorted_reverse snd probs))).
  { apply Forall_take.
    apply (Permutation_Forall (Permutation_sym (sorted_reverse_perm snd probs))).
    exact Hnamed. }
  destruct (top_k_entries_returns self _ Hnamed') as [entries Het].
  unfold get_top_k_predictions, get_top_k_predictions_try.
  rewrite Hx. unfold mbind, py_bind, bind. rewrite Hp.
  rewrite slice_to_positive by assumption. rewrite Het.
  cbn [try_except].
  apply top_k_entries_spec in Het.
  eexists _, x, idx, conf, probs, (sorted_reverse snd probs), entries.
  split; [reflexivity|]. split; [reflexivity|].
  split; [reflexivity|]. split; [exact Hp|].
  split; [apply sorted_reverse_perm|].
  split.
  { apply sorted_reverse_ranked.
    destruct (ModelFacts.predict_returns _ _ _ _ _ Hp)
      as (m & rows & row & _ & _ & _ & _ & _ & ->).
    apply enumerate_from_increasing. }
  split; [reflexivity|]. split; [exact Het|]. split.
  { apply Forall2_length in Het as <-.
    rewrite length_take, sorted_reverse_length. reflexivity. }
  intros Hasc Hmap i p name _ Hname. rewrite Hmap in Hname.
  now apply ascending_class_indices_name.
Qed.

(** ** [get_prediction_statistics] *)

Lemma Qeq_bool_congr x y z :
  Qeq_bool x y = true -> Qeq_bool x z = Qeq_bool y z.
Proof.
  intros Hxy. apply Qeq_bool_iff in Hxy.
  destruct (Qeq_bool y z) eqn:E.
  - apply Qeq_bool_iff in E. apply Qeq_bool_iff. now rewrite Hxy.
  - apply not_true_iff_false. intros H. apply Qeq_bool_iff in H.
    apply not_true_iff_false in E. apply E, Qeq_bool_iff.
    now rewrite <- Hxy.
Qed.

Lemma Qeq_bool_sym' x y : Qeq_bool x y = Qeq_bool y x.
Proof.
  destruct (Qeq_bool y x) eqn:E.
  - apply Qeq_bool_iff in E. apply Qeq_bool_iff. now symmetry.
  - apply not_true_iff_false. intros H. apply Qeq_bool_iff in H.
    apply not_true_iff_false in E. apply E, Qeq_bool_iff. now symmetry.
Qed.

(** Python's [==] on keys is symmetric and transitive. *)
Lemma py_eqb_sym a b : py_eqb a b = py_eqb b a.
Proof.
  unfold py_eqb.
  destruct (as_number a) as [x|] eqn:Ea, (as_number b) as [y|] eqn:Eb;
    try reflexivity.
  - apply Qeq_bool_sym'.
  - destruct a, b; try reflexivity; try discriminate.
    apply String.eqb_sym.
Qed.

Lemma py_eqb_congr a b c :
  py_eqb a b = true -> py_eqb a c = py_eqb b c.
Proof.
  unfold py_eqb.
  destruct (as_number a) as [x|] eqn:Ea, (as_number b) as [y|] eqn:Eb;
    try discriminate.
  - intros H. destruct (as_number c); [now apply Qeq_bool_congr | reflexivity].
  - destruct a, b; try discriminate; intros H.
    + reflexivity.
    + apply String.eqb_eq in H as ->. reflexivity.
Qed.


Lemma dict_get_set {V} (d : list (pyval * V)) k v k' dflt :
  dict_get py_eqb (dict_set py_eqb d k v) k' dflt =
  if py_eqb k k' then v else dict_get py_eqb d k' dflt.
Proof.
  induction d as [|[k0 v0] d IH]; simpl.
  - reflexivity.
  - destruct (py_eqb k0 k) eqn:E; simpl.
    + rewrite (py_eqb_congr k0 k k' E). destruct (py_eqb k k'); reflexivity.
    + rewrite IH. destruct (py_eqb k0 k') eqn:E'; [|reflexivity].
      rewrite (py_eqb_sym k k'), <- (py_eqb_congr k0 k' k E'), E.
      reflexivity.
Qed.










(** The method never raises. *)
Lemma get_prediction_statistics_returns np_mean log :
  exists r, get_prediction_statistics np_mean log = Return r.
Proof.
  unfold get_prediction_statistics.
  destruct (match log with None => _ | Some _ => _ end); cbn [try_except]; eauto.
Qed.






(** The statistics of the sample log, entry by entry. *)
Lemma statistics_of_sample_log :
  get_prediction_statistics Samples.dyadic_mean
    (Some (Return Samples.sample_log)) = Return Samples.sample_statistics.
Proof. vm_compute. reflexivity. Qed.


(** A log file of zero bytes: [json.load] raises and the method returns
    the decoder's message, again not the marker. *)
Lemma zero_byte_log_gives_decoder_error np_mean :
  get_prediction_statistics np_mean
    (Some (Raised (Raise (OtherException "JSONDecodeError")
                     "Expecting value: line 1 column 1 (char 0)")))
  = Return {[ "error" := PyStr "Expecting value: line 1 column 1 (char 0)" ]}.
Proof. reflexivity. Qed.

(** ** The methods on the sample service *)

Lemma get_top_k_predictions_ranked_witness :
  exists r x idx conf probabilities ranked entries,
    get_top_k_predictions Samples.sample_pillow Samples.sample_service
      "2024-01-01T00:00:00" "cat.jpg" 2 = Return r /\
    r !! "success" = Some (PyBool true) /\
    preprocess_single_image Samples.sample_pillow
      (preprocessor Samples.sample_service) "cat.jpg" true = Return x /\
    Model.predict (classifier Samples.sample_service) x
      = Return (idx, conf, probabilities) /\
    Permutation ranked probabilities /\
    StronglySorted ranks_before ranked /\
    r !! "top_predictions" = Some (PyList entries) /\
    Forall2 (named_entry Samples.sample_service)
      (take (Z.to_nat 2) ranked) entries /\
    length entries = Nat.min (Z.to_nat 2) (length probabilities) /\
    (ascending_indices (class_indices Samples.sample_service) ->
     index_to_class Samples.sample_service
       = reverse_mapping (class_indices Samples.sample_service) ->
     forall i p name,
       In (i, p) ranked ->
       index_to_class Samples.sample_service !! Z.of_nat i = Some name ->
       class_indices Samples.sample_service !! i = Some (name, Z.of_nat i)).
Proof.
  apply (get_top_k_predictions_ranked Samples.sample_pillow
           Samples.sample_service "2024-01-01T00:00:00" "cat.jpg" 2
           Samples.sample_prediction).
  - lia.
  - vm_compute. reflexivity.
  - vm_compute. reflexivity.
Defined.

(** C4 (counterexample).  A class-indices mapping that names the class of
    index 1 first, and a model that scores both classes 1/2: prediction
    succeeds, the two probabilities tie, and the top entry is the class of
    index 0, the second of the mapping. *)
Lemma tie_follows_index_not_mapping_order :
  class_indices Samples.tied_service = [("dog", 1%Z); ("cat", 0%Z)] /\
  predict_image Samples.sample_pillow Samples.tied_service
    "2024-01-01T00:00:00" "cat.jpg" = Return Samples.tied_prediction /\
  get_top_k_predictions Samples.sample_pillow Samples.tied_service
    "2024-01-01T00:00:00" "cat.jpg" 1 = Return Samples.tied_top1.
Proof.
  split; [reflexivity|]. split; vm_compute; reflexivity.
Qed.

(** The two classes of probability 1/4 tie; the one of lower index is
    listed, the other is cut off. *)
Lemma top_2_of_sample :
  get_top_k_predictions Samples.sample_pillow Samples.sample_service
    "2024-01-01T00:00:00" "cat.jpg" 2 = Return Samples.sample_top2.
Proof. vm_compute. reflexivity. Qed.


Lemma predict_batch_positional_witness :
  exists results,
    predict_batch Samples.sample_pillow Samples.sample_service
      (fun _ => "2024-01-01T00:00:00") ["cat.jpg"; "missing.png"]
      = Return results /\
    length results = 2%nat /\
    (forall i image_path,
       ["cat.jpg"; "missing.png"] !! i = Some image_path ->
       exists r,
         results !! i = Some r /\
         predict_image Samples.sample_pillow Samples.sample_service
           "2024-01-01T00:00:00" image_path = Return r /\
         well_formed "image_path" image_path "2024-01-01T00:00:00"
           (failure_of (predict_image_try Samples.sample_pillow
              Samples.sample_service "2024-01-01T00:00:00" image_path)) r).
Proof.
  exact (predict_batch_positional Samples.sample_pillow Samples.sample_service
           (fun _ => "2024-01-01T00:00:00") ["cat.jpg"; "missing.png"]).
Defined.

End PredictionFacts.

(* ===================================================================== *)
(** * Properties of the string and path fragments *)
(* ===================================================================== *)

Module PyFacts.

Lemma prefix_char c s :
  String.prefix (String c EmptyString) s =
  match s with
  | EmptyString => false
  | String c' _ => Ascii.eqb c c'
  end.
Proof.
  destruct s as [|c' s']; simpl; [reflexivity|].
  destruct (Ascii.ascii_dec c c') as [->|Hne].
  - rewrite Ascii.eqb_refl. destruct s'; reflexivity.
  - apply Ascii.eqb_neq in Hne. rewrite Hne. reflexivity.
Qed.

(** [sep in s] fails exactly when there is nothing to split at. *)
Lemma rpartition_None c s :
  rpartition c s = None <-> str_contains (String c EmptyString) s = false.
Proof.
  induction s as [|c' s IH].
  - simpl. tauto.
  - cbn [rpartition str_contains]. rewrite prefix_char.
    rewrite (Ascii.eqb_sym c c').
    destruct (rpartition c s) as [[a b]|].
    + split; [discriminate|]. intros H. apply orb_false_elim in H as [_ H].
      apply IH in H. discriminate.
    + destruct (Ascii.eqb c' c); simpl; [split; discriminate|].
      split; [intros _; now apply IH | reflexivity].
Qed.

(** The two parts of a split give the string back, and the second holds
    no separator. *)
Lemma rpartition_Some c s a b :
  rpartition c s = Some (a, b) ->
  s = a +:+ String c b /\ rpartition c b = None.
Proof.
  revert a. induction s as [|c' s IH]; intros a; cbn [rpartition].
  - discriminate.
  - destruct (rpartition c s) as [[a' b']|] eqn:E.
    + intros [= <- <-]. destruct (IH a' eq_refl) as [-> Hb].
      split; [reflexivity | assumption].
    + destruct (Ascii.eqb_spec c' c) as [->|]; [|discriminate].
      intros [= <- <-]. split; [reflexivity | assumption].
Qed.

(** A string is split at its last separator. *)
Lemma rpartition_app c a b :
  rpartition c b = None -> rpartition c (a +:+ String c b) = Some (a, b).
Proof.
  intros Hb. induction a as [|c' a IH]; simpl.
  - rewrite Hb, Ascii.eqb_refl. reflexivity.
  - rewrite IH. reflexivity.
Qed.

(** What stands before a string does not change where its last separator
    is. *)
Lemma rpartition_app_r c x y a b :
  rpartition c y = Some (a, b) -> rpartition c (x +:+ y) = Some (x +:+ a, b).
Proof.
  intros Hy. induction x as [|c' x IH]; simpl.
  - exact Hy.
  - rewrite IH. reflexivity.
Qed.

Lemma str_lower_app a b : str_lower (a +:+ b) = str_lower a +:+ str_lower b.
Proof.
  induction a as [|c a IH]; simpl; [reflexivity | now rewrite IH].
Qed.

Lemma str_lower_length s : String.length (str_lower s) = String.length s.
Proof. induction s as [|c s IH]; simpl; [reflexivity | now rewrite IH]. Qed.

End PyFacts.

(* ===================================================================== *)
(** * More on the retraining job *)
(* ===================================================================== *)

Module RetrainingFacts.

Import App.

Lemma thread_steps_finished w n r st :
  thread_steps w n (Finished r) st = (Finished r, st).
Proof. induction n as [|n IH]; simpl; [reflexivity | exact IH]. Qed.

Lemma thread_steps_add w a b f st :
  thread_steps w (a + b) f st =
  thread_steps w b (fst (thread_steps w a f st)) (snd (thread_steps w a f st)).
Proof.
  revert f st. induction a as [|a IH]; intros f st; simpl; [reflexivity|].
  destruct (thread_step w f st) as [f' st']. apply IH.
Qed.

(** X1.  A run that fails leaves [last_retrain_time] as it found it: only
    the last statement of the [try] block writes it, and no call stands
    after that statement. *)
Theorem failed_retraining_keeps_last_retrain_time
    (w : world) (st : RetrainingStatus) (e : exn) :
  raised_in_try w st = Some e ->
  last_retrain_time (fst (perform_retraining w st)) = last_retrain_time st.
Proof.
  unfold raised_in_try, perform_retraining, try_except_finally. simpl.
  destruct (outcome w create_train_generator); simpl; [reflexivity|].
  destruct (outcome w classifier_retrain); simpl; [reflexivity|].
  destruct (outcome w save_model_new); simpl; [reflexivity|].
  destruct (outcome w save_model_main); simpl; [reflexivity|].
  discriminate.
Qed.

Lemma failed_retraining_keeps_last_retrain_time_witness :
  last_retrain_time
    (fst (perform_retraining Samples.retrain_fails
            {| is_running := false; progress := 100;
               message := "Retraining completed successfully!";
               last_retrain_time := Some "2023-12-31T08:00:00" |}))
  = Some "2023-12-31T08:00:00".
Proof.
  exact (failed_retraining_keeps_last_retrain_time Samples.retrain_fails
           {| is_running := false; progress := 100;
              message := "Retraining completed successfully!";
              last_retrain_time := Some "2023-12-31T08:00:00" |}
           (Raise ValueError "Model not created or loaded.") eq_refl).
Defined.

(** X2.  The status a run ends with does not depend on whether the reload
    of the prediction service worked: [initialize_model] answers [False]
    instead of raising, and its answer is dropped. *)
Theorem retraining_status_ignores_reload
    (w : world) (st : RetrainingStatus) (b : bool) :
  perform_retraining w st =
  perform_retraining
    {| outcome := outcome w; reload_ok := b;
       now_isoformat := now_isoformat w |} st.
Proof.
  unfold perform_retraining, try_except_finally. simpl.
  destruct (outcome w create_train_generator); simpl; [reflexivity|].
  destruct (outcome w classifier_retrain); simpl; [reflexivity|].
  destruct (outcome w save_model_new); simpl; [reflexivity|].
  destruct (outcome w save_model_main); reflexivity.
Qed.

(** The status a poll reads after [n] statements of the job. *)
Lemma observed_after_30 w st n :
  thread_steps w (30 + n) (InTry try_block) st =
  thread_steps w 30 (InTry try_block) st.
Proof.
  rewrite thread_steps_add, AppFacts.thread_reaches_perform_retraining.
  apply thread_steps_finished.
Qed.

(** X3.  Once the job has run its first two statements, every value a poll
    reads for [progress] is one of the checkpoints 0, 10, 30, 80, 90,
    100; and as long as no call raises, the value never goes down from one
    statement to the next. *)
Theorem progress_checkpoints (w : world) (st : RetrainingStatus) (n : nat) :
  (2 <= n)%nat ->
  let observed k := progress (snd (thread_steps w k (InTry try_block) st)) in
  In (observed n) [0; 10; 30; 80; 90; 100] /\
  (raised_in_try w st = None -> observed n <= observed (S n)).
Proof.
  intros Hn. cbv zeta.
  assert (Hcase : (n < 30)%nat \/ exists m, n = (30 + m)%nat).
  { destruct (Nat.lt_ge_cases n 30) as [H|H]; [now left|].
    right. exists (n - 30)%nat. lia. }
  destruct Hcase as [Hlt | [m ->]].
  - unfold raised_in_try.
    do 30 (destruct n as [|n]; [
      first [ lia |
        simpl;
        destruct (outcome w create_train_generator); simpl;
          [split; [tauto | discriminate]|];
        destruct (outcome w classifier_retrain); simpl;
          [split; [tauto | discriminate]|];
        destruct (outcome w save_model_new); simpl;
          [split; [tauto | discriminate]|];
        destruct (outcome w save_model_main); simpl;
          [split; [tauto | discriminate]|];
        split; [tauto | intros _; lia] ] |]).
    lia.
  - replace (S (30 + m)) with (30 + S m)%nat by lia.
    rewrite !observed_after_30.
    rewrite AppFacts.thread_reaches_perform_retraining. cbn [snd].
    split; [|intros _; lia].
    destruct (raised_in_try w st) as [e|] eqn:E.
    + destruct (AppFacts.perform_retraining_raised w st e E) as (st1 & _ & ->).
      simpl. tauto.
    + rewrite (AppFacts.perform_retraining_completed w st E). simpl. tauto.
Qed.

Lemma progress_checkpoints_witness :
  let observed k :=
    progress (snd (thread_steps Samples.retrain_succeeds k (InTry try_block)
                     initial_status)) in
  In (observed 8%nat) [0; 10; 30; 80; 90; 100] /\
  observed 8%nat <= observed 9%nat.
Proof.
  pose proof (progress_checkpoints Samples.retrain_succeeds initial_status 8
                ltac:(lia)) as H.
  cbv zeta in *. destruct H as [H1 H2].
  split; [exact H1 | exact (H2 eq_refl)].
Defined.

End RetrainingFacts.

(* ===================================================================== *)
(** * Properties of the helpers of the web application *)
(* ===================================================================== *)

Module AppRoutesFacts.

Import Preprocessing Prediction PredictionRest AppRoutes.

(** ** [allowed_file] *)

Lemma allowed_file_split stem ext :
  str_contains "." ext = false ->
  allowed_file (stem +:+ "." +:+ ext) =
  Return (bool_decide (str_lower ext ∈ ALLOWED_EXTENSIONS)).
Proof.
  intros Hext. apply (PyFacts.rpartition_None "."%char) in Hext.
  pose proof (PyFacts.rpartition_app "."%char stem ext Hext) as Hsplit.
  unfold allowed_file.
  change ("." +:+ ext) with (String "."%char ext).
  destruct (str_contains "." (stem +:+ String "."%char ext)) eqn:Hdot.
  - unfold rsplit1. rewrite Hsplit. reflexivity.
  - apply (PyFacts.rpartition_None "."%char) in Hdot. congruence.
Qed.

(** X4.  [allowed_file] never raises (the index into the split is guarded
    by the test for a dot), and it accepts a name exactly when what follows
    the last dot is, in lower case, one of the five extensions; a name
    without a dot is refused. *)
Theorem allowed_file_last_extension (filename : string) :
  exists b,
    allowed_file filename = Return b /\
    (b = true <->
     exists stem ext,
       filename = stem +:+ "." +:+ ext /\
       str_contains "." ext = false /\
       str_lower ext ∈ ALLOWED_EXTENSIONS).
Proof.
  destruct (rpartition "."%char filename) as [[stem ext]|] eqn:E.
  - destruct (PyFacts.rpartition_Some _ _ _ _ E) as [-> Hext].
    apply PyFacts.rpartition_None in Hext.
    exists (bool_decide (str_lower ext ∈ ALLOWED_EXTENSIONS)).
    split; [now apply allowed_file_split|]. split.
    + intros H%bool_decide_eq_true. exists stem, ext. auto.
    + intros (stem' & ext' & Heq & Hext' & Hin).
      apply bool_decide_eq_true.
      apply (PyFacts.rpartition_None "."%char) in Hext, Hext'.
      pose proof (PyFacts.rpartition_app "."%char stem ext Hext) as H1.
      pose proof (PyFacts.rpartition_app "."%char stem' ext' Hext') as H2.
      change ("." +:+ ext) with (String "."%char ext) in Heq.
      change ("." +:+ ext') with (String "."%char ext') in Heq.
      rewrite Heq in H1.
      rewrite H1 in H2. now injection H2 as _ ->.
  - exists false. split.
    + unfold allowed_file.
      apply PyFacts.rpartition_None in E. now rewrite E.
    + split; [discriminate|]. intros (stem & ext & -> & Hext & _).
      apply (PyFacts.rpartition_None "."%char) in Hext.
      pose proof (PyFacts.rpartition_app "."%char stem ext Hext) as H1.
      change ("." +:+ ext) with (String "."%char ext) in E. congruence.
Qed.

(** Upper case and inner dots on concrete names. *)
Lemma allowed_file_examples :
  allowed_file "photo.JPG" = Return true /\
  allowed_file "photo.png.exe" = Return false /\
  allowed_file "archive.tar.Jpeg" = Return true /\
  allowed_file ".png" = Return true /\
  allowed_file "png" = Return false.
Proof. repeat split; reflexivity. Qed.

(** ** [get_model_uptime] *)

(** X5.  The four numbers of the uptime text are a proper mixed-radix
    reading of the elapsed time: hours below 24, minutes and seconds below
    60, and together with the days they make up the whole seconds elapsed
    since the model was loaded (also when the clock stepped back and the
    day count is negative). *)
Theorem get_model_uptime_parts (start now : Z) :
  exists days hours minutes seconds,
    get_model_uptime (Some start) now =
      pretty days +:+ "d " +:+ pretty hours +:+ "h " +:+
      pretty minutes +:+ "m " +:+ pretty seconds +:+ "s" /\
    0 <= hours < 24 /\ 0 <= minutes < 60 /\ 0 <= seconds < 60 /\
    ((days * 24 + hours) * 60 + minutes) * 60 + seconds
      = (now - start) / 1000000.
Proof.
  unfold get_model_uptime, uptime_parts, divmod,
    timedelta_days, timedelta_seconds.
  eexists _, _, _, _. split; [reflexivity|].
  set (d := now - start).
  pose proof (Z.div_mod d 86400000000 ltac:(lia)) as H1.
  pose proof (Z.mod_pos_bound d 86400000000 ltac:(lia)) as H2.
  set (r := d mod 86400000000) in *.
  set (q := d / 86400000000) in *.
  pose proof (Z.div_mod r 1000000 ltac:(lia)) as H3.
  pose proof (Z.mod_pos_bound r 1000000 ltac:(lia)) as H4.
  set (s := r / 1000000) in *.
  assert (Hs : 0 <= s < 86400).
  { subst s. split; [apply Z.div_pos; lia|].
    apply Z.div_lt_upper_bound; lia. }
  pose proof (Z.div_mod s 3600 ltac:(lia)) as H5.
  pose proof (Z.mod_pos_bound s 3600 ltac:(lia)) as H6.
  pose proof (Z.div_mod (s mod 3600) 60 ltac:(lia)) as H7.
  pose proof (Z.mod_pos_bound (s mod 3600) 60 ltac:(lia)) as H8.
  assert (Hh : 0 <= s / 3600 < 24).
  { split; [apply Z.div_pos; lia|]. apply Z.div_lt_upper_bound; lia. }
  assert (Hm : 0 <= (s mod 3600) / 60 < 60).
  { split; [apply Z.div_pos; lia|]. apply Z.div_lt_upper_bound; lia. }
  repeat split; try lia.
  assert (Hd : d / 1000000 = q * 86400 + s).
  { symmetry. apply Z.div_unique with (r mod 1000000); lia. }
  rewrite Hd. lia.
Qed.

End AppRoutesFacts.

(* ===================================================================== *)
(** * Properties of the prediction service: mapping, thresholds, log *)
(* ===================================================================== *)

Module PredictionRestFacts.

Import Preprocessing Prediction PredictionRest.
Local Open Scope list_scope.

(** ** The reverse mapping *)

Lemma reverse_mapping_unique ci k v :
  NoDup (map snd ci) -> In (k, v) ci -> reverse_mapping ci !! v = Some k.
Proof.
  induction ci as [|[k' v'] ci IH] using rev_ind; [intros _ []|].
  rewrite map_app, PredictionFacts.reverse_mapping_snoc. cbn [map snd].
  intros [Hnd [Hdisj _]]%NoDup_app [Hin | [[= -> ->] | []]]%in_app_iff.
  - rewrite lookup_insert_ne; [now apply IH|].
    intros ->. apply (Hdisj v).
    + apply list_elem_of_In, in_map_iff. now exists (k, v).
    + left.
  - apply lookup_insert_eq.
Qed.

(** X6.  When no two classes share an index, the mapping [__init__] builds
    from the class indices inverts them: it sends an index to a name
    exactly when the class-indices file gives that name this index. *)
Theorem reverse_mapping_inverts (ci : list (string * Z)) :
  NoDup (map snd ci) ->
  forall k v, In (k, v) ci <-> reverse_mapping ci !! v = Some k.
Proof.
  intros Hnd k v. split;
    [now apply reverse_mapping_unique | apply PredictionFacts.reverse_mapping_elem].
Qed.

Lemma sample_class_numbers_distinct :
  NoDup (map snd Samples.sample_class_indices).
Proof. apply (bool_decide_unpack _). vm_compute. exact Logic.I. Defined.

Lemma reverse_mapping_inverts_witness :
  In ("cat", 1) Samples.sample_class_indices <->
  reverse_mapping Samples.sample_class_indices !! 1 = Some "cat".
Proof.
  exact (reverse_mapping_inverts Samples.sample_class_indices
           sample_class_numbers_distinct "cat" 1).
Defined.

Lemma In_fst_unique {A B} (l : list (A * B)) a b1 b2 :
  NoDup (map fst l) -> In (a, b1) l -> In (a, b2) l -> b1 = b2.
Proof.
  induction l as [|[a' b'] l IH]; [intros _ []|].
  cbn [map fst]. intros [Hnot Hnd]%NoDup_cons [H1 | H1] [H2 | H2].
  - congruence.
  - injection H1 as -> ->. exfalso.
    apply Hnot, list_elem_of_In, in_map_iff. now exists (a, b2).
  - injection H2 as -> ->. exfalso.
    apply Hnot, list_elem_of_In, in_map_iff. now exists (a, b1).
  - now apply IH.
Qed.

Lemma sample_class_names_distinct :
  NoDup (map fst Samples.sample_class_indices).
Proof. apply (bool_decide_unpack _). vm_compute. exact Logic.I. Defined.

(** X7.  The class names being the keys of a JSON object, hence distinct,
    the mapping from indices to names never gives two indices the same
    name: an index other than the one of a name is mapped elsewhere, or
    not at all. *)
Theorem reverse_mapping_injective (ci : list (string * Z)) :
  NoDup (map fst ci) ->
  forall i j name,
    reverse_mapping ci !! i = Some name ->
    i <> j ->
    reverse_mapping ci !! j <> Some name.
Proof.
  intros Hnd i j name Hi%PredictionFacts.reverse_mapping_elem Hne Hj%PredictionFacts.reverse_mapping_elem.
  exact (Hne (In_fst_unique ci name i j Hnd Hi Hj)).
Qed.

Lemma reverse_mapping_injective_witness :
  reverse_mapping Samples.sample_class_indices !! 1 = Some "cat" /\
  reverse_mapping Samples.sample_class_indices !! 2 <> Some "cat".
Proof.
  split; [reflexivity|].
  apply (reverse_mapping_injective Samples.sample_class_indices
           sample_class_names_distinct 1 2 "cat"); [reflexivity | discriminate].
Defined.

(** ** The probabilities of a successful record *)

Lemma class_of_Return self i name :
  class_of self i = Return name <-> index_to_class self !! Z.of_nat i = Some name.
Proof.
  unfold class_of. destruct (index_to_class self !! Z.of_nat i).
  - split; congruence.
  - split; discriminate.
Qed.

Lemma py_eqb_str a b : py_eqb (PyStr a) (PyStr b) = String.eqb a b.
Proof. reflexivity. Qed.

(** A key that names none of the items is left as the accumulator has
    it. *)
Lemma named_probabilities_other self items : forall acc out name,
  named_probabilities self items acc = Return out ->
  (forall i p, In (i, p) items ->
     index_to_class self !! Z.of_nat i <> Some name) ->
  dict_get py_eqb out (PyStr name) PyNone
  = dict_get py_eqb acc (PyStr name) PyNone.
Proof.
  induction items as [|[i0 p0] items IH]; intros acc out name;
    cbn [named_probabilities].
  - now intros [= <-] _.
  - unfold mbind, py_bind, bind.
    destruct (class_of self i0) as [n0|] eqn:E0; [|discriminate].
    apply class_of_Return in E0. intros Hout Hno.
    rewrite (IH _ _ _ Hout) by (intros i p Hin; apply (Hno i p); now right).
    rewrite PredictionFacts.dict_get_set, py_eqb_str.
    destruct (String.eqb_spec n0 name) as [->|]; [|reflexivity].
    exfalso. apply (Hno i0 p0); [now left | assumption].
Qed.

(** The item of an index is listed under the name of its class, when no
    other index of the items bears that name. *)
Lemma named_probabilities_get self items : forall acc out i p name,
  named_probabilities self items acc = Return out ->
  NoDup (map fst items) ->
  (forall j q, In (j, q) items ->
     index_to_class self !! Z.of_nat j = Some name -> j = i) ->
  In (i, p) items ->
  index_to_class self !! Z.of_nat i = Some name ->
  dict_get py_eqb out (PyStr name) PyNone = PyFloat p.
Proof.
  induction items as [|[i0 p0] items IH]; intros acc out i p name;
    cbn [named_probabilities]; [intros _ _ _ []|].
  unfold mbind, py_bind, bind.
  destruct (class_of self i0) as [n0|] eqn:E0; [|discriminate].
  apply class_of_Return in E0.
  cbn [map fst]. intros Hout [Hnot Hnd]%NoDup_cons Hinj [[= -> ->] | Hin] Hname.
  - rewrite (named_probabilities_other _ _ _ _ name Hout).
    + rewrite PredictionFacts.dict_get_set, py_eqb_str.
      assert (n0 = name) as -> by congruence.
      now rewrite String.eqb_refl.
    + intros j q Hj Hjn. apply Hnot.
      rewrite (Hinj j q (or_intror Hj) Hjn) in Hj.
      apply list_elem_of_In, in_map_iff. now exists (i, q).
  - apply (IH _ _ i p name Hout Hnd); auto.
    intros j q Hj. apply (Hinj j q). now right.
Qed.

Lemma dict_set_In {K V} (eqb : K -> K -> bool) (d : list (K * V)) k v k' v' :
  In (k', v') (dict_set eqb d k v) -> In (k', v') d \/ v' = v.
Proof.
  induction d as [|[k0 v0] d IH]; simpl.
  - intros [[= _ <-] | []]. now right.
  - destruct (eqb k0 k); simpl.
    + intros [[= _ <-] | H]; [now right | now left; right].
    + intros [H | H]; [now left; left|].
      destruct (IH H); [now left; right | now right].
Qed.

(** Every value listed is the probability of some item. *)
Lemma named_probabilities_values self items : forall acc out k v,
  named_probabilities self items acc = Return out ->
  In (k, v) out ->
  In (k, v) acc \/ exists i p, In (i, p) items /\ v = PyFloat p.
Proof.
  induction items as [|[i0 p0] items IH]; intros acc out k v;
    cbn [named_probabilities].
  - intros [= <-] H. now left.
  - unfold mbind, py_bind, bind.
    destruct (class_of self i0) as [n0|]; [|discriminate].
    intros Hout Hin.
    destruct (IH _ _ _ _ Hout Hin) as [H | (i & p & H & ->)].
    + apply dict_set_In in H as [H | ->]; [now left|].
      right. exists i0, p0. split; [now left | reflexivity].
    + right. exists i, p. split; [now right | reflexivity].
Qed.

(** X8.  In a successful record of [predict_image], when no two indices
    bear the same class name, the probability listed under the predicted
    class is the reported confidence, and no listed probability exceeds
    it. *)
Theorem predicted_class_has_top_probability
    (pil : pillow) (self : PredictionService) (now image_path : string)
    (r : record) :
  (forall i j name,
     index_to_class self !! i = Some name ->
     index_to_class self !! j = Some name -> i = j) ->
  predict_image pil self now image_path = Return r ->
  r !! "success" = Some (PyBool true) ->
  exists name conf probs,
    r !! "predicted_class" = Some (PyStr name) /\
    r !! "confidence" = Some (PyFloat conf) /\
    r !! "probabilities" = Some (PyDict probs) /\
    dict_get py_eqb probs (PyStr name) PyNone = PyFloat conf /\
    (forall key v, In (key, v) probs ->
       exists p, v = PyFloat p /\ (p <= conf)%Q).
Proof.
  intros Hinj Hr Hs. unfold predict_image in Hr.
  destruct (predict_image_try pil self now image_path) as [r0|e] eqn:E;
    cbn [try_except] in Hr; injection Hr as <-; [|discriminate Hs].
  clear Hs. unfold predict_image_try, mbind, py_bind, bind in E.
  destruct (preprocess_single_image _ _ _ _) as [x|]; [|discriminate].
  destruct (Model.predict _ x) as [[[idx conf] items]|] eqn:Ep; [|discriminate].
  destruct (class_of self idx) as [name|] eqn:En; [|discriminate].
  destruct (named_probabilities self items []) as [probs|] eqn:Enp;
    [|discriminate].
  injection E as <-. apply class_of_Return in En.
  destruct (ModelFacts.predict_returns _ _ _ _ _ Ep)
    as (m & rows & row & _ & _ & _ & Harg & Hconf & ->).
  destruct (ModelFacts.np_argmax_spec row idx Harg) as (v & Hv & Hmax).
  assert (v = conf) as -> by congruence.
  exists name, conf, probs.
  split; [reflexivity|]. split; [reflexivity|]. split; [reflexivity|].
  split.
  - apply (named_probabilities_get self (enumerate row) [] probs idx conf name
             Enp).
    + unfold enumerate. rewrite ModelFacts.enumerate_from_keys.
      apply NoDup_seq.
    + intros j q _ Hj. apply Nat2Z.inj. eapply Hinj; eassumption.
    + apply (ModelFacts.enumerate_from_lookup row 0 idx conf Hconf).
    + exact En.
  - intros key v Hin.
    destruct (named_probabilities_values _ _ _ _ _ _ Enp Hin)
      as [[] | (i & p & Hi & ->)].
    exists p. split; [reflexivity|].
    apply Hmax. eapply ModelFacts.enumerate_from_In, Hi.
Qed.

Lemma predicted_class_has_top_probability_witness :
  exists name conf probs,
    Samples.sample_prediction !! "predicted_class" = Some (PyStr name) /\
    Samples.sample_prediction !! "confidence" = Some (PyFloat conf) /\
    Samples.sample_prediction !! "probabilities" = Some (PyDict probs) /\
    dict_get py_eqb probs (PyStr name) PyNone = PyFloat conf /\
    (forall key v, In (key, v) probs ->
       exists p, v = PyFloat p /\ (p <= conf)%Q).
Proof.
  apply (predicted_class_has_top_probability Samples.sample_pillow
           Samples.sample_service "2024-01-01T00:00:00" "cat.jpg"
           Samples.sample_prediction).
  - intros i j name Hi%PredictionFacts.reverse_mapping_elem Hj%PredictionFacts.reverse_mapping_elem.
    exact (In_fst_unique Samples.sample_class_indices name i j
             sample_class_names_distinct Hi Hj).
  - vm_compute. reflexivity.
  - vm_compute. reflexivity.
Defined.

(** ** The fields of a record *)

Lemma predict_image_try_fields pil self now image_path r :
  predict_image_try pil self now image_path = Return r ->
  r !! "success" = Some (PyBool true) /\
  (exists name, r !! "predicted_class" = Some (PyStr name)) /\
  (exists conf, r !! "confidence" = Some (PyFloat conf)) /\
  r !! "prediction_status" = None /\
  r !! "message" = None.
Proof.
  unfold predict_image_try, mbind, py_bind, bind.
  destruct (preprocess_single_image _ _ _ _) as [x|]; [|discriminate].
  destruct (Model.predict _ x) as [[[idx conf] probs]|]; [|discriminate].
  destruct (class_of self idx) as [name|]; [|discriminate].
  destruct (named_probabilities self probs []) as [ps|]; [|discriminate].
  intros [= <-]. repeat split; try reflexivity; eexists; reflexivity.
Qed.

Lemma predict_uploaded_image_try_fields pil self now image_file r :
  predict_uploaded_image_try pil self now image_file = Return r ->
  r !! "success" = Some (PyBool true) /\
  (exists name, r !! "predicted_class" = Some (PyStr name)) /\
  (exists conf, r !! "confidence" = Some (PyFloat conf)).
Proof.
  unfold predict_uploaded_image_try, mbind, py_bind, bind.
  destruct (preprocess_uploaded_image _ _ _ _) as [x|]; [|discriminate].
  destruct (Model.predict _ x) as [[[idx conf] probs]|]; [|discriminate].
  destruct (class_of self idx) as [name|]; [|discriminate].
  destruct (named_probabilities self probs []) as [ps|]; [|discriminate].
  intros [= <-]. repeat split; try reflexivity; eexists; reflexivity.
Qed.

(** ** [predict_with_threshold] *)

(** X9.  [predict_with_threshold] returns the record of [predict_image]
    with nothing changed but the two keys it adds: a failed record comes
    back as it is; a successful one is marked uncertain, with the message,
    when its confidence is below the threshold, and confident, without a
    message, otherwise. *)
Theorem predict_with_threshold_annotates
    (pil : pillow) (format_percent : Q -> string) (self : PredictionService)
    (now image_path : string) (threshold : Q) :
  exists r r',
    predict_image pil self now image_path = Return r /\
    predict_with_threshold pil format_percent self now image_path threshold
      = Return r' /\
    (forall key, key <> "prediction_status" -> key <> "message" ->
       r' !! key = r !! key) /\
    ((r !! "success" = Some (PyBool false) /\ r' = r) \/
     (exists conf,
        r !! "success" = Some (PyBool true) /\
        r !! "confidence" = Some (PyFloat conf) /\
        ((conf < threshold)%Q ->
           r' !! "prediction_status" = Some (PyStr "uncertain") /\
           r' !! "message" =
             Some (PyStr ("Confidence " +:+ format_percent conf +:+
                          " below threshold " +:+ format_percent threshold)))
        /\
        ((threshold <= conf)%Q ->
           r' !! "prediction_status" = Some (PyStr "confident") /\
           r' !! "message" = None))).
Proof.
  unfold predict_with_threshold, predict_image.
  destruct (predict_image_try pil self now image_path) as [r|e] eqn:E;
    cbn [try_except]; unfold mbind, py_bind, bind.
  2:{ eexists _, _. split; [reflexivity|]. split; [reflexivity|].
      split; [reflexivity|]. left. split; reflexivity. }
  destruct (predict_image_try_fields _ _ _ _ _ E)
    as (Hs & _ & [conf Hc] & Hps & Hmsg).
  exists r. unfold record_item. rewrite Hs. cbn [truthy]. rewrite Hc.
  cbn [py_lt as_number].
  destruct (Qle_bool threshold conf) eqn:Hle; cbn [negb].
  - eexists. split; [reflexivity|]. split; [reflexivity|]. split.
    + intros key H1 _. now rewrite lookup_insert_ne.
    + right. exists conf. split; [reflexivity|]. split; [reflexivity|].
      apply Qle_bool_iff in Hle. split.
      * intros Hlt. exfalso. exact (Qlt_not_le _ _ Hlt Hle).
      * intros _. split; [apply lookup_insert_eq|].
        rewrite lookup_insert_ne by discriminate. exact Hmsg.
  - rewrite lookup_insert_ne, Hc by discriminate. cbn [as_number].
    eexists. split; [reflexivity|]. split; [reflexivity|]. split.
    + intros key H1 H2. now rewrite !lookup_insert_ne.
    + right. exists conf. split; [reflexivity|]. split; [reflexivity|]. split.
      * intros _. split; [|apply lookup_insert_eq].
        rewrite lookup_insert_ne by discriminate. apply lookup_insert_eq.
      * intros Hge. apply Qle_bool_iff in Hge. congruence.
Qed.

(** ** Records, the log and its statistics *)



Lemma predict_image_typed pil self now image_path r :
  predict_image pil self now image_path = Return r -> typed_record r.
Proof.
  unfold predict_image.
  destruct (predict_image_try pil self now image_path) as [r0|e] eqn:E;
    cbn [try_except]; intros [= <-].
  - destruct (predict_image_try_fields _ _ _ _ _ E) as (Hs & Hn & Hc & _).
    split; [eauto|]. split; [right; exact Hn | right; exact Hc].
  - split; [exists false; reflexivity|]. split; left; reflexivity.
Qed.

Lemma predict_uploaded_image_typed pil self now image_file r :
  predict_uploaded_image pil self now image_file = Return r -> typed_record r.
Proof.
  unfold predict_uploaded_image.
  destruct (predict_uploaded_image_try pil self now image_file)
    as [r0|e] eqn:E; cbn [try_except]; intros [= <-].
  - destruct (predict_uploaded_image_try_fields _ _ _ _ _ E) as (Hs & Hn & Hc).
    split; [eauto|]. split; [right; exact Hn | right; exact Hc].
  - split; [exists false; reflexivity|]. split; left; reflexivity.
Qed.

Lemma collect_typed logs :
  Forall typed_record logs ->
  forall counts confs, Forall is_float confs ->
  exists counts' confs',
    collect logs counts confs = Return (counts', confs') /\
    Forall is_float confs'.
Proof.
  induction 1 as [|log logs Hlog _ IH]; intros counts confs Hconfs;
    cbn [collect]; [eauto|].
  destruct Hlog as ([b Hb] & Hclass & Hconf).
  unfold record_get. rewrite Hb. cbn [default from_option id truthy].
  destruct b; [|now apply IH].
  unfold mbind, py_bind, bind.
  assert (Hstep : forall counts1,
    exists counts' confs',
      collect logs counts1
        match default PyNone (log !! "confidence") with
        | PyNone => confs
        | _ => confs ++ [default PyNone (log !! "confidence")]
        end = Return (counts', confs') /\ Forall is_float confs').
  { intros counts1. apply IH.
    destruct Hconf as [-> | [q ->]]; cbn [default from_option id];
      [assumption|].
    apply Forall_app. split; [assumption|]. repeat constructor. now exists q. }
  destruct Hclass as [-> | [s ->]];
    cbn [default from_option id truthy hashable].
  - apply Hstep.
  - destruct (negb (String.eqb s "")); cbn beta iota; apply Hstep.
Qed.

Lemma as_numbers_floats l :
  Forall is_float l -> exists qs, as_numbers l = Return qs.
Proof.
  induction 1 as [|v l [q ->] _ [qs IH]]; cbn [as_numbers as_number];
    [eauto|].
  unfold mbind, py_bind, bind. rewrite IH. eauto.
Qed.

(** The counts of a log of typed records. *)
Lemma statistics_of_typed_log np_mean logs :
  Forall typed_record logs ->
  exists stats,
    get_prediction_statistics np_mean (Some (Return logs)) = Return stats /\
    stats !! "error" = None /\
    stats !! "total_predictions" = Some (PyInt (Z.of_nat (length logs))) /\
    stats !! "successful_predictions"
      = Some (PyInt (Z.of_nat (length (successes logs)))) /\
    stats !! "failed_predictions"
      = Some (PyInt (Z.of_nat (length logs)
                     - Z.of_nat (length (successes logs)))).
Proof.
  intros Hlogs.
  destruct (collect_typed logs Hlogs [] [] (List.Forall_nil _))
    as (counts & confs & Hc & Hf).
  unfold get_prediction_statistics, mbind, py_bind, bind. rewrite Hc.
  unfold reduce_or_zero, mbind, py_bind, bind.
  destruct confs as [|v confs].
  - cbn [try_except]. eexists. split; [reflexivity|].
    repeat split; reflexivity.
  - destruct (as_numbers_floats _ Hf) as [qs ->]. cbn [try_except].
    eexists. split; [reflexivity|]. repeat split; reflexivity.
Qed.

Lemma log_all_parsed rs : forall logs,
  log_all rs (Some (Return logs)) = Some (Return (logs ++ rs)).
Proof.
  induction rs as [|r rs IH]; intros logs; cbn [log_all foldl].
  - now rewrite app_nil_r.
  - change (foldl _ ?l rs) with (log_all rs l).
    unfold save_prediction_log at 1. cbn.
    rewrite IH, <- app_assoc. reflexivity.
Qed.

Lemma log_all_absent r rs :
  log_all (r :: rs) None = Some (Return (r :: rs)).
Proof.
  cbn [log_all foldl]. change (foldl _ ?l rs) with (log_all rs l).
  unfold save_prediction_log. cbn. apply (log_all_parsed rs [r]).
Qed.

Lemma successes_app l1 l2 : successes (l1 ++ l2) = successes l1 ++ successes l2.
Proof. unfold successes. apply filter_app. Qed.

(** X10.  After records of the two prediction methods have been logged,
    one call of [save_prediction_log] each, onto a log that is absent or
    holds such records, [get_prediction_statistics] reports no error and
    counts every record, old and new, and every success among them. *)
Theorem statistics_count_what_was_logged (np_mean : list Q -> Q)
    (initial : option (list record)) (rs : list record) :
  Forall typed_record (default [] initial) ->
  Forall typed_record rs ->
  rs <> [] ->
  exists stats,
    get_prediction_statistics np_mean (log_all rs (Return <$> initial))
      = Return stats /\
    stats !! "error" = None /\
    stats !! "total_predictions"
      = Some (PyInt (Z.of_nat (length (default [] initial) + length rs))) /\
    stats !! "successful_predictions"
      = Some (PyInt (Z.of_nat (length (successes (default [] initial))
                               + length (successes rs)))).
Proof.
  intros Hinit Hrs Hne.
  assert (Hlog : log_all rs (Return <$> initial)
                 = Some (Return (default [] initial ++ rs))).
  { destruct initial as [logs|]; cbn [fmap option_fmap option_map default].
    - apply log_all_parsed.
    - destruct rs as [|r rs]; [contradiction|]. apply log_all_absent. }
  rewrite Hlog.
  destruct (statistics_of_typed_log np_mean (default [] initial ++ rs))
    as (stats & Hst & Herr & Htot & Hsucc & _).
  { apply Forall_app. split; assumption. }
  exists stats. split; [exact Hst|]. split; [exact Herr|].
  rewrite length_app in Htot. rewrite successes_app, length_app in Hsucc.
  split; assumption.
Qed.

Lemma sample_log_typed : Forall typed_record Samples.sample_log.
Proof.
  repeat constructor;
    first [ now (eexists; vm_compute; reflexivity)
          | now (left; vm_compute; reflexivity)
          | now (right; eexists; vm_compute; reflexivity) ].
Defined.

Lemma statistics_count_what_was_logged_witness :
  exists stats,
    get_prediction_statistics Samples.dyadic_mean
      (log_all Samples.sample_log None) = Return stats /\
    stats !! "error" = None /\
    stats !! "total_predictions" = Some (PyInt 3) /\
    stats !! "successful_predictions" = Some (PyInt 2).
Proof.
  apply (statistics_count_what_was_logged Samples.dyadic_mean None
           Samples.sample_log).
  - constructor.
  - exact sample_log_typed.
  - discriminate.
Defined.

End PredictionRestFacts.

(* ===================================================================== *)
(** * Properties of loading a model *)
(* ===================================================================== *)

Module ModelRestFacts.

Import Preprocessing Model.

(** ** [str.replace] where nothing is to replace *)

Lemma replace_from_absent old new s :
  str_contains old s = false -> replace_from 0 old new s = s.
Proof.
  induction s as [|c s IH]; cbn [str_contains replace_from]; [reflexivity|].
  intros [Hp Hc]%orb_false_elim. rewrite Hp, IH by assumption. reflexivity.
Qed.

Lemma str_replace_absent s old new :
  old <> "" -> str_contains old s = false -> str_replace s old new = s.
Proof.
  intros Hne Hc. unfold str_replace.
  destruct old; [contradiction|]. now apply replace_from_absent.
Qed.

(** ** [load_model] *)

Lemma load_model_inv self filepath fs c :
  load_model self filepath fs = Return c ->
  exists m,
    files fs !! filepath = Some (KerasArchive m) /\
    keras_extension filepath = true /\
    model c = Some m /\
    (path_exists fs (load_metadata_path filepath) = false ->
       img_size c = img_size self /\
       num_classes c = num_classes self /\
       learning_rate c = learning_rate self) /\
    (path_exists fs (load_metadata_path filepath) = true ->
     exists md,
       files fs !! load_metadata_path filepath = Some (MetadataJson md) /\
       img_size c = default (img_size self) (md_img_size md) /\
       num_classes c = default (num_classes self) (md_num_classes md) /\
       learning_rate c = default (learning_rate self) (md_learning_rate md)).
Proof.
  unfold load_model.
  destruct (negb (path_exists fs filepath)); [discriminate|].
  assert (Hk : forall b : bool,
    (if b then keras_load_model filepath fs else keras_load_model filepath fs)
    = keras_load_model filepath fs) by (intros []; reflexivity).
  rewrite Hk. unfold keras_load_model.
  destruct (keras_extension filepath) eqn:Hext; cbn [negb try_except];
    [|discriminate].
  destruct (files fs !! filepath) as [[m| |]|] eqn:Hf;
    try (destruct (str_endswith filepath ".keras"); discriminate).
  cbn [try_except]. unfold mbind, py_bind, bind.
  destruct (path_exists fs (load_metadata_path filepath)) eqn:Hside.
  - unfold json_load_metadata.
    destruct (files fs !! load_metadata_path filepath) as [[|md|]|] eqn:Hmd;
      try discriminate.
    intros [= <-]. exists m. repeat split; try reflexivity; try discriminate.
    intros _. exists md. repeat split; reflexivity.
  - intros [= <-]. exists m. repeat split; try reflexivity; discriminate.
Qed.

(** X11.  [load_model] returns exactly when the path holds a model archive
    under an extension Keras accepts and, if something exists at the
    sidecar's path, that is a metadata file; the classifier it returns
    holds the archive's model. *)
Theorem load_model_returns_iff self filepath fs :
  ((exists c, load_model self filepath fs = Return c) <->
   (exists m, files fs !! filepath = Some (KerasArchive m)) /\
   keras_extension filepath = true /\
   (path_exists fs (load_metadata_path filepath) = true ->
    exists md,
      files fs !! load_metadata_path filepath = Some (MetadataJson md))) /\
  (forall c, load_model self filepath fs = Return c ->
     exists m, files fs !! filepath = Some (KerasArchive m) /\
               model c = Some m).
Proof.
  split; [split|].
  - intros [c Hc].
    destruct (load_model_inv _ _ _ _ Hc) as (m & Hf & Hext & _ & _ & Hside).
    split; [eauto|]. split; [exact Hext|].
    intros Hp. destruct (Hside Hp) as (md & Hmd & _). eauto.
  - intros ([m Hf] & Hext & Hside). unfold load_model.
    rewrite (ModelFacts.path_exists_file fs filepath _ Hf). cbn [negb].
    assert (Hk : forall b : bool,
      (if b then keras_load_model filepath fs else keras_load_model filepath fs)
      = keras_load_model filepath fs) by (intros []; reflexivity).
    rewrite Hk. unfold keras_load_model. rewrite Hext, Hf.
    cbn [negb try_except]. unfold mbind, py_bind, bind.
    destruct (path_exists fs (load_metadata_path filepath)); [|eauto].
    destruct (Hside eq_refl) as [md Hmd].
    unfold json_load_metadata. rewrite Hmd. eauto.
  - intros c Hc.
    destruct (load_model_inv _ _ _ _ Hc) as (m & Hf & _ & Hm & _). eauto.
Qed.

End ModelRestFacts.

(* ===================================================================== *)
(** * Properties of batches, saved uploads, validation and class weights *)
(* ===================================================================== *)

Module PreprocessingRestFacts.

Import Preprocessing PreprocessingRest.
Local Open Scope list_scope.

(** ** [preprocess_batch_images] *)

Lemma batch_step_readable pil h w path :
  (0 < h)%nat -> (0 < w)%nat -> readable pil path = true ->
  exists a,
    (img_array ← preprocess_single_image pil {| img_size := (h, w) |} path true;
     array_first img_array) = Return a /\ batch_item h w a.
Proof.
  intros Hh Hw Hr. unfold readable in Hr.
  destruct (open_path pil path) as [img|] eqn:Ho; [|discriminate].
  destruct (PreprocessingFacts.preprocess_single_image_ok pil h w path img
              Ho Hh Hw) as (a & Ha & Hs & Hl & Hu).
  rewrite Ha. unfold mbind, py_bind, bind, array_first. rewrite Hs.
  cbn [Nat.eqb foldr]. eexists. split; [reflexivity|].
  assert (Hlen : (h * (w * (3 * 1)))%nat = length (data a)) by lia.
  split; [reflexivity|]. cbn [data]. rewrite Hlen, firstn_all.
  split; [lia | assumption].
Qed.

Lemma batch_step_unreadable pil self path normalize :
  readable pil path = false ->
  exists e,
    (img_array ← preprocess_single_image pil self path normalize;
     array_first img_array) = Raised e.
Proof.
  unfold readable. destruct (open_path pil path) as [|e] eqn:Ho;
    [discriminate|]. intros _.
  unfold preprocess_single_image, load_img, mbind, py_bind, bind.
  rewrite Ho. cbn [try_except]. eauto.
Qed.

Lemma batch_loop_spec pil h w paths : forall images,
  (0 < h)%nat -> (0 < w)%nat ->
  exists new,
    batch_loop pil {| img_size := (h, w) |} true paths images = images ++ new /\
    length new = length (filter (fun p => readable pil p = true) paths) /\
    Forall (batch_item h w) new.
Proof.
  induction paths as [|p paths IH]; intros images Hh Hw; cbn [batch_loop].
  - exists []. rewrite app_nil_r. repeat split. constructor.
  - rewrite filter_cons. destruct (readable pil p) eqn:Hr.
    + destruct (batch_step_readable pil h w p Hh Hw Hr) as (a & -> & Ha).
      destruct (IH (images ++ [a]) Hh Hw) as (new & -> & Hlen & Hall).
      exists (a :: new). rewrite <- app_assoc. split; [reflexivity|].
      rewrite decide_True by reflexivity. cbn [length].
      split; [now rewrite Hlen | now constructor].
    + destruct (batch_step_unreadable pil {| img_size := (h, w) |} p true Hr)
        as [e ->].
      rewrite decide_False by discriminate. now apply IH.
Qed.

Lemma batch_items_data h w (images : list ndarray) :
  Forall (batch_item h w) images ->
  length (flat_map data images) = (length images * (h * (w * 3)))%nat /\
  Forall in_unit (flat_map data images).
Proof.
  induction 1 as [|a rest (_ & Hl & Hu) _ [IHl IHu]]; cbn [flat_map length].
  - split; [reflexivity | constructor].
  - split; [rewrite length_app, Hl, IHl; lia | now apply Forall_app].
Qed.

Lemma np_array_uniform h w (images : list ndarray) :
  images <> [] -> Forall (batch_item h w) images ->
  exists a,
    np_array images = Return a /\
    shape a = [length images; h; w; 3%nat] /\
    length (data a) = (length images * (h * (w * 3)))%nat /\
    Forall in_unit (data a).
Proof.
  intros Hne Hall. destruct (batch_items_data h w images Hall) as [Hl Hu].
  destruct images as [|a0 rest]; [contradiction|].
  cbn [np_array].
  assert (Hshape : forallb (fun b => bool_decide (shape b = shape a0)) rest
                   = true).
  { apply forallb_forall. intros b Hb. apply bool_decide_eq_true.
    apply Forall_cons in Hall as [[-> _] Hrest].
    eapply List.Forall_forall in Hrest as [-> _]; eauto. }
  rewrite Hshape. eexists. split; [reflexivity|]. cbn [shape data].
  apply Forall_cons in Hall as [[-> _] _]. auto.
Qed.

(** X12.  With a target of positive height and width,
    [preprocess_batch_images] skips the paths that cannot be opened: it
    raises [ValueError] when none can (the empty list included), and
    otherwise returns one image per readable path, stacked into an array of
    shape (n, height, width, 3) with values in [0, 1]. *)
Theorem preprocess_batch_images_skips_unreadable
    (pil : pillow) (h w : nat) (image_paths : list string) :
  (0 < h)%nat -> (0 < w)%nat ->
  let n := length (filter (fun p => readable pil p = true) image_paths) in
  (n = 0%nat ->
     preprocess_batch_images pil {| img_size := (h, w) |} image_paths true
     = Raised (Raise ValueError "No valid images found in the batch")) /\
  ((0 < n)%nat ->
     exists a,
       preprocess_batch_images pil {| img_size := (h, w) |} image_paths true
         = Return a /\
       shape a = [n; h; w; 3%nat] /\
       length (data a) = (n * (h * (w * 3)))%nat /\
       Forall in_unit (data a)).
Proof.
  intros Hh Hw. cbv zeta. unfold preprocess_batch_images.
  destruct (batch_loop_spec pil h w image_paths [] Hh Hw)
    as (new & -> & Hlen & Hall).
  cbn [app]. rewrite <- Hlen. split.
  - intros H0. destruct new; [reflexivity | discriminate].
  - intros Hpos. destruct new as [|a0 rest]; [cbn in Hpos; lia|].
    apply (np_array_uniform h w (a0 :: rest)); [discriminate | assumption].
Qed.

Lemma preprocess_batch_images_skips_unreadable_witness :
  let image_paths := ["cat.jpg"; "missing.png"; "cat.jpg"] in
  let n := length (filter (fun p => readable Samples.sample_pillow p = true)
                     image_paths) in
  (n = 0%nat ->
     preprocess_batch_images Samples.sample_pillow Samples.tall2_wide3
       image_paths true
     = Raised (Raise ValueError "No valid images found in the batch")) /\
  ((0 < n)%nat ->
     exists a,
       preprocess_batch_images Samples.sample_pillow Samples.tall2_wide3
         image_paths true = Return a /\
       shape a = [n; 2; 3; 3]%nat /\
       length (data a) = (n * (2 * (3 * 3)))%nat /\
       Forall in_unit (data a)).
Proof.
  apply (preprocess_batch_images_skips_unreadable Samples.sample_pillow 2 3
           ["cat.jpg"; "missing.png"; "cat.jpg"]); lia.
Defined.

(** ** [os.path.basename] and [save_uploaded_files] *)

Lemma substring_all s : String.substring 0 (String.length s) s = s.
Proof. induction s as [|c s IH]; simpl; [reflexivity | now rewrite IH]. Qed.

Lemma after_last_slash_0 s :
  after_last_slash s = 0%nat <-> str_contains "/" s = false.
Proof.
  induction s as [|c s IH]; cbn [after_last_slash str_contains].
  - simpl. tauto.
  - rewrite PyFacts.prefix_char, (Ascii.eqb_sym "/"%char c).
    destruct (after_last_slash s) as [|n].
    + destruct (Ascii.eqb c "/"); simpl; [split; discriminate|].
      split; [intros _; now apply IH | reflexivity].
    + split; [discriminate|]. intros [_ H]%orb_false_elim.
      apply IH in H. discriminate.
Qed.

(** The base name of a path, character by character. *)
Lemma basename_cons c s :
  basename (String c s) =
  if str_contains "/" s then basename s
  else if Ascii.eqb c "/" then s else String c s.
Proof.
  unfold basename. cbn [after_last_slash String.length].
  destruct (after_last_slash s) as [|n] eqn:E.
  - apply after_last_slash_0 in E. rewrite E.
    destruct (Ascii.eqb c "/"); simpl.
    + rewrite Nat.sub_0_r. apply substring_all.
    + now rewrite substring_all.
  - destruct (str_contains "/" s) eqn:Hc.
    + reflexivity.
    + apply after_last_slash_0 in Hc. congruence.
Qed.

(** A base name holds no slash. *)
Lemma basename_no_slash p : str_contains "/" (basename p) = false.
Proof.
  induction p as [|c p IH]; [reflexivity|].
  rewrite basename_cons. destruct (str_contains "/" p) eqn:Hc; [exact IH|].
  destruct (Ascii.eqb c "/") eqn:Ec; [exact Hc|].
  cbn [str_contains]. rewrite PyFacts.prefix_char, Hc.
  rewrite Ascii.eqb_sym, Ec. reflexivity.
Qed.

(** A path is its directory part followed by its base name. *)
Lemma basename_suffix p : exists d, p = d +:+ basename p.
Proof.
  induction p as [|c p [d IH]]; [now exists ""|].
  rewrite basename_cons. destruct (str_contains "/" p).
  - exists (String c d).
    change (String c d +:+ basename p) with (String c (d +:+ basename p)).
    now rewrite <- IH.
  - destruct (Ascii.eqb_spec c "/") as [->|].
    + now exists "/".
    + now exists "".
Qed.

Lemma path_join_name dir name :
  str_contains "/" name = false ->
  path_join dir name = dir +:+ name \/ path_join dir name = dir +:+ "/" +:+ name.
Proof.
  intros Hn. unfold path_join.
  assert (Hp : String.prefix "/" name = false).
  { destruct name as [|c name]; [reflexivity|].
    cbn [str_contains] in Hn. now apply orb_false_elim in Hn as [Hn _]. }
  rewrite Hp. destruct (_ || _); [now left | now right].
Qed.

Lemma save_loop_spec save save_dir files : forall saved out,
  save_loop save save_dir files saved = Return out ->
  exists new,
    out = saved ++ new /\ (length new <= length files)%nat /\
    Forall (saved_inside save_dir files) new.
Proof.
  induction files as [|file files IH]; intros saved out; cbn [save_loop].
  - intros [= <-]. exists []. rewrite app_nil_r.
    split; [reflexivity|]. split; [reflexivity | constructor].
  - destruct (filename file) as [name|] eqn:En; [|discriminate].
    assert (Hweak : forall new,
      Forall (saved_inside save_dir files) new ->
      Forall (saved_inside save_dir (file :: files)) new).
    { intros new. apply List.Forall_impl.
      intros p (f & n & Hin & Hrest). exists f, n. split; [now right | exact Hrest]. }
    destruct (save file _).
    + intros H. destruct (IH _ _ H) as (new & -> & Hlen & Hall).
      exists new. split; [reflexivity|]. cbn [length]. split; [lia | auto].
    + intros H. destruct (IH _ _ H) as (new & -> & Hlen & Hall).
      exists (path_join save_dir (basename name) :: new).
      rewrite <- app_assoc. split; [reflexivity|]. cbn [length].
      split; [lia|]. constructor; [|auto].
      exists file, name. split; [now left|]. split; [exact En|].
      split; [apply basename_no_slash|].
      apply path_join_name, basename_no_slash.
Qed.

(** X13.  Every path [save_uploaded_files] returns is [save_dir] followed,
    with or without a slash between, by the base name of an uploaded file,
    and that base name holds no slash: directory parts of a client's file
    name never reach the file system; and no more paths come back than
    files went in. *)
Theorem save_uploaded_files_stay_in_save_dir
    (save : FileStorage -> string -> option exn) (makedirs : option exn)
    (files : list FileStorage) (save_dir : string) (saved_paths : list string) :
  save_uploaded_files save makedirs files save_dir = Return saved_paths ->
  (length saved_paths <= length files)%nat /\
  Forall (saved_inside save_dir files) saved_paths.
Proof.
  unfold save_uploaded_files. destruct makedirs; [discriminate|].
  intros H. destruct (save_loop_spec _ _ _ _ _ H) as (new & -> & Hlen & Hall).
  auto.
Qed.

Lemma save_uploaded_files_stay_in_save_dir_witness :
  let files := [Samples.cat_upload; Samples.traversal_upload] in
  let saved_paths := ["data/uploaded/cat.jpg"; "data/uploaded/passwd"] in
  (length saved_paths <= length files)%nat /\
  Forall (saved_inside "data/uploaded" files) saved_paths.
Proof.
  apply (save_uploaded_files_stay_in_save_dir Samples.always_saves None
           [Samples.cat_upload; Samples.traversal_upload] "data/uploaded"
           ["data/uploaded/cat.jpg"; "data/uploaded/passwd"]).
  vm_compute. reflexivity.
Defined.

(** ** [validate_image] and [allowed_file] *)

Lemma valid_extension_allowed after :
  String "."%char (str_lower after) ∈ valid_extensions ->
  str_lower after ∈ AppRoutes.ALLOWED_EXTENSIONS.
Proof.
  unfold valid_extensions, AppRoutes.ALLOWED_EXTENSIONS.
  rewrite !elem_of_list_to_set, !list_elem_of_In. cbn [In].
  intros [H | [H | [H | [H | [H | []]]]]]; injection H as <-; tauto.
Qed.

Lemma splitext_ext_Some p ext :
  splitext_ext p = ext -> ext <> "" ->
  exists before after,
    rpartition "."%char (basename p) = Some (before, after) /\
    ext = String "."%char after.
Proof.
  unfold splitext_ext.
  destruct (rpartition "."%char (basename p)) as [[before after]|];
    [|intros <- []; reflexivity].
  destruct (all_dots before); [intros <- []; reflexivity|].
  intros <- _. eauto.
Qed.

(** X14.  A path [validate_image] accepts can be opened, and its name passes
    [allowed_file] too: the extension test of the preprocessor is at least
    as strict as the one of the upload routes. *)
Theorem validate_image_implies_allowed_file
    (pil : pillow) (verify : Image -> option exn) (image_path : string) :
  validate_image pil verify image_path = true ->
  AppRoutes.allowed_file image_path = Return true /\
  exists img, open_path pil image_path = Return img /\ verify img = None.
Proof.
  unfold validate_image.
  destruct (bool_decide (str_lower (splitext_ext image_path) ∈ valid_extensions))
    eqn:Hext; cbn [negb]; [|discriminate].
  apply bool_decide_eq_true in Hext.
  unfold mbind, py_bind, bind.
  destruct (open_path pil image_path) as [img|]; [|discriminate].
  destruct (verify img) eqn:Hv; [discriminate|]. intros _.
  split; [|eauto].
  destruct (splitext_ext_Some image_path _ eq_refl) as (before & after & Hrp & He).
  { intros He. rewrite He in Hext. cbn [str_lower] in Hext.
    revert Hext. unfold valid_extensions.
    rewrite elem_of_list_to_set, list_elem_of_In. cbn [In].
    intros [H | [H | [H | [H | [H | []]]]]]; discriminate. }
  rewrite He in Hext. cbn [str_lower] in Hext.
  change (ascii_lower ".") with "."%char in Hext.
  apply valid_extension_allowed in Hext.
  destruct (basename_suffix image_path) as [d Hd].
  pose proof (PyFacts.rpartition_app_r "."%char d _ _ _ Hrp) as Hsplit.
  rewrite <- Hd in Hsplit.
  destruct (PyFacts.rpartition_Some _ _ _ _ Hsplit) as [Heq Hafter].
  apply PyFacts.rpartition_None in Hafter.
  rewrite Heq. change (String "."%char after) with ("." +:+ after).
  rewrite (AppRoutesFacts.allowed_file_split (d +:+ before) after Hafter).
  now rewrite bool_decide_eq_true_2.
Qed.

Lemma validate_image_implies_allowed_file_witness :
  AppRoutes.allowed_file "cat.jpg" = Return true /\
  exists img,
    open_path Samples.sample_pillow "cat.jpg" = Return img /\
    Samples.always_verifies img = None.
Proof.
  apply (validate_image_implies_allowed_file Samples.sample_pillow
           Samples.always_verifies "cat.jpg").
  vm_compute. reflexivity.
Defined.

(** The converse fails: a name that is all extension. *)
Lemma allowed_file_not_validate_image :
  AppRoutes.allowed_file ".png" = Return true /\
  forall pil verify, validate_image pil verify ".png" = false.
Proof. split; [reflexivity | intros; reflexivity]. Qed.

(** ** [get_class_weights] *)

Lemma dict_set_fresh {V} (d : list (string * V)) k v :
  ~ In k (map fst d) ->
  Prediction.dict_set String.eqb d k v = d ++ [(k, v)].
Proof.
  induction d as [|[k0 v0] d IH]; cbn [Prediction.dict_set map fst In app];
    [reflexivity|].
  intros Hn. destruct (String.eqb_spec k0 k) as [->|]; [tauto|].
  rewrite IH by tauto. reflexivity.
Qed.

Lemma class_directories_names listing name :
  In name (map fst (class_directories listing)) -> In name (map fst listing).
Proof.
  induction listing as [|[n [e|]] listing IH]; cbn; tauto.
Qed.

Lemma count_classes_distinct listing : forall acc,
  NoDup (map fst acc ++ map fst listing) ->
  count_classes listing acc = acc ++ class_directories listing.
Proof.
  induction listing as [|[name [entries|]] listing IH]; intros acc Hnd;
    cbn [count_classes class_directories flat_map snd fst].
  - now rewrite app_nil_r.
  - cbn [map fst] in Hnd.
    rewrite dict_set_fresh.
    + rewrite IH.
      * now rewrite <- app_assoc.
      * rewrite map_app. cbn [map fst]. rewrite <- app_assoc. exact Hnd.
    + apply NoDup_app in Hnd as (_ & Hdisj & _).
      intros Hin. apply (Hdisj name); [now apply list_elem_of_In | left].
  - cbn [app]. apply IH. cbn [map fst] in Hnd.
    apply NoDup_app in Hnd as (H1 & H2 & H3%NoDup_cons).
    apply NoDup_app. split; [assumption|]. split; [|tauto].
    intros x Hx Hx'. apply (H2 x Hx). now right.
Qed.

Lemma weights_loop_zero total num items : forall idx acc,
  Exists (fun kv : string * Z => snd kv = 0) items ->
  weights_loop total num idx items acc =
  Raised (Raise (OtherException "ZeroDivisionError") "division by zero").
Proof.
  induction items as [|[name count] items IH]; intros idx acc Hex;
    [inversion Hex|].
  cbn [weights_loop]. unfold true_div, mbind, py_bind, bind.
  destruct (Z.eqb_spec (num * count) 0) as [|Hne]; [reflexivity|].
  apply IH. apply Exists_cons in Hex as [H | H]; [|assumption].
  cbn in H. subst count. lia.
Qed.

Lemma weights_loop_positive total num items : forall idx acc,
  0 < num -> Forall (fun kv : string * Z => 0 < snd kv) items ->
  exists ws,
    weights_loop total num idx items acc = Return (acc ++ ws) /\
    map fst ws = seq idx (length items) /\
    Forall2 (fun kv (iw : nat * Q) =>
               snd iw = (inject_Z total / inject_Z (num * snd kv))%Q)
      items ws.
Proof.
  intros idx acc Hnum Hall. revert idx acc.
  induction Hall as [|[name count] items Hc _ IH]; intros idx acc;
    cbn [weights_loop].
  - exists []. rewrite app_nil_r. repeat split. constructor.
  - cbn [snd] in Hc. unfold true_div, mbind, py_bind, bind.
    destruct (Z.eqb_spec (num * count) 0) as [|Hne]; [nia|].
    destruct (IH (S idx) (acc ++ [(idx, (inject_Z total
                                          / inject_Z (num * count))%Q)]))
      as (ws & -> & Hk & Hv).
    eexists (_ :: ws). rewrite <- app_assoc. split; [reflexivity|].
    cbn [map fst length seq]. rewrite Hk. split; [reflexivity|].
    constructor; [reflexivity | assumption].
Qed.

Lemma sum_counts_constant (items : list (string * Z)) c :
  Forall (fun kv => snd kv = c) items ->
  sum_counts items = Z.of_nat (length items) * c.
Proof.
  unfold sum_counts. induction 1 as [|[name count] items Hc _ IH];
    cbn [map foldr length]; [lia|].
  cbn [snd] in *. rewrite IH, Hc. lia.
Qed.

(** X15.  On a listing of distinct names, [get_class_weights] raises
    [ZeroDivisionError] as soon as one class directory is empty; when every
    class directory holds a file it returns one weight per class directory,
    numbered from 0 in listing order, and when all of them hold the same
    number of files every weight is 1. *)
Theorem get_class_weights_balanced (listing : directory_listing) :
  NoDup (map fst listing) ->
  let classes := class_directories listing in
  (Exists (fun kv => snd kv = 0) classes ->
     get_class_weights listing =
     Raised (Raise (OtherException "ZeroDivisionError") "division by zero")) /\
  (Forall (fun kv => 0 < snd kv) classes ->
     exists weights,
       get_class_weights listing = Return weights /\
       map fst weights = seq 0 (length classes) /\
       forall c, Forall (fun kv => snd kv = c) classes ->
                 Forall (fun iw : nat * Q => (snd iw == 1)%Q) weights).
Proof.
  intros Hnd. cbv zeta. unfold get_class_weights.
  rewrite (count_classes_distinct listing []) by exact Hnd.
  cbn [app]. generalize (class_directories listing). intros classes. split.
  - apply weights_loop_zero.
  - intros Hpos. destruct (Nat.eq_dec (length classes) 0%nat) as [Hz|Hnz].
    { destruct classes; [|discriminate]. exists []. repeat split.
      intros; constructor. }
    assert (Hn : 0 < Z.of_nat (length classes)) by lia.
    destruct (weights_loop_positive (sum_counts classes)
                (Z.of_nat (length classes)) classes 0%nat [] Hn Hpos)
      as (ws & -> & Hk & Hv).
    exists ws. split; [reflexivity|]. split; [exact Hk|].
    intros c Hc. rewrite (sum_counts_constant classes c Hc) in Hv.
    assert (Hcpos : 0 < c).
    { destruct classes as [|kv0 rest]; [contradiction|].
      apply Forall_cons in Hc as [<- _].
      now apply Forall_cons in Hpos as [? _]. }
    revert Hv Hc. generalize (Z.of_nat (length classes)) Hn. clear - Hcpos.
    intros n Hn Hv. induction Hv as [|kv iw items ws' Hw _ IH]; intros Hc;
      [constructor|].
    apply Forall_cons in Hc as [Hc0 Hc].
    constructor; [|now apply IH].
    rewrite Hw, Hc0. unfold Qdiv. apply Qmult_inv_r.
    unfold Qeq. cbn. nia.
Qed.

Lemma sample_listing_distinct : NoDup (map fst Samples.sample_listing).
Proof. apply (bool_decide_unpack _). vm_compute. exact Logic.I. Defined.

Lemma get_class_weights_balanced_witness :
  let classes := class_directories Samples.sample_listing in
  (Exists (fun kv => snd kv = 0) classes ->
     get_class_weights Samples.sample_listing =
     Raised (Raise (OtherException "ZeroDivisionError") "division by zero")) /\
  (Forall (fun kv => 0 < snd kv) classes ->
     exists weights,
       get_class_weights Samples.sample_listing = Return weights /\
       map fst weights = seq 0 (length classes) /\
       forall c, Forall (fun kv => snd kv = c) classes ->
                 Forall (fun iw : nat * Q => (snd iw == 1)%Q) weights).
Proof.
  exact (get_class_weights_balanced Samples.sample_listing
           sample_listing_distinct).
Defined.

End PreprocessingRestFacts.

(* ===================================================================== *)
(** * Properties of the prediction route, the reload and the dataset statistics *)
(* ===================================================================== *)

Module ServingFacts.

Import Preprocessing Prediction PredictionRest PreprocessingRest AppRoutes.
Local Open Scope list_scope.

Lemma allowed_file_returns filename :
  exists b, allowed_file filename = Return b.
Proof.
  destruct (rpartition "."%char filename) as [[stem ext]|] eqn:E.
  - destruct (PyFacts.rpartition_Some _ _ _ _ E) as [-> Hext].
    apply PyFacts.rpartition_None in Hext.
    eexists. change (String "."%char ext) with ("." +:+ ext).
    now apply AppRoutesFacts.allowed_file_split.
  - exists false. unfold allowed_file.
    apply PyFacts.rpartition_None in E. now rewrite E.
Qed.

(** ** [/api/predict] *)

(** X16.  [/api/predict] answers 400 without a file part and for a file
    whose name has no allowed extension, leaving the log alone; for an
    allowed name it answers 200 with the record of
    [predict_uploaded_image], which it appends to the log, whatever the
    bytes of the upload are; with no service loaded it answers 500. *)
Theorem api_predict_replies pil g now open_w log :
  api_predict pil g now open_w None log =
    Return (Reply {[ "error" := PyStr "No file provided" ]} 400, log) /\
  forall file name, filename file = Some name ->
    (allowed_file name = Return false ->
       api_predict pil g now open_w (Some file) log =
       Return (Reply {[ "error" := PyStr "Invalid file" ]} 400, log)) /\
    (allowed_file name = Return true ->
       (forall service, prediction_service g = Some service ->
          exists result,
            predict_uploaded_image pil service now file = Return result /\
            result !! "filename" = Some (PyStr name) /\
            api_predict pil g now open_w (Some file) log =
            Return (Reply result 200,
                    save_prediction_log result open_w log)) /\
       (prediction_service g = None ->
          exists message,
            api_predict pil g now open_w (Some file) log =
            Return (Reply {[ "error" := PyStr message ]} 500, log))).
Proof.
  split; [reflexivity|]. intros file name Hname.
  unfold api_predict, get_filename. rewrite Hname.
  unfold mbind, py_bind, bind. split.
  - intros ->. destruct (String.eqb name ""); reflexivity.
  - intros Hallowed. rewrite Hallowed.
    destruct (String.eqb_spec name "") as [->|_]; [discriminate Hallowed|].
    cbn [negb]. split.
    + intros service ->.
      destruct (PredictionFacts.predict_uploaded_image_well_formed
                  pil service now file) as (r & Hr & Hkey & _).
      exists r. rewrite Hr. cbn [try_except].
      unfold getattr_filename in Hkey. rewrite Hname in Hkey.
      repeat split; assumption.
    + intros ->. eexists. reflexivity.
Qed.

(** An upload with an allowed name and no bytes: the answer is 200, the
    record says that the prediction failed, and it is logged. *)
Lemma api_predict_undecodable_upload :
  exists r,
    api_predict Samples.sample_pillow
      {| prediction_service := Some Samples.sample_service;
         model_start_time := Some 0 |}
      "2024-01-01T00:00:00" None (Some Samples.empty_upload) None
    = Return (Reply r 200, Some (Return [r])) /\
    r !! "success" = Some (PyBool false) /\
    r !! "error" =
      Some (PyStr "Error preprocessing uploaded image: cannot identify image file").
Proof. eexists. split; [reflexivity|]. split; reflexivity. Qed.

(** ** [initialize_model] *)

(** X17.  When [initialize_model] answers [False] the service and its start
    time are what they were; when it answers [True] the model file holds
    an archive, which the new service uses, the class names are those of
    the class-indices file, the service prepares images at 128 by 128, and
    the start time is the present. *)
Theorem initialize_model_outcome fs model_path class_indices_file now g :
  exists ok g',
    initialize_model fs model_path class_indices_file now g = (ok, g') /\
    (ok = false -> g' = g) /\
    (ok = true ->
     exists service m class_indices,
       prediction_service g' = Some service /\
       model_start_time g' = Some now /\
       Model.files fs !! model_path = Some (Model.KerasArchive m) /\
       Model.model (classifier service) = Some m /\
       class_indices_file = Return class_indices /\
       Prediction.class_indices service = class_indices /\
       index_to_class service = reverse_mapping class_indices /\
       Preprocessing.img_size (preprocessor service) = (128%nat, 128%nat)).
Proof.
  unfold initialize_model.
  destruct (negb (Model.path_exists fs model_path)).
  { exists false, g. repeat split. discriminate. }
  unfold PredictionService_init, mbind, py_bind, bind.
  destruct (Model.load_model _ model_path fs) as [c|e] eqn:Hload.
  2: { exists false, g. repeat split. discriminate. }
  destruct class_indices_file as [ci|e].
  2: { exists false, g. repeat split. discriminate. }
  eexists true, _. split; [reflexivity|]. split; [discriminate|]. intros _.
  destruct (ModelRestFacts.load_model_inv _ _ _ _ Hload)
    as (m & Hfile & _ & Hm & _).
  eexists _, m, ci. cbn. repeat split; assumption.
Qed.

(** ** [get_dataset_statistics] *)

Lemma allowed_only_spec entries :
  allowed_only entries = Return (List.filter counts_as_image entries).
Proof.
  induction entries as [|f rest IH]; [reflexivity|].
  cbn [allowed_only List.filter]. unfold counts_as_image at 1.
  destruct (allowed_file_returns f) as [b ->]. rewrite IH.
  unfold mbind, py_bind, bind. destruct b; reflexivity.
Qed.

Lemma sum_counts_app a b : sum_counts (a ++ b) = sum_counts a + sum_counts b.
Proof.
  unfold sum_counts. induction a as [|[k v] a IH]; cbn [app map foldr snd];
    [lia|]. rewrite IH. lia.
Qed.

Lemma dataset_loop_distinct listing : forall classes total,
  NoDup (map fst classes ++ map fst listing) ->
  dataset_loop listing classes total =
  Return (classes ++ dataset_classes listing,
          total + sum_counts (dataset_classes listing)).
Proof.
  induction listing as [|[name [entries|]] listing IH]; intros classes total Hnd;
    cbn [dataset_loop dataset_classes flat_map snd fst].
  - rewrite app_nil_r. unfold sum_counts. cbn. now rewrite Z.add_0_r.
  - rewrite allowed_only_spec. unfold mbind, py_bind, bind.
    cbn [map fst] in Hnd.
    rewrite PreprocessingRestFacts.dict_set_fresh.
    + rewrite IH.
      * rewrite <- app_assoc. cbn [app].
        change ((name, ?n) :: ?l) with ([(name, n)] ++ l).
        rewrite (sum_counts_app [_]). unfold sum_counts at 2. cbn [map foldr snd].
        f_equal. f_equal. fold (dataset_classes listing). lia.
      * rewrite map_app. cbn [map fst]. rewrite <- app_assoc. exact Hnd.
    + apply NoDup_app in Hnd as (_ & Hdisj & _).
      intros Hin. apply (Hdisj name); [now apply list_elem_of_In | left].
  - cbn [app]. apply IH. cbn [map fst] in Hnd.
    apply NoDup_app in Hnd as (H1 & H2 & H3%NoDup_cons).
    apply NoDup_app. split; [assumption|]. split; [|tauto].
    intros x Hx Hx'. apply (H2 x Hx). now right.
Qed.

(** X18.  Over a training directory (whose entries have distinct names)
    [get_dataset_statistics] lists the class directories in listing order,
    each with the number of its entries that [allowed_file] accepts, and
    [total_images] is the sum of these counts. *)
Theorem get_dataset_statistics_totals (listing : directory_listing) :
  NoDup (map fst listing) ->
  get_dataset_statistics (Some listing) =
  Return (dataset_classes listing, sum_counts (dataset_classes listing)).
Proof.
  intros Hnd. unfold get_dataset_statistics.
  now rewrite (dataset_loop_distinct listing [] 0 Hnd).
Qed.

Lemma get_dataset_statistics_totals_witness :
  get_dataset_statistics (Some Samples.sample_listing) =
  Return ([("cats", 2); ("dogs", 1)], 3).
Proof.
  exact (get_dataset_statistics_totals Samples.sample_listing
           PreprocessingRestFacts.sample_listing_distinct).
Defined.

End ServingFacts.
